(** * vault-plugin-secrets-proxmox: a shallow embedding of the secrets backend

    The development follows the Go package file by file: the runtime
    notions the handlers rely on (interface values, int64 durations,
    error returns and panics), the collaborators they consume (field data,
    storage, responses, the Proxmox API client, UUIDs), and then the
    backend itself: [path_config.go], the client constructor, [backend.go],
    the role paths, [path_credentials.go] and [proxmox_api_token.go]. *)

From Stdlib Require Import ZArith SpecFloat Ascii String Strings.Byte.
From stdpp Require Import gmap strings list fin_maps vector.

Open Scope Z_scope.
Open Scope string_scope.

(** ** Go runtime notions *)

Module Go.

(** The dynamic values ([interface{}]) that travel through field data,
    response payloads, lease metadata and JSON documents. *)
Inductive Value : Type :=
| VString (s : string)
| VBool (b : bool)
| VInt (z : Z)
| VFloat (f : spec_float).

(** What a call can do: return, return a non-nil [error] (carried as its
    message), or panic. *)
Inductive Outcome (A : Type) : Type :=
| Ret (a : A)
| Fail (err : string)
| Panic (msg : string).
Arguments Ret {A} a.
Arguments Fail {A} err.
Arguments Panic {A} msg.

(** Single-value type assertions [v.(string)], [v.(bool)], [v.(int)]
    panic on a mismatch. *)
Definition assert_string (v : Value) : Outcome string :=
  match v with
  | VString s => Ret s
  | _ => Panic "interface conversion: interface {} is not string"
  end.

Definition assert_bool (v : Value) : Outcome bool :=
  match v with
  | VBool b => Ret b
  | _ => Panic "interface conversion: interface {} is not bool"
  end.

Definition assert_int (v : Value) : Outcome Z :=
  match v with
  | VInt z => Ret z
  | _ => Panic "interface conversion: interface {} is not int"
  end.

(** [int64] arithmetic wraps around. *)
Definition wrap64 (z : Z) : Z :=
  (z + 2 ^ 63) mod 2 ^ 64 - 2 ^ 63.

(** [time.Duration] is an [int64] count of nanoseconds. *)
Definition Second : Z := 1000000000.

(** [time.Duration(n) * time.Second] *)
Definition seconds_to_Duration (n : Z) : Z := wrap64 (wrap64 n * Second).

(** [float64] as IEEE binary64. *)
Definition prec : Z := 53.
Definition emax : Z := 1024.

(** [float64(i)] for an integer [i]: round to nearest even. *)
Definition float64_of_int (z : Z) : spec_float :=
  binary_normalize prec emax z 0 false.

(** [int(f)] for a finite [f] within range: truncation towards zero. *)
Definition int_of_float64 (f : spec_float) : Z :=
  match f with
  | S754_finite s m e =>
      let a := match e with
               | Z0 => Zpos m
               | Zpos p => Z.shiftl (Zpos m) (Zpos p)
               | Zneg p => Z.shiftr (Zpos m) (Zpos p)
               end in
      if s then - a else a
  | _ => 0
  end.

(** [func (d Duration) Seconds() float64]:
    [sec := d / Second; nsec := d % Second;
     return float64(sec) + float64(nsec)/1e9] *)
Definition Seconds (d : Z) : spec_float :=
  let sec := Z.quot d Second in
  let nsec := Z.rem d Second in
  SFadd prec emax (float64_of_int sec)
    (SFdiv prec emax (float64_of_int nsec) (float64_of_int 1000000000)).

End Go.
Export Go.

(** ** [strings.NewReplacer] on single-byte pairs, and [fmt.Sprintf] *)

Module Strings.

(** With every old and new string one byte long the replacer is a byte
    table: each byte is looked up on its own, the first pair whose old
    byte matches wins, and replacements are never rescanned. *)
Fixpoint replaceByte (oldnew : list (ascii * ascii)) (c : ascii) : ascii :=
  match oldnew with
  | [] => c
  | (o, n) :: rest => if Ascii.eqb c o then n else replaceByte rest c
  end.

Fixpoint Replace (oldnew : list (ascii * ascii)) (s : string) : string :=
  match s with
  | EmptyString => EmptyString
  | String c rest => String (replaceByte oldnew c) (Replace oldnew rest)
  end.

(** [fmt.Sprintf("%s@%s!%s", a, b, c)] *)
Definition Sprintf_at_bang (a b c : string) : string :=
  a +:+ "@" +:+ b +:+ "!" +:+ c.

Definition is_digit (c : ascii) : bool :=
  let n := N_of_ascii c in (48 <=? n)%N && (n <=? 57)%N.

Definition is_alpha (c : ascii) : bool :=
  let n := N_of_ascii c in
  ((65 <=? n)%N && (n <=? 90)%N) || ((97 <=? n)%N && (n <=? 122)%N).

Fixpoint has_digit (s : string) : bool :=
  match s with
  | EmptyString => false
  | String c rest => is_digit c || has_digit rest
  end.

Definition starts_alpha (s : string) : bool :=
  match s with
  | EmptyString => false
  | String c _ => is_alpha c
  end.

End Strings.
Export Strings.

(** ** [github.com/google/uuid]

    The library is a dependency of the package; [String] is modelled after
    the canonical form it produces, five groups of lowercase hexadecimal
    digits separated by hyphens. *)

Module uuid.

(** [type UUID [16]byte] *)
Definition UUID : Type := vec Byte.byte 16.

Definition hextable : list ascii := list_ascii_of_string "0123456789abcdef".

Definition hexdigit (n : N) : ascii :=
  nth (N.to_nat n) hextable "0"%char.

(** [hex.Encode]: two digits per byte, high nibble first. *)
Fixpoint hex_Encode (src : list Byte.byte) : string :=
  match src with
  | [] => EmptyString
  | v :: rest =>
      String (hexdigit (N.shiftr (Byte.to_N v) 4))
        (String (hexdigit (N.land (Byte.to_N v) 15)) (hex_Encode rest))
  end.

(** [func (uuid UUID) String() string]: the canonical
    xxxxxxxx-xxxx-xxxx-xxxx-xxxxxxxxxxxx form. *)
Definition String_ (uuid : UUID) : string :=
  let b := vec_to_list uuid in
  hex_Encode (take 4 b) +:+ "-" +:+
  hex_Encode (take 2 (drop 4 b)) +:+ "-" +:+
  hex_Encode (take 2 (drop 6 b)) +:+ "-" +:+
  hex_Encode (take 2 (drop 8 b)) +:+ "-" +:+
  hex_Encode (drop 10 b).

End uuid.

(** ** [github.com/hashicorp/vault/sdk/logical]

    The part of the SDK the handlers touch: operations, responses, lease
    records and the storage interface. *)

Module logical.

Inductive Operation : Type :=
| CreateOperation
| ReadOperation
| UpdateOperation
| DeleteOperation.

Definition Operation_eqb (a b : Operation) : bool :=
  match a, b with
  | CreateOperation, CreateOperation
  | ReadOperation, ReadOperation
  | UpdateOperation, UpdateOperation
  | DeleteOperation, DeleteOperation => true
  | _, _ => false
  end.

(** [logical.Secret]: the lease record.  [InternalData] is the metadata
    the plugin attaches to a lease (the lease manager hands it back on
    revoke and renew); [TTL] and [MaxTTL] are the lease options, zero
    meaning that the system default applies. *)
Record Secret : Type := mkSecret {
  InternalData : gmap string Value;
  TTL : Z;
  MaxTTL : Z
}.

Record Response : Type := mkResponse {
  Data : gmap string Value;
  Secret_ : option Secret
}.

(** [logical.ErrorResponse(text)]: a user-facing error, returned as a
    response together with a nil [error]. *)
Definition ErrorResponse (text : string) : Response :=
  {| Data := {[ "error" := VString text ]}; Secret_ := None |}.

Definition IsError (r : Response) : bool :=
  bool_decide (size (Data r) = 1%nat) &&
  bool_decide (is_Some (Data r !! "error")).

(** [logical.Storage]: a key-value store of JSON documents.  A document
    is kept as the object it denotes, member name to value.  Every
    operation can fail; [fault] says which ones do. *)
Inductive StorageOp : Type := OpGet | OpPut | OpDelete.

Record Storage : Type := mkStorage {
  entries : gmap string (gmap string Value);
  fault : StorageOp -> string -> option string
}.

Definition Get (s : Storage) (key : string)
  : Outcome (option (gmap string Value)) :=
  match fault s OpGet key with
  | Some e => Fail e
  | None => Ret (entries s !! key)
  end.

Definition Put (s : Storage) (key : string) (doc : gmap string Value)
  : Outcome Storage :=
  match fault s OpPut key with
  | Some e => Fail e
  | None => Ret {| entries := <[key := doc]> (entries s); fault := fault s |}
  end.

Definition Delete (s : Storage) (key : string) : Outcome Storage :=
  match fault s OpDelete key with
  | Some e => Fail e
  | None => Ret {| entries := delete key (entries s); fault := fault s |}
  end.

(** [logical.InmemStorage] holding [m]: nothing fails. *)
Definition InmemStorage (m : gmap string (gmap string Value)) : Storage :=
  {| entries := m; fault := fun _ _ => None |}.

(** Reading one member while decoding a document into a struct: an absent
    member leaves the field at its zero value, a member of another JSON
    type is a decoding error. *)
Definition member_string (doc : gmap string Value) (k : string)
  : Outcome string :=
  match doc !! k with
  | None => Ret ""
  | Some (VString s) => Ret s
  | Some _ => Fail ("json: cannot unmarshal member " +:+ k)
  end.

Definition member_bool (doc : gmap string Value) (k : string)
  : Outcome bool :=
  match doc !! k with
  | None => Ret false
  | Some (VBool b) => Ret b
  | Some _ => Fail ("json: cannot unmarshal member " +:+ k)
  end.

Definition member_int64 (doc : gmap string Value) (k : string)
  : Outcome Z :=
  match doc !! k with
  | None => Ret 0
  | Some (VInt z) => Ret z
  | Some _ => Fail ("json: cannot unmarshal member " +:+ k)
  end.

End logical.

(** ** [github.com/hashicorp/vault/sdk/framework]

    Field schemas and the field data a callback receives. *)

Module framework.

Inductive FieldType : Type :=
| TypeString
| TypeLowerCaseString
| TypeBool
| TypeInt
| TypeDurationSecond.

Record FieldSchema : Type := mkFieldSchema {
  Type_ : FieldType;
  Required : bool;
  Default : option Value
}.

(** [framework.FieldData] as a callback sees it: [Raw] holds the supplied
    fields, already converted to the Go type of their schema entry
    ([string], [bool], [int]; a duration is an [int] of seconds). *)
Record FieldData : Type := mkFieldData {
  Raw : gmap string Value;
  Schema : gmap string FieldSchema
}.

Definition Zero (t : FieldType) : Value :=
  match t with
  | TypeString | TypeLowerCaseString => VString ""
  | TypeBool => VBool false
  | TypeInt | TypeDurationSecond => VInt 0
  end.

Definition DefaultOrZero (s : FieldSchema) : Value :=
  match Default s with
  | Some v => v
  | None => Zero (Type_ s)
  end.

(** [d.GetOk(k)]: the value and whether it was supplied. *)
Definition GetOk (d : FieldData) (k : string) : option Value :=
  match Schema d !! k with
  | None => None
  | Some _ => Raw d !! k
  end.

(** [d.Get(k)]: the value, or the schema default, or the zero value;
    panics on a field that is not in the schema. *)
Definition Get (d : FieldData) (k : string) : Outcome Value :=
  match Schema d !! k with
  | None => Panic ("field " +:+ k +:+ " not in the schema")
  | Some s =>
      match Raw d !! k with
      | Some v => Ret v
      | None => Ret (DefaultOrZero s)
      end
  end.

Definition GetDefaultOrZero (d : FieldData) (k : string) : Outcome Value :=
  match Schema d !! k with
  | None => Panic ("field " +:+ k +:+ " not in the schema")
  | Some s => Ret (DefaultOrZero s)
  end.

Definition has_type (t : FieldType) (v : Value) : bool :=
  match t, v with
  | (TypeString | TypeLowerCaseString), VString _ => true
  | TypeBool, VBool _ => true
  | (TypeInt | TypeDurationSecond), VInt _ => true
  | _, _ => false
  end.

(** What the framework has checked before a callback runs: every
    supplied field that the schema knows has the schema's type. *)
Definition Validate (d : FieldData) : bool :=
  forallb (fun kv =>
             match Schema d !! kv.1 with
             | None => true
             | Some s => has_type (Type_ s) kv.2
             end)
          (map_to_list (Raw d)).

End framework.

(** ** [github.com/Telmate/proxmox-api-go/proxmox]

    The client library, as far as the package uses it: the client record
    and the three requests that go to the cluster.  What the cluster
    answers is left to the environment of the backend. *)

Module pxapi.

(** A client is what [NewClient] was given plus the API token installed
    by [SetAPIToken]. *)
Record Client : Type := mkClient {
  ApiUrl : string;
  HTTPHeaders : string;
  InsecureSkipVerify : bool;
  ProxyServer : string;
  TaskTimeout : Z;
  APIToken : option (string * string)
}.

Record UserID : Type := mkUserID { Name : string; Realm : string }.

Record ApiToken : Type := mkApiToken {
  TokenId : string;
  Comment : string;
  Expire : Z;
  Privsep : bool
}.

(** The requests that reach the Proxmox cluster. *)
Inductive Call : Type :=
| NewConfigUserFromApi (c : Client) (u : UserID)
| CreateApiToken (c : Client) (u : UserID) (t : ApiToken)
| DeleteApiToken (c : Client) (u : UserID) (t : ApiToken).

Inductive Reply : Type :=
| Ok (body : string)
| Err (msg : string).

Definition is_DeleteApiToken (c : Call) : bool :=
  match c with
  | DeleteApiToken _ _ _ => true
  | _ => false
  end.

End pxapi.

(** ** The backend's records *)

(** [type proxmoxConfig struct], with its JSON member names. *)
Module proxmoxConfig.

Record t : Type := mk {
  User : string;
  Realm : string;
  ApiTokenID : string;
  ApiTokenSecret : string;
  ApiURL : string;
  SkipCertValidation : bool;
  HTTPHeaders : string;
  ProxyServer : string;
  TaskTimeout : Z
}.

(** [new(proxmoxConfig)] *)
Definition zero : t := mk "" "" "" "" "" false "" "" 0.

Definition set_User (v : string) (c : t) : t :=
  mk v (Realm c) (ApiTokenID c) (ApiTokenSecret c) (ApiURL c)
     (SkipCertValidation c) (HTTPHeaders c) (ProxyServer c) (TaskTimeout c).
Definition set_Realm (v : string) (c : t) : t :=
  mk (User c) v (ApiTokenID c) (ApiTokenSecret c) (ApiURL c)
     (SkipCertValidation c) (HTTPHeaders c) (ProxyServer c) (TaskTimeout c).
Definition set_ApiTokenID (v : string) (c : t) : t :=
  mk (User c) (Realm c) v (ApiTokenSecret c) (ApiURL c)
     (SkipCertValidation c) (HTTPHeaders c) (ProxyServer c) (TaskTimeout c).
Definition set_ApiTokenSecret (v : string) (c : t) : t :=
  mk (User c) (Realm c) (ApiTokenID c) v (ApiURL c)
     (SkipCertValidation c) (HTTPHeaders c) (ProxyServer c) (TaskTimeout c).
Definition set_ApiURL (v : string) (c : t) : t :=
  mk (User c) (Realm c) (ApiTokenID c) (ApiTokenSecret c) v
     (SkipCertValidation c) (HTTPHeaders c) (ProxyServer c) (TaskTimeout c).
Definition set_SkipCertValidation (v : bool) (c : t) : t :=
  mk (User c) (Realm c) (ApiTokenID c) (ApiTokenSecret c) (ApiURL c)
     v (HTTPHeaders c) (ProxyServer c) (TaskTimeout c).
Definition set_HTTPHeaders (v : string) (c : t) : t :=
  mk (User c) (Realm c) (ApiTokenID c) (ApiTokenSecret c) (ApiURL c)
     (SkipCertValidation c) v (ProxyServer c) (TaskTimeout c).
Definition set_ProxyServer (v : string) (c : t) : t :=
  mk (User c) (Realm c) (ApiTokenID c) (ApiTokenSecret c) (ApiURL c)
     (SkipCertValidation c) (HTTPHeaders c) v (TaskTimeout c).
Definition set_TaskTimeout (v : Z) (c : t) : t :=
  mk (User c) (Realm c) (ApiTokenID c) (ApiTokenSecret c) (ApiURL c)
     (SkipCertValidation c) (HTTPHeaders c) (ProxyServer c) v.

(** [logical.StorageEntryJSON(_, config)] *)
Definition toJSON (c : t) : gmap string Value :=
  <[ "user" := VString (User c) ]>
  (<[ "realm" := VString (Realm c) ]>
  (<[ "token_id" := VString (ApiTokenID c) ]>
  (<[ "token_secret" := VString (ApiTokenSecret c) ]>
  (<[ "proxmox_url" := VString (ApiURL c) ]>
  (<[ "insecure_skip_tls_verify" := VBool (SkipCertValidation c) ]>
  (<[ "http_headers" := VString (HTTPHeaders c) ]>
  (<[ "proxy_server" := VString (ProxyServer c) ]>
  (<[ "timeout" := VInt (TaskTimeout c) ]> ∅)))))))).

(** [entry.DecodeJSON(&config)] *)
Definition fromJSON (doc : gmap string Value) : Outcome t :=
  match logical.member_string doc "user",
        logical.member_string doc "realm",
        logical.member_string doc "token_id",
        logical.member_string doc "token_secret",
        logical.member_string doc "proxmox_url",
        logical.member_bool doc "insecure_skip_tls_verify",
        logical.member_string doc "http_headers",
        logical.member_string doc "proxy_server",
        logical.member_int64 doc "timeout" with
  | Ret u, Ret r, Ret i, Ret s, Ret a, Ret k, Ret h, Ret p, Ret tm =>
      Ret (mk u r i s a k h p tm)
  | _, _, _, _, _, _, _, _, _ => Fail "json: cannot unmarshal into proxmoxConfig"
  end.

End proxmoxConfig.

(** [type proxmoxRoleEntry struct], with its JSON member names. *)
Module proxmoxRoleEntry.

Record t : Type := mk {
  Name : string;
  User : string;
  Realm : string;
  TTL : Z;
  MaxTTL : Z
}.

Definition set_User (v : string) (r : t) : t :=
  mk (Name r) v (Realm r) (TTL r) (MaxTTL r).
Definition set_Realm (v : string) (r : t) : t :=
  mk (Name r) (User r) v (TTL r) (MaxTTL r).
Definition set_TTL (v : Z) (r : t) : t :=
  mk (Name r) (User r) (Realm r) v (MaxTTL r).
Definition set_MaxTTL (v : Z) (r : t) : t :=
  mk (Name r) (User r) (Realm r) (TTL r) v.

Definition toJSON (r : t) : gmap string Value :=
  <[ "name" := VString (Name r) ]>
  (<[ "user" := VString (User r) ]>
  (<[ "realm" := VString (Realm r) ]>
  (<[ "ttl" := VInt (TTL r) ]>
  (<[ "max_ttl" := VInt (MaxTTL r) ]> ∅)))).

(** [func (r *proxmoxRoleEntry) toResponseData() map[string]interface{}] *)
Definition toResponseData (r : t) : gmap string Value :=
  <[ "name" := VString (Name r) ]>
  (<[ "user" := VString (User r) ]>
  (<[ "realm" := VString (Realm r) ]>
  (<[ "ttl" := VFloat (Seconds (TTL r)) ]>
  (<[ "max_ttl" := VFloat (Seconds (MaxTTL r)) ]> ∅)))).

Definition fromJSON (doc : gmap string Value) : Outcome t :=
  match logical.member_string doc "name",
        logical.member_string doc "user",
        logical.member_string doc "realm",
        logical.member_int64 doc "ttl",
        logical.member_int64 doc "max_ttl" with
  | Ret n, Ret u, Ret r, Ret tl, Ret mx => Ret (mk n u r tl mx)
  | _, _, _, _, _ => Fail "json: cannot unmarshal into proxmoxRoleEntry"
  end.

End proxmoxRoleEntry.

(** ** The world a request runs in *)

Module Proxmox.

(** [type proxmoxClient struct { *pxapi.Client }] *)
Definition proxmoxClient : Type := pxapi.Client.

(** [type proxmoxToken struct] *)
Record proxmoxToken : Type := mkToken {
  TokenID : string;
  Secret : string
}.

(** What the package cannot decide by itself: whether the client library
    accepts the connection parameters, what the cluster answers to a
    request (given the requests it has seen before), and which UUIDs the
    random source yields. *)
Record Env : Type := mkEnv {
  NewClient_err : string -> string -> option bool -> string -> Z -> option string;
  answer : list pxapi.Call -> pxapi.Call -> pxapi.Reply;
  uuid_source : nat -> uuid.UUID
}.

(** The mutable state: the backend's cached client ([b.client]), the
    storage of the mount ([req.Storage]), the requests sent to the
    cluster so far, the number of UUIDs drawn, and the wall clock in
    nanoseconds since the epoch. *)
Record State : Type := mkState {
  client : option proxmoxClient;
  storage : logical.Storage;
  calls : list pxapi.Call;
  drawn : nat;
  now : Z
}.

Definition set_client (c : option proxmoxClient) (w : State) : State :=
  mkState c (storage w) (calls w) (drawn w) (now w).
Definition set_storage (s : logical.Storage) (w : State) : State :=
  mkState (client w) s (calls w) (drawn w) (now w).
Definition set_calls (l : list pxapi.Call) (w : State) : State :=
  mkState (client w) (storage w) l (drawn w) (now w).
Definition set_drawn (n : nat) (w : State) : State :=
  mkState (client w) (storage w) (calls w) n (now w).

(** A Go function body: it runs on the state and returns, fails or
    panics, leaving a state behind in each case. *)
Definition M (A : Type) : Type := State -> Outcome A * State.

Definition ret {A} (a : A) : M A := fun w => (Ret a, w).
Definition fail {A} (e : string) : M A := fun w => (Fail e, w).
Definition panic {A} (msg : string) : M A := fun w => (Panic msg, w).

Definition bind {A B} (m : M A) (k : A -> M B) : M B :=
  fun w =>
    match m w with
    | (Ret a, w') => k a w'
    | (Fail e, w') => (Fail e, w')
    | (Panic p, w') => (Panic p, w')
    end.

Notation "'do' x <- m ; k" := (bind m (fun x => k))
  (at level 10, x name, m at level 100, k at level 200).
Notation "'do_' m ; k" := (bind m (fun _ => k))
  (at level 10, m at level 100, k at level 200).

(** A pure call placed in a body. *)
Definition lift {A} (o : Outcome A) : M A := fun w => (o, w).

(** [if err != nil { return nil, fmt.Errorf(prefix + "%w", err) }] *)
Definition wrapErr {A} (prefix : string) (m : M A) : M A :=
  fun w =>
    match m w with
    | (Fail e, w') => (Fail (prefix +:+ e), w')
    | r => r
    end.

(** Field access through a pointer: a nil pointer panics. *)
Definition deref {A} (p : option A) : M A :=
  match p with
  | Some a => ret a
  | None => panic "runtime error: invalid memory address or nil pointer dereference"
  end.

(** [len(s)] *)
Definition len (s : string) : Z := Z.of_nat (String.length s).

Definition storage_Get (key : string) : M (option (gmap string Value)) :=
  fun w => (logical.Get (storage w) key, w).

Definition storage_Put (key : string) (doc : gmap string Value) : M unit :=
  fun w =>
    match logical.Put (storage w) key doc with
    | Ret s' => (Ret tt, set_storage s' w)
    | Fail e => (Fail e, w)
    | Panic p => (Panic p, w)
    end.

Definition storage_Delete (key : string) : M unit :=
  fun w =>
    match logical.Delete (storage w) key with
    | Ret s' => (Ret tt, set_storage s' w)
    | Fail e => (Fail e, w)
    | Panic p => (Panic p, w)
    end.

Section Backend.

Variable env : Env.

(** One request to the cluster: it is sent (and recorded) and the
    answer is a body or an error. *)
Definition request (c : pxapi.Call) : M string :=
  fun w =>
    let w' := set_calls (calls w ++ [c]) w in
    match answer env (calls w) c with
    | pxapi.Ok body => (Ret body, w')
    | pxapi.Err e => (Fail e, w')
    end.

(** [uuid.New()] *)
Definition uuid_New : M uuid.UUID :=
  fun w => (Ret (uuid_source env (drawn w)), set_drawn (S (drawn w)) w).

(** [time.Now()] *)
Definition time_Now : M Z := fun w => (Ret (now w), w).

(** *** path_config.go *)

Definition configStoragePath : string := "config".

(** The [Fields] of [pathConfig]. *)
Definition configFields : gmap string framework.FieldSchema :=
  <[ "user" := framework.mkFieldSchema framework.TypeString true None ]>
  (<[ "realm" := framework.mkFieldSchema framework.TypeString true None ]>
  (<[ "token_id" := framework.mkFieldSchema framework.TypeString true None ]>
  (<[ "token_secret" := framework.mkFieldSchema framework.TypeString true None ]>
  (<[ "proxmox_url" := framework.mkFieldSchema framework.TypeString true None ]>
  (<[ "insecure_skip_tls_verify" :=
        framework.mkFieldSchema framework.TypeBool false (Some (VBool false)) ]>
  (<[ "http_headers" :=
        framework.mkFieldSchema framework.TypeString false (Some (VString "")) ]>
  (<[ "proxy_server" :=
        framework.mkFieldSchema framework.TypeString false (Some (VString "")) ]>
  (<[ "timeout" :=
        framework.mkFieldSchema framework.TypeInt false (Some (VInt 120)) ]>
   ∅)))))))).

Definition getConfig : M (option proxmoxConfig.t) :=
  do entry <- storage_Get configStoragePath;
  match entry with
  | None => ret None
  | Some doc =>
      do config <- wrapErr "error reading root configration: "
                     (lift (proxmoxConfig.fromJSON doc));
      ret (Some config)
  end.

(** The response literal of [pathConfigRead] reads its fields through
    [c], whatever [getConfig] returned. *)
Definition pathConfigRead : M (option logical.Response) :=
  do c <- getConfig;
  do c <- deref c;
  ret (Some
    {| logical.Data :=
         <[ "user" := VString (proxmoxConfig.User c) ]>
         (<[ "realm" := VString (proxmoxConfig.Realm c) ]>
         (<[ "token_id" := VString (proxmoxConfig.ApiTokenID c) ]>
         (<[ "proxmox_url" := VString (proxmoxConfig.ApiURL c) ]>
         (<[ "insecure_skip_tls_verify" :=
               VBool (proxmoxConfig.SkipCertValidation c) ]>
         (<[ "http_headers" := VString (proxmoxConfig.HTTPHeaders c) ]>
         (<[ "proxy_server" := VString (proxmoxConfig.ProxyServer c) ]>
         (<[ "timeout" :=
               VInt (int_of_float64 (Seconds (proxmoxConfig.TaskTimeout c))) ]>
          ∅)))))));
       logical.Secret_ := None |}).

(** [func (b *proxmoxBackend) reset()] *)
Definition reset : M unit := fun w => (Ret tt, set_client None w).

Definition pathConfigWrite (op : logical.Operation) (data : framework.FieldData)
  : M (option logical.Response) :=
  do config <- getConfig;
  let createOperation := logical.Operation_eqb op logical.CreateOperation in
  do config <-
    match config with
    | None =>
        if negb createOperation
        then fail "config not found during update operation"
        else ret proxmoxConfig.zero
    | Some c => ret c
    end;
  do config <-
    match framework.GetOk data "user" with
    | Some v => do s <- lift (assert_string v); ret (proxmoxConfig.set_User s config)
    | None =>
        if createOperation then fail "missing user in configuration" else ret config
    end;
  do config <-
    match framework.GetOk data "realm" with
    | Some v => do s <- lift (assert_string v); ret (proxmoxConfig.set_Realm s config)
    | None =>
        if createOperation then fail "missing realm in configuration" else ret config
    end;
  do config <-
    match framework.GetOk data "token_id" with
    | Some v => do s <- lift (assert_string v); ret (proxmoxConfig.set_ApiTokenID s config)
    | None =>
        if createOperation then fail "missing token_id in configuration" else ret config
    end;
  do config <-
    match framework.GetOk data "token_secret" with
    | Some v =>
        do s <- lift (assert_string v);
        ret (proxmoxConfig.set_ApiTokenSecret s config)
    | None =>
        if createOperation then fail "missing token_secret in configuration" else ret config
    end;
  do config <-
    (let missing :=
       if createOperation
       then fail "missing proxmox_url in configuration"
       else ret config in
     match framework.GetOk data "proxmox_url" with
     | Some apiURL =>
         do s <- lift (assert_string apiURL);
         if (0 <? len s)%Z then ret (proxmoxConfig.set_ApiURL s config) else missing
     | None => missing
     end);
  do config <-
    match framework.GetOk data "insecure_skip_tls_verify" with
    | Some skipCert =>
        do b <- lift (assert_bool skipCert);
        ret (proxmoxConfig.set_SkipCertValidation b config)
    | None =>
        if createOperation then
          do v <- lift (framework.GetDefaultOrZero data "insecure_skip_tls_verify");
          do b <- lift (assert_bool v);
          ret (proxmoxConfig.set_SkipCertValidation b config)
        else ret config
    end;
  do config <-
    match framework.GetOk data "http_headers" with
    | Some v => do s <- lift (assert_string v); ret (proxmoxConfig.set_HTTPHeaders s config)
    | None =>
        if createOperation then
          do v <- lift (framework.GetDefaultOrZero data "http_headers");
          do s <- lift (assert_string v);
          ret (proxmoxConfig.set_HTTPHeaders s config)
        else ret config
    end;
  do config <-
    match framework.GetOk data "proxy_server" with
    | Some v => do s <- lift (assert_string v); ret (proxmoxConfig.set_ProxyServer s config)
    | None =>
        if createOperation then
          do v <- lift (framework.GetDefaultOrZero data "proxy_server");
          do s <- lift (assert_string v);
          ret (proxmoxConfig.set_ProxyServer s config)
        else ret config
    end;
  do config <-
    match framework.GetOk data "timeout" with
    | Some taskTimeout =>
        do n <- lift (assert_int taskTimeout);
        ret (proxmoxConfig.set_TaskTimeout (seconds_to_Duration n) config)
    | None =>
        if createOperation then
          do v <- lift (framework.GetDefaultOrZero data "timeout");
          do n <- lift (assert_int v);
          ret (proxmoxConfig.set_TaskTimeout (seconds_to_Duration n) config)
        else ret config
    end;
  do_ storage_Put configStoragePath (proxmoxConfig.toJSON config);
  do_ reset;
  ret None.

(** A failed delete is returned as it is, without a reset. *)
Definition pathConfigDelete : M (option logical.Response) :=
  do_ storage_Delete configStoragePath;
  do_ reset;
  ret None.

(** [func (b *proxmoxBackend) pathConfigExistenceCheck(ctx, req, data)];
    [path] is [req.Path], the key that is looked up. *)
Definition pathConfigExistenceCheck (path : string) : M bool :=
  do out <- wrapErr "existence check failed: " (storage_Get path);
  ret (match out with Some _ => true | None => false end).

(** *** The client constructor *)

(** [pxapi.NewClient(apiUrl, nil, http_headers, tls, proxy, taskTimeout)];
    [tls] is [Some insecureSkipVerify] for a [*tls.Config], [None] for nil. *)
Definition pxapi_NewClient (apiUrl http_headers : string) (tls : option bool)
    (proxy : string) (taskTimeout : Z) : Outcome pxapi.Client :=
  match NewClient_err env apiUrl http_headers tls proxy taskTimeout with
  | Some e => Fail e
  | None =>
      Ret {| pxapi.ApiUrl := apiUrl;
             pxapi.HTTPHeaders := http_headers;
             pxapi.InsecureSkipVerify := default false tls;
             pxapi.ProxyServer := proxy;
             pxapi.TaskTimeout := taskTimeout;
             pxapi.APIToken := None |}
  end.

(** [c.SetAPIToken(userID, token)] *)
Definition SetAPIToken (userID token : string) (c : pxapi.Client) : pxapi.Client :=
  {| pxapi.ApiUrl := pxapi.ApiUrl c;
     pxapi.HTTPHeaders := pxapi.HTTPHeaders c;
     pxapi.InsecureSkipVerify := pxapi.InsecureSkipVerify c;
     pxapi.ProxyServer := pxapi.ProxyServer c;
     pxapi.TaskTimeout := pxapi.TaskTimeout c;
     pxapi.APIToken := Some (userID, token) |}.

Definition newClient (config : option proxmoxConfig.t) : Outcome proxmoxClient :=
  match config with
  | None => Fail "client configuration was nil"
  | Some config =>
      if String.eqb (proxmoxConfig.ApiTokenID config) ""
      then Fail "client api token was not defined"
      else
        let fullToken :=
          Sprintf_at_bang (proxmoxConfig.User config) (proxmoxConfig.Realm config)
                          (proxmoxConfig.ApiTokenID config) in
        let tlsConfig :=
          if negb (proxmoxConfig.SkipCertValidation config)
          then None else Some true in
        match pxapi_NewClient (proxmoxConfig.ApiURL config)
                (proxmoxConfig.HTTPHeaders config) tlsConfig
                (proxmoxConfig.ProxyServer config)
                (int_of_float64 (Seconds (proxmoxConfig.TaskTimeout config))) with
        | Ret c => Ret (SetAPIToken fullToken (proxmoxConfig.ApiTokenSecret config) c)
        | Fail e => Fail e
        | Panic p => Panic p
        end
  end.

(** *** backend.go *)

(** [func (b *proxmoxBackend) invalidate(ctx, key)] *)
Definition invalidate (key : string) : M unit :=
  if String.eqb key "config" then reset else ret tt.

(** The second half of [getClient], run under the exclusive lock: read
    the configuration (a missing one is [new(proxmoxConfig)]), build a
    client from it and keep it in [b.client]. *)
Definition getClient_build : M proxmoxClient :=
  do config <- getConfig;
  let config := match config with
                | None => proxmoxConfig.zero
                | Some c => c
                end in
  do c <- lift (newClient (Some config));
  fun w => (Ret c, set_client (Some c) w).

(** The locks are taken and released around a body that runs alone
    here: a cached client is returned as it is, otherwise one is
    built. *)
Definition getClient : M proxmoxClient :=
  fun w =>
    match client w with
    | Some c => (Ret c, w)
    | None => getClient_build w
    end.

(** *** The role paths *)

Definition roleFields : gmap string framework.FieldSchema :=
  <[ "name" := framework.mkFieldSchema framework.TypeLowerCaseString true None ]>
  (<[ "user" := framework.mkFieldSchema framework.TypeString true None ]>
  (<[ "realm" := framework.mkFieldSchema framework.TypeString true None ]>
  (<[ "ttl" := framework.mkFieldSchema framework.TypeDurationSecond false None ]>
  (<[ "max_ttl" := framework.mkFieldSchema framework.TypeDurationSecond false None ]>
   ∅)))).

Definition getRole (name : string) : M (option proxmoxRoleEntry.t) :=
  if String.eqb name "" then fail "missing role name"
  else
    do entry <- storage_Get ("role/" +:+ name);
    match entry with
    | None => ret None
    | Some doc =>
        do role <- lift (proxmoxRoleEntry.fromJSON doc);
        ret (Some role)
    end.

Definition pathRolesRead (d : framework.FieldData) : M (option logical.Response) :=
  do name <- lift (framework.Get d "name");
  do name <- lift (assert_string name);
  do entry <- getRole name;
  match entry with
  | None => ret None
  | Some entry =>
      ret (Some {| logical.Data := proxmoxRoleEntry.toResponseData entry;
                   logical.Secret_ := None |})
  end.

Definition setRole (name : string) (roleEntry : proxmoxRoleEntry.t) : M unit :=
  storage_Put ("role/" +:+ name) (proxmoxRoleEntry.toJSON roleEntry).

(** The first part of [pathRolesWrite], up to the record that is about
    to be checked and stored: the role's name, the stored record or a
    fresh one, and the supplied fields merged into it.  [inl] is the
    early return of an error response. *)
Definition pathRolesWrite_merge (op : logical.Operation) (d : framework.FieldData)
  : M (logical.Response + (string * proxmoxRoleEntry.t)) :=
  match framework.GetOk d "name" with
  | None => ret (inl (logical.ErrorResponse "missing role name"))
  | Some name =>
      do name <- lift (assert_string name);
      do roleEntry <- getRole name;
      let roleEntry :=
        match roleEntry with
        | None => proxmoxRoleEntry.mk name "" "" 0 0
        | Some r => r
        end in
      let createOperation := logical.Operation_eqb op logical.CreateOperation in
      do roleEntry <-
        (let missing :=
           if createOperation then fail "missing user in role" else ret roleEntry in
         match framework.GetOk d "user" with
         | Some user =>
             do s <- lift (assert_string user);
             if (0 <? len s)%Z then ret (proxmoxRoleEntry.set_User s roleEntry)
             else missing
         | None => missing
         end);
      do roleEntry <-
        (let missing :=
           if createOperation then fail "missing realm in role" else ret roleEntry in
         match framework.GetOk d "realm" with
         | Some realm =>
             do s <- lift (assert_string realm);
             if (0 <? len s)%Z then ret (proxmoxRoleEntry.set_Realm s roleEntry)
             else missing
         | None => missing
         end);
      do roleEntry <-
        match framework.GetOk d "ttl" with
        | Some ttlRaw =>
            do n <- lift (assert_int ttlRaw);
            ret (proxmoxRoleEntry.set_TTL (seconds_to_Duration n) roleEntry)
        | None =>
            if createOperation then
              do v <- lift (framework.Get d "ttl");
              do n <- lift (assert_int v);
              ret (proxmoxRoleEntry.set_TTL (seconds_to_Duration n) roleEntry)
            else ret roleEntry
        end;
      do roleEntry <-
        match framework.GetOk d "max_ttl" with
        | Some maxTTLRaw =>
            do n <- lift (assert_int maxTTLRaw);
            ret (proxmoxRoleEntry.set_MaxTTL (seconds_to_Duration n) roleEntry)
        | None =>
            if createOperation then
              do v <- lift (framework.Get d "max_ttl");
              do n <- lift (assert_int v);
              ret (proxmoxRoleEntry.set_MaxTTL (seconds_to_Duration n) roleEntry)
            else ret roleEntry
        end;
      ret (inr (name, roleEntry))
  end.

Definition pathRolesWrite (op : logical.Operation) (d : framework.FieldData)
  : M (option logical.Response) :=
  do merged <- pathRolesWrite_merge op d;
  match merged with
  | inl resp => ret (Some resp)
  | inr (name, roleEntry) =>
      if negb (proxmoxRoleEntry.MaxTTL roleEntry =? 0)%Z
         && (proxmoxRoleEntry.MaxTTL roleEntry <? proxmoxRoleEntry.TTL roleEntry)%Z
      then ret (Some (logical.ErrorResponse "ttl cannot be greater than max_ttl"))
      else
        do_ setRole name roleEntry;
        ret None
  end.

Definition pathRolesDelete (d : framework.FieldData) : M (option logical.Response) :=
  do name <- lift (framework.Get d "name");
  do name <- lift (assert_string name);
  do_ wrapErr "error deleting role: " (storage_Delete ("role/" +:+ name));
  ret None.

(** *** proxmox_api_token.go: the package-level helpers *)

Definition proxmoxTokenType : string := "proxmox_api_token".

(** The arguments of [strings.NewReplacer] in [createToken]. *)
Definition digitsToLetters : list (ascii * ascii) :=
  [ ("0", "g"); ("1", "h"); ("2", "i"); ("3", "j"); ("4", "k");
    ("5", "l"); ("6", "m"); ("7", "n"); ("8", "o"); ("9", "p") ]%char.

Definition createToken (c : proxmoxClient) (user realm : string)
    (expire : Z) (privsep : bool) : M (option proxmoxToken) :=
  if (len user =? 0)%Z then fail "error creating token: no user provided"
  else if (len realm =? 0)%Z then fail "error creating token: no realm provided"
  else
    do rawUUID <- uuid_New;
    let rawTokenId := uuid.String_ rawUUID in
    let tokenId := Replace digitsToLetters rawTokenId in
    let u := pxapi.mkUserID user realm in
    do_ wrapErr "error when setting up API user: "
          (request (pxapi.NewConfigUserFromApi c u));
    do secret <- wrapErr "error from API when creating token: "
          (request (pxapi.CreateApiToken c u
             (pxapi.mkApiToken tokenId "Managed by Vault" expire privsep)));
    ret (Some {| TokenID := tokenId; Secret := secret |}).

Definition deleteToken (c : proxmoxClient) (user realm tokenID : string) : M unit :=
  let u := pxapi.mkUserID user realm in
  do_ request (pxapi.NewConfigUserFromApi c u);
  do_ request (pxapi.DeleteApiToken c u (pxapi.mkApiToken tokenID "" 0 false));
  ret tt.

(** *** path_credentials.go *)

(** [time.Now().Add(d).Unix()] *)
Definition Unix_after (d : Z) : M Z :=
  do t <- time_Now;
  ret ((t + d) / Second).

(** [func (b *proxmoxBackend) createToken(ctx, s, role)] *)
Definition proxmoxBackend_createToken (role : proxmoxRoleEntry.t) : M proxmoxToken :=
  do client <- getClient;
  do expire <-
    (if (0 <? proxmoxRoleEntry.TTL role)%Z
     then Unix_after (proxmoxRoleEntry.TTL role)
     else ret 0);
  let privsep := false in
  do token <- wrapErr
        ("error creating Proxmox API token for role '"
           +:+ proxmoxRoleEntry.Name role +:+ "': ")
        (createToken client (proxmoxRoleEntry.User role)
           (proxmoxRoleEntry.Realm role) expire privsep);
  match token with
  | None => fail "error creating Proxmox API token"
  | Some token => ret token
  end.

(** [b.Secret(proxmoxTokenType).Response(data, internal)]: the payload
    and the lease metadata as the backend hands them over, with the
    lease options at the secret type's defaults (none declared).  The
    routing key under which the SDK remembers the secret type is the
    SDK's own and is not part of the metadata kept here. *)
Definition Secret_Response (data internal : gmap string Value) : logical.Response :=
  {| logical.Data := data;
     logical.Secret_ :=
       Some {| logical.InternalData := internal;
               logical.TTL := 0;
               logical.MaxTTL := 0 |} |}.

(** [if role.TTL > 0 { resp.Secret.TTL = role.TTL }
     if role.MaxTTL > 0 { resp.Secret.MaxTTL = role.MaxTTL }] *)
Definition set_lease (ttl maxTTL : Z) (s : logical.Secret) : logical.Secret :=
  {| logical.InternalData := logical.InternalData s;
     logical.TTL := if (0 <? ttl)%Z then ttl else logical.TTL s;
     logical.MaxTTL := if (0 <? maxTTL)%Z then maxTTL else logical.MaxTTL s |}.

Definition createUserCreds (role : proxmoxRoleEntry.t) : M (option logical.Response) :=
  do token <- proxmoxBackend_createToken role;
  let tokenIDFull :=
    Sprintf_at_bang (proxmoxRoleEntry.User role) (proxmoxRoleEntry.Realm role)
                    (TokenID token) in
  let resp :=
    Secret_Response
      (<[ "token_id" := VString (TokenID token) ]>
       (<[ "token_id_full" := VString tokenIDFull ]>
       (<[ "secret" := VString (Secret token) ]> ∅)))
      (<[ "token_id" := VString (TokenID token) ]>
       (<[ "role" := VString (proxmoxRoleEntry.Name role) ]> ∅)) in
  ret (Some
    {| logical.Data := logical.Data resp;
       logical.Secret_ :=
         set_lease (proxmoxRoleEntry.TTL role) (proxmoxRoleEntry.MaxTTL role)
           <$> logical.Secret_ resp |}).

Definition pathCredentialsRead (d : framework.FieldData) : M (option logical.Response) :=
  do roleName <- lift (framework.Get d "name");
  do roleName <- lift (assert_string roleName);
  do roleEntry <- wrapErr "error retrieving role: " (getRole roleName);
  match roleEntry with
  | None => fail "error retrieving role: role is nil"
  | Some roleEntry => createUserCreds roleEntry
  end.

(** *** proxmox_api_token.go: the lease callbacks *)

(** [req.Secret] is the lease being revoked. *)
Definition tokenRevoke (secret : logical.Secret) : M (option logical.Response) :=
  do client <- wrapErr "error getting client: " getClient;
  do tokenID <-
    match logical.InternalData secret !! "token_id" with
    | Some (VString s) => ret s
    | Some _ => fail "invalid value for token in secret internal data"
    | None => ret ""
    end;
  do roleRaw <-
    match logical.InternalData secret !! "role" with
    | Some v => ret v
    | None => fail "secret is missing role internal data"
    end;
  do role <- lift (assert_string roleRaw);
  do roleEntry <- wrapErr "error retrieving role: " (getRole role);
  do roleEntry <-
    match roleEntry with
    | None => fail "error retrieving role: role is nil"
    | Some r => ret r
    end;
  do_ wrapErr "error revoking user token: "
        (deleteToken client (proxmoxRoleEntry.User roleEntry)
           (proxmoxRoleEntry.Realm roleEntry) tokenID);
  ret None.

Definition tokenRenew (secret : logical.Secret) : M (option logical.Response) :=
  do roleRaw <-
    match logical.InternalData secret !! "role" with
    | Some v => ret v
    | None => fail "secret is missing role internal data"
    end;
  do role <- lift (assert_string roleRaw);
  do roleEntry <- wrapErr "error retrieving role: " (getRole role);
  do roleEntry <-
    match roleEntry with
    | None => fail "error retrieving role: role is nil"
    | Some r => ret r
    end;
  ret (Some
    {| logical.Data := ∅;
       logical.Secret_ :=
         Some (set_lease (proxmoxRoleEntry.TTL roleEntry)
                 (proxmoxRoleEntry.MaxTTL roleEntry) secret) |}).

(** *** The routing table of [backend()]

    A request is one of the operations on the paths [config],
    [role/{name}] and [creds/{name}], a revoke or renew callback of the
    secret type, or the invalidation of a storage key.  (Listing the
    roles only reads the storage and is left out.) *)
Definition credsFields : gmap string framework.FieldSchema :=
  <[ "name" := framework.mkFieldSchema framework.TypeLowerCaseString true None ]> ∅.

Inductive Request : Type :=
| OnConfig (op : logical.Operation) (raw : gmap string Value)
| OnRole (op : logical.Operation) (raw : gmap string Value)
| OnCreds (raw : gmap string Value)
| Revoke (secret : logical.Secret)
| Renew (secret : logical.Secret)
| Invalidate (key : string).

Definition HandleRequest (req : Request) : M (option logical.Response) :=
  match req with
  | OnConfig logical.ReadOperation _ => pathConfigRead
  | OnConfig logical.DeleteOperation _ => pathConfigDelete
  | OnConfig op raw => pathConfigWrite op (framework.mkFieldData raw configFields)
  | OnRole logical.ReadOperation raw =>
      pathRolesRead (framework.mkFieldData raw roleFields)
  | OnRole logical.DeleteOperation raw =>
      pathRolesDelete (framework.mkFieldData raw roleFields)
  | OnRole op raw => pathRolesWrite op (framework.mkFieldData raw roleFields)
  | OnCreds raw => pathCredentialsRead (framework.mkFieldData raw credsFields)
  | Revoke secret => tokenRevoke secret
  | Renew secret => tokenRenew secret
  | Invalidate key => do_ invalidate key; ret None
  end.

End Backend.

End Proxmox.

Import Proxmox.

(** * Vocabulary of the properties *)

(** A body keeps a relation between the state it starts in and the state it
    leaves, whatever its outcome. *)
Definition keeps (R : relation State) {A} (m : M A) : Prop :=
  forall w, R w (m w).2.

(** It never panics. *)
Definition no_panic {A} (m : M A) : Prop :=
  forall w p, (m w).1 <> Panic p.

(** Nothing but the cached client may differ: the cluster has seen the same
    requests, and the storage, the UUID count and the clock are the same. *)
Definition differs_in_client_only : relation State :=
  fun w w' =>
    calls w' = calls w /\ storage w' = storage w /\
    drawn w' = drawn w /\ now w' = now w.

(** The cached client, when there is one, was built from the stored
    configuration. *)
Definition coherent (env : Env) (w : State) : Prop :=
  forall c, client w = Some c ->
    exists cfg, getConfig w = (Ret (Some cfg), w) /\ newClient env (Some cfg) = Ret c.

(** What [getConfig] looks at. *)
Definition config_view (w : State) : option string * option (gmap string Value) :=
  (logical.fault (storage w) logical.OpGet "config",
   logical.entries (storage w) !! "config").

(** The cached client and the stored configuration are the same. *)
Definition same_client_and_config : relation State :=
  fun w w' => client w' = client w /\ config_view w' = config_view w.

(** Coherence carries over from the first state to the second. *)
Definition carries_coherence (env : Env) : relation State :=
  fun w w' => coherent env w -> coherent env w'.


(** A mount right after [Factory]: no client cached, nothing sent to the
    cluster, an in-memory storage holding [m]. *)
Definition mounted (m : gmap string (gmap string Value)) (t : Z) : State :=
  mkState None (logical.InmemStorage m) [] 0 t.

Definition sample_uuid : uuid.UUID :=
  [# x3f; x0a; x77; x12; x9c; x4e; x41; x08; xb2; x6d; x00; x5e; xd1; x23; x45; x67 ].

(** A well-behaved environment used in the examples: the client library
    accepts every configuration, every request is answered, a created token
    gets the secret ["5a1f-secret"], and every UUID is [sample_uuid]. *)
Definition sample_env : Env :=
  {| NewClient_err := fun _ _ _ _ _ => None;
     answer := fun _ c =>
                 match c with
                 | pxapi.CreateApiToken _ _ _ => pxapi.Ok "5a1f-secret"
                 | _ => pxapi.Ok ""
                 end;
     uuid_source := fun _ => sample_uuid |}.

Definition sample_config : proxmoxConfig.t :=
  proxmoxConfig.mk "root" "pam" "tok1" "s" "https://h:8006/api2/json"
                   false "" "" 120000000000.

Definition sample_role : proxmoxRoleEntry.t :=
  proxmoxRoleEntry.mk "alice" "alice" "pve" 300000000000 0.

(** A mount holding [sample_config], and one that also holds
    [sample_role]. *)
Definition configured : State :=
  mounted {[ "config" := proxmoxConfig.toJSON sample_config ]} 1700000000000000000.

Definition configured_with_role : State :=
  mounted (<[ "role/alice" := proxmoxRoleEntry.toJSON sample_role ]>
             {[ "config" := proxmoxConfig.toJSON sample_config ]})
          1700000000000000000.

(** The lease of a token issued for the role alice. *)
Definition sample_lease : logical.Secret :=
  {| logical.InternalData :=
       <[ "token_id" := VString "jfgannhi-pcke-khgo-bimd-ggledhijklmn" ]>
       (<[ "role" := VString "alice" ]> ∅);
     logical.TTL := 300000000000;
     logical.MaxTTL := 0 |}.

(** What the spec's scenarios send. *)
Definition create_config_raw : gmap string Value :=
  <[ "user" := VString "root" ]>
  (<[ "realm" := VString "pam" ]>
  (<[ "token_id" := VString "tok1" ]>
  (<[ "token_secret" := VString "s" ]>
  (<[ "proxmox_url" := VString "https://h:8006/api2/json" ]> ∅)))).

Definition role_ttl_above_max_raw : gmap string Value :=
  <[ "name" := VString "alice" ]>
  (<[ "user" := VString "alice" ]>
  (<[ "realm" := VString "pve" ]>
  (<[ "ttl" := VInt 500 ]>
  (<[ "max_ttl" := VInt 100 ]> ∅)))).

Definition update_bob_raw : gmap string Value :=
  <[ "name" := VString "bob" ]> (<[ "ttl" := VInt 60 ]> ∅).

(** A complete role, as a create request sends it. *)
Definition create_alice_raw : gmap string Value :=
  <[ "name" := VString "alice" ]>
  (<[ "user" := VString "alice" ]>
  (<[ "realm" := VString "pve" ]>
  (<[ "ttl" := VInt 300 ]> ∅))).

(** A request that only names a role. *)
Definition name_raw (name : string) : gmap string Value :=
  <[ "name" := VString name ]> ∅.

(** The role that an update of the unknown role bob leaves behind: it has
    neither user nor realm. *)
Definition bob_without_user : proxmoxRoleEntry.t :=
  proxmoxRoleEntry.mk "bob" "" "" 60000000000 0.

Definition configured_with_bob : State :=
  mounted (<[ "role/bob" := proxmoxRoleEntry.toJSON bob_without_user ]>
             {[ "config" := proxmoxConfig.toJSON sample_config ]})
          1700000000000000000.

(** Field data of a request on [role/{name}]. *)
Definition role_request (raw : gmap string Value) : framework.FieldData :=
  framework.mkFieldData raw roleFields.

(** The duration a request supplies for the seconds field [k], zero when it
    supplies none. *)
Definition supplied_seconds (raw : gmap string Value) (k : string) : Z :=
  match raw !! k with
  | Some (VInt n) => seconds_to_Duration n
  | _ => 0
  end.

(** Field data of a request on [config]. *)
Definition config_request (raw : gmap string Value) : framework.FieldData :=
  framework.mkFieldData raw configFields.

(** The naming rule quoted in [createToken]: the regular expression
    [[A-Za-z][A-Za-z0-9\.\-_]+], matched against the whole identifier. *)
Definition is_token_char (c : ascii) : bool :=
  is_alpha c || is_digit c || Ascii.eqb c "." || Ascii.eqb c "-" || Ascii.eqb c "_".

Fixpoint all_chars (P : ascii -> bool) (s : string) : bool :=
  match s with
  | EmptyString => true
  | String c rest => P c && all_chars P rest
  end.

Definition matches_token_rule (s : string) : bool :=
  match s with
  | String c (String c' rest) => is_alpha c && all_chars is_token_char (String c' rest)
  | _ => false
  end.

(** The hexadecimal digit behind a character of a remapped identifier. *)
Definition letter_nibble (c : ascii) : N :=
  let n := N_of_ascii c in
  if (103 <=? n)%N then (n - 103)%N else (n - 87)%N.

Definition byte_of_letters (hi lo : ascii) : Byte.byte :=
  match Byte.of_N (16 * letter_nibble hi + letter_nibble lo) with
  | Some b => b
  | None => x00
  end.

(** The value a request supplies for a field, or [old] when it supplies
    none: a string, a string that counts only when it is not empty, a
    boolean, a number of seconds taken as a duration. *)
Definition supplied_string (raw : gmap string Value) (k : string) (old : string)
  : string :=
  match raw !! k with
  | Some (VString s) => s
  | _ => old
  end.

Definition supplied_nonempty (raw : gmap string Value) (k : string) (old : string)
  : string :=
  match raw !! k with
  | Some (VString s) => if (0 <? len s)%Z then s else old
  | _ => old
  end.

Definition supplied_bool (raw : gmap string Value) (k : string) (old : bool) : bool :=
  match raw !! k with
  | Some (VBool b) => b
  | _ => old
  end.

Definition supplied_duration (raw : gmap string Value) (k : string) (old : Z) : Z :=
  match raw !! k with
  | Some (VInt n) => seconds_to_Duration n
  | _ => old
  end.

Definition supplied (raw : gmap string Value) (k : string) : bool :=
  match raw !! k with
  | Some _ => true
  | None => false
  end.

(** The first field, in the order in which [pathConfigWrite] looks at
    them, that a create request lacks: user, realm, token_id and
    token_secret have to be supplied, proxmox_url has to be supplied and
    not empty. *)
Definition missing_in_config_create (raw : gmap string Value) : option string :=
  if negb (supplied raw "user") then Some "user"
  else if negb (supplied raw "realm") then Some "realm"
  else if negb (supplied raw "token_id") then Some "token_id"
  else if negb (supplied raw "token_secret") then Some "token_secret"
  else if (0 <? len (supplied_nonempty raw "proxmox_url" ""))%Z then None
  else Some "proxmox_url".

(** The record a create request describes, and the record an update
    request makes of a stored one. *)
Definition config_created (raw : gmap string Value) : proxmoxConfig.t :=
  proxmoxConfig.mk
    (supplied_string raw "user" "")
    (supplied_string raw "realm" "")
    (supplied_string raw "token_id" "")
    (supplied_string raw "token_secret" "")
    (supplied_nonempty raw "proxmox_url" "")
    (supplied_bool raw "insecure_skip_tls_verify" false)
    (supplied_string raw "http_headers" "")
    (supplied_string raw "proxy_server" "")
    (supplied_duration raw "timeout" (seconds_to_Duration 120)).

Definition config_updated (raw : gmap string Value) (cfg : proxmoxConfig.t)
  : proxmoxConfig.t :=
  proxmoxConfig.mk
    (supplied_string raw "user" (proxmoxConfig.User cfg))
    (supplied_string raw "realm" (proxmoxConfig.Realm cfg))
    (supplied_string raw "token_id" (proxmoxConfig.ApiTokenID cfg))
    (supplied_string raw "token_secret" (proxmoxConfig.ApiTokenSecret cfg))
    (supplied_nonempty raw "proxmox_url" (proxmoxConfig.ApiURL cfg))
    (supplied_bool raw "insecure_skip_tls_verify" (proxmoxConfig.SkipCertValidation cfg))
    (supplied_string raw "http_headers" (proxmoxConfig.HTTPHeaders cfg))
    (supplied_string raw "proxy_server" (proxmoxConfig.ProxyServer cfg))
    (supplied_duration raw "timeout" (proxmoxConfig.TaskTimeout cfg)).

(** The record an update request makes of a stored (or fresh) role, and
    the record a create request makes of it. *)
Definition role_updated (raw : gmap string Value) (r : proxmoxRoleEntry.t)
  : proxmoxRoleEntry.t :=
  proxmoxRoleEntry.mk
    (proxmoxRoleEntry.Name r)
    (supplied_nonempty raw "user" (proxmoxRoleEntry.User r))
    (supplied_nonempty raw "realm" (proxmoxRoleEntry.Realm r))
    (supplied_duration raw "ttl" (proxmoxRoleEntry.TTL r))
    (supplied_duration raw "max_ttl" (proxmoxRoleEntry.MaxTTL r)).

Definition role_created (raw : gmap string Value) (r : proxmoxRoleEntry.t)
  : proxmoxRoleEntry.t :=
  proxmoxRoleEntry.mk
    (proxmoxRoleEntry.Name r)
    (supplied_nonempty raw "user" "")
    (supplied_nonempty raw "realm" "")
    (supplied_duration raw "ttl" 0)
    (supplied_duration raw "max_ttl" 0).

(** The record a role write starts from: the stored one, or a fresh one
    that has only the name. *)
Definition role_base (name : string) (stored : option proxmoxRoleEntry.t)
  : proxmoxRoleEntry.t :=
  match stored with
  | Some r => r
  | None => proxmoxRoleEntry.mk name "" "" 0 0
  end.

(** The [ttl]/[max_ttl] test of [pathRolesWrite]. *)
Definition ttl_within_max (r : proxmoxRoleEntry.t) : bool :=
  negb (negb (proxmoxRoleEntry.MaxTTL r =? 0)%Z
        && (proxmoxRoleEntry.MaxTTL r <? proxmoxRoleEntry.TTL r)%Z).

(** The state after [doc] was stored under [key]. *)
Definition stored (key : string) (doc : gmap string Value) (w : State) : State :=
  set_storage
    (logical.mkStorage (<[ key := doc ]> (logical.entries (storage w)))
                       (logical.fault (storage w)))
    w.

(** The state after [doc] was stored under [key] and the client cache was
    emptied. *)
Definition stored_and_reset (key : string) (doc : gmap string Value) (w : State)
  : State :=
  set_client None
    (set_storage
       (logical.mkStorage (<[ key := doc ]> (logical.entries (storage w)))
                          (logical.fault (storage w)))
       w).

(** A body that leaves the state as it found it unless it returns. *)
Definition changes_only_on_Ret {A} (m : M A) : Prop :=
  forall w o w', m w = (o, w') -> (forall a, o <> Ret a) -> w' = w.

(** A body that, when it returns, has stored a configuration and emptied
    the client cache, and has done nothing else. *)
Definition stores_config_on_Ret {A} (m : M A) : Prop :=
  forall w a w', m w = (Ret a, w') ->
    exists doc, w' = stored_and_reset "config" doc w.

(** The state after the entry under [key] was deleted. *)
Definition removed (key : string) (w : State) : State :=
  set_storage
    (logical.mkStorage (delete key (logical.entries (storage w)))
                       (logical.fault (storage w)))
    w.

(** Field data of a request on [creds/{name}]. *)
Definition creds_request (raw : gmap string Value) : framework.FieldData :=
  framework.mkFieldData raw credsFields.

(** The expiry asked of the cluster for a token of [role] issued in [w]:
    the Unix time one [TTL] from now when the [TTL] is positive, zero (the
    token does not expire) otherwise. *)
Definition token_expiry (role : proxmoxRoleEntry.t) (w : State) : Z :=
  if (0 <? proxmoxRoleEntry.TTL role)%Z
  then (now w + proxmoxRoleEntry.TTL role) / Second
  else 0.

(** The token identifier a lease carries, empty when it carries none. *)
Definition lease_token_id (secret : logical.Secret) : string :=
  match logical.InternalData secret !! "token_id" with
  | Some (VString s) => s
  | _ => ""
  end.

(** The lease option that a role's duration [d] gives: [d] when it is
    positive, otherwise what the lease had. *)
Definition lease_option (d old : Z) : Z :=
  if (0 <? d)%Z then d else old.

(** The second state has seen the requests of the first, followed by
    requests that all satisfy [P]. *)
Definition sends_only (P : pxapi.Call -> bool) : relation State :=
  fun w w' => exists l, calls w' = (calls w ++ l)%list /\ forallb P l = true.

(** The requests that handling [req] may send to the cluster: a
    credentials request looks the user up and creates a token, a revoke
    looks the user up and deletes a token, and nothing else sends
    anything. *)
Definition may_send (req : Request) (c : pxapi.Call) : bool :=
  match req, c with
  | OnCreds _, (pxapi.NewConfigUserFromApi _ _ | pxapi.CreateApiToken _ _ _) => true
  | Revoke _, (pxapi.NewConfigUserFromApi _ _ | pxapi.DeleteApiToken _ _ _) => true
  | _, _ => false
  end.

(** The storage key that handling [req] may write or delete: the
    configuration for a config write or delete, the named role for a role
    write or delete, none otherwise. *)
Definition touched_key (req : Request) : option string :=
  match req with
  | OnConfig (logical.CreateOperation | logical.UpdateOperation
              | logical.DeleteOperation) _ => Some "config"
  | OnRole (logical.CreateOperation | logical.UpdateOperation
            | logical.DeleteOperation) raw =>
      Some ("role/" +:+ supplied_string raw "name" "")
  | _ => None
  end.

(** The storage fails as before and holds the same entries, except
    possibly under [key]. *)
Definition same_storage_except (key : option string) : relation State :=
  fun w w' =>
    logical.fault (storage w') = logical.fault (storage w) /\
    forall k, key <> Some k ->
      logical.entries (storage w') !! k = logical.entries (storage w) !! k.

(** The seconds that fit a [time.Duration]. *)
Definition whole_seconds_in_range (n : Z) : Prop :=
  (-9223372036 <= n <= 9223372036)%Z.

(** * Properties *)

(** ** Token identifiers *)

Section TokenId.

Lemma replaceByte_no_digit (c : ascii) :
  is_digit (replaceByte digitsToLetters c) = false.
Proof.
  destruct c as [[] [] [] [] [] [] [] []]; reflexivity.
Qed.

Lemma Replace_no_digit (s : string) :
  has_digit (Replace digitsToLetters s) = false.
Proof.
  induction s as [|c s IH]; simpl; [reflexivity|].
  rewrite IH, orb_false_r. apply replaceByte_no_digit.
Qed.

Lemma high_nibble_alpha (b : Byte.byte) :
  is_alpha (replaceByte digitsToLetters
              (uuid.hexdigit (N.shiftr (Byte.to_N b) 4))) = true.
Proof.
  destruct b; reflexivity.
Qed.

Lemma String_head (u : uuid.UUID) :
  exists (b : Byte.byte) (rest : string),
    uuid.String_ u = String (uuid.hexdigit (N.shiftr (Byte.to_N b) 4)) rest.
Proof.
  inv_vec u; intros b0 b1 b2 b3 v.
  unfold uuid.String_. simpl. eauto.
Qed.

Lemma tokenId_shape (u : uuid.UUID) :
  starts_alpha (Replace digitsToLetters (uuid.String_ u)) = true /\
  has_digit (Replace digitsToLetters (uuid.String_ u)) = false.
Proof.
  split; [|apply Replace_no_digit].
  destruct (String_head u) as (b & rest & ->). simpl.
  apply high_nibble_alpha.
Qed.

End TokenId.

(** ** Reasoning about bodies *)

Section Bodies.

Context {A B : Type}.

Lemma bind_inv (m : M A) (k : A -> M B) (w w' : State) (o : Outcome B) :
  bind m k w = (o, w') ->
  (exists a w1, m w = (Ret a, w1) /\ k a w1 = (o, w')) \/
  (exists e, m w = (Fail e, w') /\ o = Fail e) \/
  (exists p, m w = (Panic p, w') /\ o = Panic p).
Proof.
  unfold bind. destruct (m w) as [[a|e|p] w1]; intros H.
  - left. eauto.
  - right; left. inversion H; subst. eauto.
  - right; right. inversion H; subst. eauto.
Qed.

Lemma bind_Ret_inv (m : M A) (k : A -> M B) (w w' : State) (b : B) :
  bind m k w = (Ret b, w') ->
  exists a w1, m w = (Ret a, w1) /\ k a w1 = (Ret b, w').
Proof.
  intros H. apply bind_inv in H as [H | [(e & _ & H) | (p & _ & H)]];
    [exact H | discriminate | discriminate].
Qed.

Lemma wrapErr_Ret_inv (prefix : string) (m : M A) (w w' : State) (a : A) :
  wrapErr prefix m w = (Ret a, w') -> m w = (Ret a, w').
Proof.
  unfold wrapErr. destruct (m w) as [[a'|e|p] w1]; intros H;
    [exact H | discriminate | discriminate].
Qed.

Lemma bind_Ret (m : M A) (k : A -> M B) (w w1 : State) (a : A) :
  m w = (Ret a, w1) -> bind m k w = k a w1.
Proof. unfold bind. intros ->. reflexivity. Qed.

End Bodies.

Section Keeps.

Context (R : relation State) `{!PreOrder R}.

Lemma keeps_ret {A} (a : A) : keeps R (ret a).
Proof. intros w. reflexivity. Qed.

Lemma keeps_fail {A} (e : string) : keeps R (@fail A e).
Proof. intros w. reflexivity. Qed.

Lemma keeps_panic {A} (p : string) : keeps R (@panic A p).
Proof. intros w. reflexivity. Qed.

Lemma keeps_lift {A} (o : Outcome A) : keeps R (lift o).
Proof. intros w. reflexivity. Qed.

Lemma keeps_storage_Get (k : string) : keeps R (storage_Get k).
Proof. intros w. reflexivity. Qed.

Lemma keeps_time_Now : keeps R time_Now.
Proof. intros w. reflexivity. Qed.

Lemma keeps_bind {A B} (m : M A) (k : A -> M B) :
  keeps R m -> (forall a, keeps R (k a)) -> keeps R (bind m k).
Proof.
  intros Hm Hk w. unfold bind.
  specialize (Hm w). destruct (m w) as [[a|e|p] w1]; simpl in *; auto.
  etrans; [exact Hm | apply Hk].
Qed.

Lemma keeps_wrapErr {A} (prefix : string) (m : M A) :
  keeps R m -> keeps R (wrapErr prefix m).
Proof.
  intros Hm w. unfold wrapErr.
  specialize (Hm w). destruct (m w) as [[a|e|p] w1]; simpl in *; auto.
Qed.

End Keeps.

Lemma no_panic_ret {A} (a : A) : no_panic (ret a).
Proof. intros w p; discriminate. Qed.

Lemma no_panic_fail {A} (e : string) : no_panic (@fail A e).
Proof. intros w p; discriminate. Qed.

Lemma no_panic_storage_Get (k : string) : no_panic (storage_Get k).
Proof.
  intros w p. unfold storage_Get, logical.Get. simpl.
  destruct (logical.fault _ _ _); discriminate.
Qed.

Lemma no_panic_lift {A} (o : Outcome A) :
  (forall p, o <> Panic p) -> no_panic (lift o).
Proof. intros H w p. apply H. Qed.

Lemma no_panic_bind {A B} (m : M A) (k : A -> M B) :
  no_panic m -> (forall a, no_panic (k a)) -> no_panic (bind m k).
Proof.
  intros Hm Hk w p. unfold bind.
  specialize (Hm w). destruct (m w) as [[a|e|q] w1]; simpl in *.
  - apply Hk.
  - discriminate.
  - exfalso. by apply (Hm q).
Qed.

Lemma no_panic_wrapErr {A} (prefix : string) (m : M A) :
  no_panic m -> no_panic (wrapErr prefix m).
Proof.
  intros Hm w p. unfold wrapErr.
  specialize (Hm w). destruct (m w) as [[a|e|q] w1]; simpl in *;
    [discriminate | discriminate | apply Hm].
Qed.

(** Decomposing a body along its binds, matches and conditionals. *)
Ltac body_step :=
  first
    [ progress cbv zeta
    | match goal with |- PreOrder _ => apply _ end
    | apply keeps_bind; [ | | intros ?]
    | apply keeps_wrapErr
    | apply keeps_ret
    | apply keeps_fail
    | apply keeps_panic
    | apply keeps_lift
    | apply keeps_storage_Get
    | apply keeps_time_Now
    | apply no_panic_bind; [ | intros ?]
    | apply no_panic_wrapErr
    | apply no_panic_ret
    | apply no_panic_fail
    | apply no_panic_storage_Get
    | match goal with
      | |- keeps _ (match ?x with _ => _ end) => destruct x
      | |- no_panic (match ?x with _ => _ end) => destruct x
      end ].

Ltac body_cases := repeat body_step.

(** ** Bodies that only read *)

Section ReadOnly.

Lemma getConfig_reads : keeps eq (getConfig).
Proof. unfold getConfig. body_cases. Qed.

Lemma getRole_reads (name : string) : keeps eq (getRole name).
Proof. unfold getRole. body_cases. Qed.

Lemma pathRolesWrite_merge_reads (op : logical.Operation) (d : framework.FieldData) :
  keeps eq (pathRolesWrite_merge op d).
Proof.
  pose proof getRole_reads.
  unfold pathRolesWrite_merge. body_cases; auto.
Qed.

End ReadOnly.

(** ** Reading the configuration *)

Section ConfigRead.

Lemma fromJSON_toJSON_config (c : proxmoxConfig.t) :
  proxmoxConfig.fromJSON (proxmoxConfig.toJSON c) = Ret c.
Proof. destruct c. vm_compute. reflexivity. Qed.

Lemma fromJSON_toJSON_role (r : proxmoxRoleEntry.t) :
  proxmoxRoleEntry.fromJSON (proxmoxRoleEntry.toJSON r) = Ret r.
Proof. destruct r. vm_compute. reflexivity. Qed.

Lemma getConfig_absent (w : State) :
  logical.fault (storage w) logical.OpGet "config" = None ->
  logical.entries (storage w) !! "config" = None ->
  getConfig w = (Ret None, w).
Proof.
  intros Hf He. unfold getConfig, bind, storage_Get, logical.Get.
  unfold configStoragePath. rewrite Hf, He. reflexivity.
Qed.

Lemma getConfig_present (w : State) (doc : gmap string Value) (c : proxmoxConfig.t) :
  logical.fault (storage w) logical.OpGet "config" = None ->
  logical.entries (storage w) !! "config" = Some doc ->
  proxmoxConfig.fromJSON doc = Ret c ->
  getConfig w = (Ret (Some c), w).
Proof.
  intros Hf He Hd. unfold getConfig, bind, storage_Get, logical.Get.
  unfold configStoragePath. rewrite Hf, He.
  unfold wrapErr, lift. rewrite Hd. reflexivity.
Qed.

Lemma pathConfigRead_absent (w : State) :
  logical.fault (storage w) logical.OpGet "config" = None ->
  logical.entries (storage w) !! "config" = None ->
  pathConfigRead w =
    (Panic "runtime error: invalid memory address or nil pointer dereference", w).
Proof.
  intros Hf He. unfold pathConfigRead.
  rewrite (bind_Ret _ _ _ _ _ (getConfig_absent w Hf He)). reflexivity.
Qed.

(** C1 (the read does not return a default configuration): on a mount
    where no configuration was ever written, [pathConfigRead] gets a nil
    configuration from [getConfig] and panics on the first field it
    reads through it; no response is produced. *)
Theorem pathConfigRead_without_profile_panics
    (cl : option proxmoxClient) (cs : list pxapi.Call) (n : nat) (t : Z) :
  let w := mkState cl (logical.InmemStorage ∅) cs n t in
  pathConfigRead w =
    (Panic "runtime error: invalid memory address or nil pointer dereference", w).
Proof.
  intros w. apply pathConfigRead_absent; reflexivity.
Qed.

(** C5: a config read over a stored configuration answers with the
    eight fields user, realm, token_id, proxmox_url,
    insecure_skip_tls_verify, http_headers, proxy_server and timeout,
    each carrying the stored value, and with nothing else: there is no
    token_secret member, and the answer is the same whatever the stored
    secret is. *)
Theorem pathConfigRead_all_but_secret
    (w : State) (doc : gmap string Value) (c : proxmoxConfig.t) :
  logical.fault (storage w) logical.OpGet "config" = None ->
  logical.entries (storage w) !! "config" = Some doc ->
  proxmoxConfig.fromJSON doc = Ret c ->
  exists resp,
    pathConfigRead w = (Ret (Some resp), w) /\
    logical.Data resp !! "user" = Some (VString (proxmoxConfig.User c)) /\
    logical.Data resp !! "realm" = Some (VString (proxmoxConfig.Realm c)) /\
    logical.Data resp !! "token_id" = Some (VString (proxmoxConfig.ApiTokenID c)) /\
    logical.Data resp !! "proxmox_url" = Some (VString (proxmoxConfig.ApiURL c)) /\
    logical.Data resp !! "insecure_skip_tls_verify"
      = Some (VBool (proxmoxConfig.SkipCertValidation c)) /\
    logical.Data resp !! "http_headers" = Some (VString (proxmoxConfig.HTTPHeaders c)) /\
    logical.Data resp !! "proxy_server" = Some (VString (proxmoxConfig.ProxyServer c)) /\
    logical.Data resp !! "timeout"
      = Some (VInt (int_of_float64 (Seconds (proxmoxConfig.TaskTimeout c)))) /\
    logical.Data resp !! "token_secret" = None /\
    dom (logical.Data resp) =
      ({[ "user"; "realm"; "token_id"; "proxmox_url"; "insecure_skip_tls_verify";
          "http_headers"; "proxy_server"; "timeout" ]} : gset string) /\
    logical.Secret_ resp = None /\
    (forall secret w2,
        getConfig w2 = (Ret (Some (proxmoxConfig.set_ApiTokenSecret secret c)), w2) ->
        pathConfigRead w2 = (Ret (Some resp), w2)).
Proof.
  intros Hf He Hd. eexists. split.
  { unfold pathConfigRead.
    rewrite (bind_Ret _ _ _ _ _ (getConfig_present w doc c Hf He Hd)).
    reflexivity. }
  do 9 (split; [by simplify_map_eq|]).
  split; [|split; [reflexivity|]].
  - simpl. rewrite !dom_insert_L, dom_empty_L. set_solver.
  - intros secret w2 H2. unfold pathConfigRead.
    rewrite (bind_Ret _ _ _ _ _ H2). reflexivity.
Qed.

End ConfigRead.

(** ** Writing roles *)

Section Roles.

Lemma Validate_has_type (d : framework.FieldData) (k : string)
    (sch : framework.FieldSchema) (v : Value) :
  framework.Validate d = true ->
  framework.Schema d !! k = Some sch ->
  framework.Raw d !! k = Some v ->
  framework.has_type (framework.Type_ sch) v = true.
Proof.
  unfold framework.Validate. intros Hv Hs Hr.
  rewrite forallb_forall in Hv.
  specialize (Hv (k, v)). simpl in Hv. rewrite Hs in Hv.
  apply Hv. apply list_elem_of_In. by apply elem_of_map_to_list.
Qed.

Lemma role_seconds_typed (raw : gmap string Value) (k : string) :
  framework.Validate (role_request raw) = true ->
  k = "ttl" \/ k = "max_ttl" ->
  raw !! k = None \/ exists n, raw !! k = Some (VInt n).
Proof.
  intros Hv Hk. destruct (raw !! k) as [v|] eqn:Hr; [right|by left].
  assert (Hs : roleFields !! k
               = Some (framework.mkFieldSchema framework.TypeDurationSecond false None))
    by (destruct Hk as [-> | ->]; reflexivity).
  pose proof (Validate_has_type (role_request raw) k _ v Hv Hs Hr) as Ht.
  destruct v; try discriminate. eauto.
Qed.

Lemma getRole_absent (name : string) (w : State) :
  name <> "" ->
  logical.fault (storage w) logical.OpGet ("role/" +:+ name) = None ->
  logical.entries (storage w) !! ("role/" +:+ name) = None ->
  getRole name w = (Ret None, w).
Proof.
  intros Hn Hf He. unfold getRole.
  destruct (String.eqb_spec name "") as [->|_]; [done|].
  unfold bind, storage_Get, logical.Get. rewrite Hf, He. reflexivity.
Qed.

Lemma getRole_present (name : string) (w : State)
    (doc : gmap string Value) (r : proxmoxRoleEntry.t) :
  name <> "" ->
  logical.fault (storage w) logical.OpGet ("role/" +:+ name) = None ->
  logical.entries (storage w) !! ("role/" +:+ name) = Some doc ->
  proxmoxRoleEntry.fromJSON doc = Ret r ->
  getRole name w = (Ret (Some r), w).
Proof.
  intros Hn Hf He Hd. unfold getRole.
  destruct (String.eqb_spec name "") as [->|_]; [done|].
  unfold bind, storage_Get, logical.Get, lift. rewrite Hf, He, Hd. reflexivity.
Qed.

(** C3: when the record that a role write has put together (the stored
    or fresh record with the supplied fields merged in) has a maximum
    lease above zero and a default lease above that maximum, the write
    answers with the error response "ttl cannot be greater than max_ttl"
    and a nil error, and leaves the whole state, the storage included,
    as it was. *)
Theorem pathRolesWrite_ttl_above_max_rejected
    (op : logical.Operation) (d : framework.FieldData) (w w1 : State)
    (name : string) (roleEntry : proxmoxRoleEntry.t) :
  pathRolesWrite_merge op d w = (Ret (inr (name, roleEntry)), w1) ->
  0 < proxmoxRoleEntry.MaxTTL roleEntry ->
  proxmoxRoleEntry.MaxTTL roleEntry < proxmoxRoleEntry.TTL roleEntry ->
  pathRolesWrite op d w
    = (Ret (Some (logical.ErrorResponse "ttl cannot be greater than max_ttl")), w)
  /\ logical.IsError (logical.ErrorResponse "ttl cannot be greater than max_ttl") = true
  /\ storage w1 = storage w.
Proof.
  intros Hm Hpos Hgt.
  pose proof (pathRolesWrite_merge_reads op d w) as Hw.
  rewrite Hm in Hw. simpl in Hw. subst w1.
  split; [|split; [vm_compute; reflexivity | reflexivity]].
  unfold pathRolesWrite. rewrite (bind_Ret _ _ _ _ _ Hm).
  assert ((proxmoxRoleEntry.MaxTTL roleEntry =? 0)%Z = false) as -> by lia.
  assert ((proxmoxRoleEntry.MaxTTL roleEntry <? proxmoxRoleEntry.TTL roleEntry)%Z = true)
    as -> by lia.
  reflexivity.
Qed.

Lemma GetOk_in_schema (d : framework.FieldData) (k : string) :
  is_Some (framework.Schema d !! k) ->
  framework.GetOk d k = framework.Raw d !! k.
Proof. unfold framework.GetOk. intros [s ->]. reflexivity. Qed.

Lemma roleFields_known (k : string) :
  k ∈ ["name"; "user"; "realm"; "ttl"; "max_ttl"] -> is_Some (roleFields !! k).
Proof.
  rewrite !elem_of_cons, elem_of_nil.
  intros [->|[->|[->|[->|[->|[]]]]]]; vm_compute; eauto.
Qed.

Lemma GetOk_role (raw : gmap string Value) (k : string) :
  k ∈ ["name"; "user"; "realm"; "ttl"; "max_ttl"] ->
  framework.GetOk (role_request raw) k = raw !! k.
Proof. intros Hk. apply GetOk_in_schema, roleFields_known, Hk. Qed.

Lemma pathConfigWrite_update_absent (data : framework.FieldData) (w : State) :
  logical.fault (storage w) logical.OpGet "config" = None ->
  logical.entries (storage w) !! "config" = None ->
  pathConfigWrite logical.UpdateOperation data w
    = (Fail "config not found during update operation", w).
Proof.
  intros Hf He. unfold pathConfigWrite.
  rewrite (bind_Ret _ _ _ _ _ (getConfig_absent w Hf He)). reflexivity.
Qed.

Lemma merge_update_absent (raw : gmap string Value) (w : State) (name : string) :
  framework.Validate (role_request raw) = true ->
  raw !! "name" = Some (VString name) ->
  name <> "" ->
  raw !! "user" = None ->
  raw !! "realm" = None ->
  logical.fault (storage w) logical.OpGet ("role/" +:+ name) = None ->
  logical.entries (storage w) !! ("role/" +:+ name) = None ->
  pathRolesWrite_merge logical.UpdateOperation (role_request raw) w
    = (Ret (inr (name,
                 proxmoxRoleEntry.mk name "" ""
                   (supplied_seconds raw "ttl") (supplied_seconds raw "max_ttl"))), w).
Proof.
  intros Hv Hname Hne Huser Hrealm Hf He.
  unfold pathRolesWrite_merge.
  rewrite !GetOk_role by (rewrite !elem_of_cons; tauto).
  rewrite Hname, Huser, Hrealm. cbn [lift assert_string].
  unfold bind at 1. cbn [lift].
  unfold bind at 1. rewrite (getRole_absent name w Hne Hf He).
  cbn [logical.Operation_eqb]. unfold bind at 1. cbn [ret].
  unfold bind at 1. cbn [ret].
  unfold supplied_seconds.
  destruct (role_seconds_typed raw "ttl" Hv) as [-> | [n ->]]; [by left | |];
  destruct (role_seconds_typed raw "max_ttl" Hv) as [-> | [m ->]];
    try (by right); reflexivity.
Qed.

(** C9: an update on [role/{name}] that finds no stored role, and that
    supplies neither user nor realm, does not fail: with the storage
    working and the supplied durations passing the ttl check, it stores
    under [role/{name}] a fresh record carrying the name, an empty user,
    an empty realm and the supplied durations (zero when not supplied),
    and returns neither a response nor an error.  An update of the
    configuration that finds no stored configuration fails with "config
    not found during update operation" instead. *)
Theorem pathRolesWrite_update_creates_role
    (raw : gmap string Value) (w : State) (name : string) :
  let key := "role/" +:+ name in
  let ttl := supplied_seconds raw "ttl" in
  let maxTTL := supplied_seconds raw "max_ttl" in
  framework.Validate (role_request raw) = true ->
  raw !! "name" = Some (VString name) ->
  name <> "" ->
  raw !! "user" = None ->
  raw !! "realm" = None ->
  logical.fault (storage w) logical.OpGet key = None ->
  logical.fault (storage w) logical.OpPut key = None ->
  logical.entries (storage w) !! key = None ->
  ~ (maxTTL <> 0 /\ maxTTL < ttl) ->
  pathRolesWrite logical.UpdateOperation (role_request raw) w
    = (Ret None,
       set_storage
         (logical.mkStorage
            (<[ key := proxmoxRoleEntry.toJSON
                         (proxmoxRoleEntry.mk name "" "" ttl maxTTL) ]>
               (logical.entries (storage w)))
            (logical.fault (storage w)))
         w)
  /\ (forall data,
        logical.fault (storage w) logical.OpGet "config" = None ->
        logical.entries (storage w) !! "config" = None ->
        pathConfigWrite logical.UpdateOperation data w
          = (Fail "config not found during update operation", w)).
Proof.
  intros key ttl maxTTL Hv Hname Hne Huser Hrealm Hfg Hfp He Hok.
  split; [|intros data; apply pathConfigWrite_update_absent].
  unfold pathRolesWrite.
  rewrite (bind_Ret _ _ _ _ _
             (merge_update_absent raw w name Hv Hname Hne Huser Hrealm Hfg He)).
  cbn [proxmoxRoleEntry.MaxTTL proxmoxRoleEntry.TTL].
  fold ttl maxTTL.
  assert (negb (maxTTL =? 0)%Z && (maxTTL <? ttl)%Z = false) as ->.
  { destruct (Z.eqb_spec maxTTL 0), (Z.ltb_spec maxTTL ttl); simpl; try reflexivity.
    exfalso. apply Hok. split; assumption. }
  unfold setRole, bind, storage_Put, logical.Put. fold key. rewrite Hfp.
  reflexivity.
Qed.

End Roles.

(** ** The client cache *)

#[local] Instance differs_in_client_only_preorder : PreOrder differs_in_client_only.
Proof.
  split.
  - intros w. repeat split; reflexivity.
  - intros w1 w2 w3 (H1 & H2 & H3 & H4) (H5 & H6 & H7 & H8).
    repeat split; congruence.
Qed.

Ltac bind_ret_inv H :=
  repeat (cbv zeta in H;
          let a := fresh "a" in
          let w := fresh "w" in
          let Ha := fresh "Hstep" in
          apply bind_Ret_inv in H as (a & w & Ha & H)).

Section ClientCache.

Variable env : Env.

Lemma getClient_cached (w : State) (c : proxmoxClient) :
  client w = Some c -> getClient env w = (Ret c, w).
Proof. unfold getClient. intros ->. reflexivity. Qed.

Lemma getClient_miss (w : State) :
  client w = None -> getClient env w = getClient_build env w.
Proof. unfold getClient. intros ->. reflexivity. Qed.

Lemma newClient_no_panic (cfg : option proxmoxConfig.t) (p : string) :
  newClient env cfg <> Panic p.
Proof.
  unfold newClient, pxapi_NewClient. destruct cfg as [cfg|]; [|discriminate].
  destruct (String.eqb _ _); [discriminate|].
  destruct (NewClient_err _ _ _ _ _ _); discriminate.
Qed.

Lemma config_fromJSON_no_panic (doc : gmap string Value) (p : string) :
  proxmoxConfig.fromJSON doc <> Panic p.
Proof.
  unfold proxmoxConfig.fromJSON.
  repeat (match goal with
          | |- context [match ?x with _ => _ end] => destruct x
          end; try discriminate).
Qed.

Lemma role_fromJSON_no_panic (doc : gmap string Value) (p : string) :
  proxmoxRoleEntry.fromJSON doc <> Panic p.
Proof.
  unfold proxmoxRoleEntry.fromJSON.
  repeat (match goal with
          | |- context [match ?x with _ => _ end] => destruct x
          end; try discriminate).
Qed.

Lemma getClient_keeps : keeps differs_in_client_only (getClient env).
Proof.
  intros w. unfold getClient. destruct (client w); [reflexivity|].
  revert w. change (keeps differs_in_client_only (getClient_build env)).
  unfold getClient_build. body_cases.
  intros w. unfold differs_in_client_only. simpl. repeat split; reflexivity.
Qed.

Lemma getClient_no_panic : no_panic (getClient env).
Proof.
  intros w p. unfold getClient. destruct (client w); [discriminate|].
  revert w p. change (no_panic (getClient_build env)).
  unfold getClient_build. body_cases.
  all: first [ apply no_panic_lift, config_fromJSON_no_panic
             | apply no_panic_lift, newClient_no_panic
             | intros w p; discriminate ].
Qed.

(** The build half never looks at [b.client]: run with a client already
    cached it reads the configuration and builds again, with the same
    outcome. *)
Lemma getClient_build_ignores_cache (w : State) (c : option proxmoxClient) :
  (getClient_build env (set_client c w)).1 = (getClient_build env w).1.
Proof.
  unfold getClient_build, bind.
  assert (Hg : getConfig (set_client c w) = ((getConfig w).1, set_client c w)).
  { unfold getConfig, bind, storage_Get. simpl.
    destruct (logical.Get (storage w) configStoragePath) as [[doc|]|e|p];
      try reflexivity.
    unfold wrapErr, lift. destruct (proxmoxConfig.fromJSON doc); reflexivity. }
  rewrite Hg. rewrite (surjective_pairing (getConfig w)).
  destruct (getConfig w).1 as [ocfg|e|p]; try reflexivity.
  unfold lift. cbn [fst snd].
  match goal with
  | |- context [newClient env ?x] => destruct (newClient env x); reflexivity
  end.
Qed.


End ClientCache.

(** ** Issuing and revoking tokens *)

Section Tokens.

Variable env : Env.

Lemma createToken_Ret (c : proxmoxClient) (user realm : string)
    (expire : Z) (privsep : bool) (w w' : State) (o : option proxmoxToken) :
  createToken env c user realm expire privsep w = (Ret o, w') ->
  exists secret,
    o = Some {| TokenID := Replace digitsToLetters
                             (uuid.String_ (uuid_source env (drawn w)));
                Secret := secret |}.
Proof.
  unfold createToken.
  destruct (len user =? 0)%Z; [discriminate|].
  destruct (len realm =? 0)%Z; [discriminate|].
  intros H. bind_ret_inv H.
  unfold uuid_New in Hstep. unfold ret in H. simplify_eq. eauto.
Qed.

Lemma proxmoxBackend_createToken_Ret (role : proxmoxRoleEntry.t)
    (w w' : State) (token : proxmoxToken) :
  proxmoxBackend_createToken env role w = (Ret token, w') ->
  TokenID token
    = Replace digitsToLetters (uuid.String_ (uuid_source env (drawn w))).
Proof.
  unfold proxmoxBackend_createToken. intros H. bind_ret_inv H.
  apply wrapErr_Ret_inv, createToken_Ret in Hstep1 as [secret ->].
  unfold ret in H. simplify_eq. simpl.
  pose proof (getClient_keeps env w) as (_ & _ & Hd & _).
  rewrite Hstep in Hd. simpl in Hd.
  assert (drawn w1 = drawn w0) as ->; [|by rewrite Hd].
  destruct (0 <? proxmoxRoleEntry.TTL role)%Z.
  - unfold Unix_after in Hstep0. bind_ret_inv Hstep0.
    unfold time_Now, ret in *. by simplify_eq.
  - unfold ret in Hstep0. by simplify_eq.
Qed.

(** C2: every token that the issue path returns carries an identifier
    whose first character is a letter and which holds no decimal
    digit. *)
Theorem issued_TokenID_starts_alpha_no_digit (role : proxmoxRoleEntry.t)
    (w w' : State) (token : proxmoxToken) :
  proxmoxBackend_createToken env role w = (Ret token, w') ->
  starts_alpha (TokenID token) = true /\ has_digit (TokenID token) = false.
Proof.
  intros H. rewrite (proxmoxBackend_createToken_Ret role w w' token H).
  apply tokenId_shape.
Qed.


(** C4: a revoke whose lease metadata has no role member, or names a
    role that is not stored any more, returns an error, and the cluster
    has received no request at all by then (no token deletion in
    particular); the storage is untouched as well. *)
Theorem tokenRevoke_fails_when_role_unresolved (secret : logical.Secret) (w : State) :
  logical.InternalData secret !! "role" = None \/
  (exists role,
      logical.InternalData secret !! "role" = Some (VString role) /\
      logical.entries (storage w) !! ("role/" +:+ role) = None) ->
  exists e w',
    tokenRevoke env secret w = (Fail e, w') /\
    calls w' = calls w /\
    storage w' = storage w.
Proof.
  intros Hrole. unfold tokenRevoke.
  pose proof (getClient_keeps env w) as (Hc & Hs & _).
  pose proof (getClient_no_panic env w) as Hp.
  unfold bind at 1, wrapErr at 1.
  destruct (getClient env w) as [[c|e|p] w1]; simpl in Hc, Hs, Hp.
  2: { eauto. }
  2: { exfalso. by apply (Hp p). }
  unfold bind at 1.
  destruct (logical.InternalData secret !! "token_id") as [[tid|b|z|f]|];
    cbn [ret fail]; try (eexists _, w1; split; [reflexivity|done]).
  all: unfold bind at 1.
  all: destruct Hrole as [-> | (role & -> & He)];
    cbn [ret fail]; try (eexists _, w1; split; [reflexivity|done]).
  all: unfold bind at 1; cbn [lift assert_string].
  all: unfold bind at 1, wrapErr at 1, getRole.
  all: destruct (String.eqb role ""); cbn [fail];
    try (eexists _, w1; split; [reflexivity|done]).
  all: unfold bind at 1, storage_Get, logical.Get; rewrite Hs.
  all: destruct (logical.fault (storage w) logical.OpGet ("role/" +:+ role));
    try (eexists _, w1; split; [reflexivity|done]).
  all: rewrite He; cbn [ret].
  all: unfold bind at 1; cbn [fail].
  all: eexists _, w1; split; [reflexivity|done].
Qed.

End Tokens.

(** ** The cached client is built from the stored configuration *)

#[local] Instance same_client_and_config_preorder : PreOrder same_client_and_config.
Proof.
  split.
  - intros w. split; reflexivity.
  - intros w1 w2 w3 [H1 H2] [H3 H4]. split; congruence.
Qed.

#[local] Instance carries_coherence_preorder (env : Env) :
  PreOrder (carries_coherence env).
Proof.
  split.
  - intros w H. exact H.
  - intros w1 w2 w3 H1 H2 H. apply H2, H1, H.
Qed.

Section Coherence.

Variable env : Env.

Lemma getConfig_state (w : State) : getConfig w = ((getConfig w).1, w).
Proof.
  pose proof (getConfig_reads w) as H.
  destruct (getConfig w) as [o w1]. simpl in *. by subst.
Qed.

Lemma getConfig_by_view (w w' : State) :
  config_view w' = config_view w -> (getConfig w').1 = (getConfig w).1.
Proof.
  unfold config_view. intros [= Hf He].
  unfold getConfig, bind, storage_Get, logical.Get, configStoragePath.
  rewrite Hf, He.
  destruct (logical.fault (storage w) logical.OpGet "config"); [reflexivity|].
  destruct (logical.entries (storage w) !! "config") as [doc|]; [|reflexivity].
  unfold wrapErr, lift. destruct (proxmoxConfig.fromJSON doc); reflexivity.
Qed.

Lemma coherent_without_client (w : State) : client w = None -> coherent env w.
Proof. intros H c Hc. congruence. Qed.



Lemma role_key_not_config (name : string) : "role/" +:+ name <> "config".
Proof. discriminate. Qed.








Lemma newClient_Ret_token_id (cfg : proxmoxConfig.t) (c : proxmoxClient) :
  newClient env (Some cfg) = Ret c ->
  proxmoxConfig.ApiTokenID cfg <> "" /\
  pxapi.APIToken c
    = Some (proxmoxConfig.User cfg +:+ "@" +:+ proxmoxConfig.Realm cfg +:+ "!"
              +:+ proxmoxConfig.ApiTokenID cfg,
            proxmoxConfig.ApiTokenSecret cfg).
Proof.
  unfold newClient, pxapi_NewClient.
  destruct (String.eqb_spec (proxmoxConfig.ApiTokenID cfg) "") as [|Hne];
    [discriminate|].
  destruct (NewClient_err _ _ _ _ _ _); [discriminate|].
  intros [= <-]. split; [exact Hne | reflexivity].
Qed.





(** C8: in a state whose cached client, if any, was built from the
    stored configuration (every reachable one), and with [ocfg] the
    configuration read from storage ([None] when none is stored, then
    taken as [new(proxmoxConfig)]): if the admin token identifier is
    empty, [getClient] fails with "client api token was not defined" and
    changes nothing; otherwise it either returns a client, kept in
    [b.client], whose API token is user, "@", realm, "!", token
    identifier together with the stored secret, or fails with the error
    of the client library. *)
Theorem getClient_by_token_id (w : State) (ocfg : option proxmoxConfig.t) :
  coherent env w ->
  getConfig w = (Ret ocfg, w) ->
  let cfg := default proxmoxConfig.zero ocfg in
  if String.eqb (proxmoxConfig.ApiTokenID cfg) ""
  then getClient env w = (Fail "client api token was not defined", w)
  else
    (exists c w',
        getClient env w = (Ret c, w') /\
        client w' = Some c /\
        pxapi.APIToken c
          = Some (proxmoxConfig.User cfg +:+ "@" +:+ proxmoxConfig.Realm cfg +:+ "!"
                    +:+ proxmoxConfig.ApiTokenID cfg,
                  proxmoxConfig.ApiTokenSecret cfg))
    \/ (exists e, newClient env (Some cfg) = Fail e /\
                  getClient env w = (Fail e, w)).
Proof.
  intros Hcoh Hg cfg.
  destruct (client w) as [c|] eqn:Hc.
  - destruct (Hcoh c Hc) as (cfg' & Hg' & Hn).
    rewrite Hg in Hg'. injection Hg' as ->. simpl in cfg. subst cfg.
    destruct (newClient_Ret_token_id cfg' c Hn) as [Hne Htok].
    destruct (String.eqb_spec (proxmoxConfig.ApiTokenID cfg') ""); [done|].
    left. exists c, w. by rewrite (getClient_cached env w c Hc).
  - rewrite (getClient_miss env w Hc). unfold getClient_build.
    rewrite (bind_Ret _ _ _ _ _ Hg).
    replace (match ocfg with Some c => c | None => proxmoxConfig.zero end)
      with cfg by (destruct ocfg; reflexivity).
    unfold bind, lift.
    destruct (newClient env (Some cfg)) as [c|e|p] eqn:Hn.
    + destruct (newClient_Ret_token_id cfg c Hn) as [Hne Htok].
      destruct (String.eqb_spec (proxmoxConfig.ApiTokenID cfg) ""); [done|].
      left. eexists c, _. split; [reflexivity|]. split; [reflexivity|exact Htok].
    + destruct (String.eqb_spec (proxmoxConfig.ApiTokenID cfg) "") as [He|Hne].
      * unfold newClient in Hn. rewrite He in Hn. simpl in Hn. by injection Hn as <-.
      * right. eauto.
    + by destruct (newClient_no_panic env (Some cfg) p).
Qed.

End Coherence.

(** * The properties at concrete inputs *)

Section Examples.

Lemma issued_TokenID_example :
  exists token w',
    proxmoxBackend_createToken sample_env sample_role configured = (Ret token, w') /\
    starts_alpha (TokenID token) = true /\ has_digit (TokenID token) = false.
Proof.
  eexists _, (proxmoxBackend_createToken sample_env sample_role configured).2.
  split; [vm_compute; reflexivity|].
  apply (issued_TokenID_starts_alpha_no_digit sample_env sample_role configured
           (proxmoxBackend_createToken sample_env sample_role configured).2).
  vm_compute; reflexivity.
Defined.

Lemma role_ttl_above_max_example :
  let d := role_request role_ttl_above_max_raw in
  let w := mounted ∅ 0 in
  let r := proxmoxRoleEntry.mk "alice" "alice" "pve" 500000000000 100000000000 in
  pathRolesWrite_merge logical.CreateOperation d w = (Ret (inr ("alice", r)), w) /\
  0 < proxmoxRoleEntry.MaxTTL r /\
  proxmoxRoleEntry.MaxTTL r < proxmoxRoleEntry.TTL r /\
  (pathRolesWrite logical.CreateOperation d w
     = (Ret (Some (logical.ErrorResponse "ttl cannot be greater than max_ttl")), w)
   /\ logical.IsError (logical.ErrorResponse "ttl cannot be greater than max_ttl") = true
   /\ storage w = storage w).
Proof.
  intros d w r.
  assert (Hm : pathRolesWrite_merge logical.CreateOperation d w
               = (Ret (inr ("alice", r)), w)) by (vm_compute; reflexivity).
  assert (H1 : 0 < proxmoxRoleEntry.MaxTTL r) by reflexivity.
  assert (H2 : proxmoxRoleEntry.MaxTTL r < proxmoxRoleEntry.TTL r) by reflexivity.
  split; [exact Hm|]. split; [exact H1|]. split; [exact H2|].
  exact (pathRolesWrite_ttl_above_max_rejected
           logical.CreateOperation d w w "alice" r Hm H1 H2).
Defined.

Lemma revoke_deleted_role_example :
  (logical.InternalData sample_lease !! "role" = None \/
   (exists role,
       logical.InternalData sample_lease !! "role" = Some (VString role) /\
       logical.entries (storage configured) !! ("role/" +:+ role) = None)) /\
  (exists e w',
      tokenRevoke sample_env sample_lease configured = (Fail e, w') /\
      calls w' = calls configured /\
      storage w' = storage configured).
Proof.
  assert (H : logical.InternalData sample_lease !! "role" = None \/
              (exists role,
                  logical.InternalData sample_lease !! "role" = Some (VString role) /\
                  logical.entries (storage configured) !! ("role/" +:+ role) = None)).
  { right. exists "alice". split; vm_compute; reflexivity. }
  split; [exact H|].
  exact (tokenRevoke_fails_when_role_unresolved sample_env sample_lease configured H).
Defined.

Lemma config_read_example :
  logical.fault (storage configured) logical.OpGet "config" = None /\
  logical.entries (storage configured) !! "config"
    = Some (proxmoxConfig.toJSON sample_config) /\
  proxmoxConfig.fromJSON (proxmoxConfig.toJSON sample_config) = Ret sample_config /\
  exists resp,
    pathConfigRead configured = (Ret (Some resp), configured) /\
    logical.Data resp !! "user" = Some (VString "root") /\
    logical.Data resp !! "timeout" = Some (VInt 120) /\
    logical.Data resp !! "token_secret" = None.
Proof.
  assert (H1 : logical.fault (storage configured) logical.OpGet "config" = None)
    by reflexivity.
  assert (H2 : logical.entries (storage configured) !! "config"
               = Some (proxmoxConfig.toJSON sample_config))
    by (vm_compute; reflexivity).
  assert (H3 : proxmoxConfig.fromJSON (proxmoxConfig.toJSON sample_config)
               = Ret sample_config) by (vm_compute; reflexivity).
  split; [exact H1|]. split; [exact H2|]. split; [exact H3|].
  destruct (pathConfigRead_all_but_secret configured _ sample_config H1 H2 H3)
    as (resp & Hr & Hu & _ & _ & _ & _ & _ & _ & Ht & Hs & _).
  exists resp. split; [exact Hr|]. split; [exact Hu|]. split; [exact Ht | exact Hs].
Defined.



Lemma getClient_without_profile_example :
  coherent sample_env (mounted ∅ 0) /\
  getConfig (mounted ∅ 0) = (Ret None, mounted ∅ 0) /\
  getClient sample_env (mounted ∅ 0)
    = (Fail "client api token was not defined", mounted ∅ 0).
Proof.
  assert (H1 : coherent sample_env (mounted ∅ 0))
    by (apply coherent_without_client; reflexivity).
  assert (H2 : getConfig (mounted ∅ 0) = (Ret None, mounted ∅ 0))
    by (vm_compute; reflexivity).
  split; [exact H1|]. split; [exact H2|].
  exact (getClient_by_token_id sample_env (mounted ∅ 0) None H1 H2).
Defined.

Lemma update_unknown_role_example :
  let w := mounted ∅ 0 in
  framework.Validate (role_request update_bob_raw) = true /\
  update_bob_raw !! "name" = Some (VString "bob") /\
  "bob" <> "" /\
  update_bob_raw !! "user" = None /\
  update_bob_raw !! "realm" = None /\
  logical.fault (storage w) logical.OpGet "role/bob" = None /\
  logical.fault (storage w) logical.OpPut "role/bob" = None /\
  logical.entries (storage w) !! "role/bob" = None /\
  ~ (supplied_seconds update_bob_raw "max_ttl" <> 0 /\
     supplied_seconds update_bob_raw "max_ttl" < supplied_seconds update_bob_raw "ttl") /\
  pathRolesWrite logical.UpdateOperation (role_request update_bob_raw) w
    = (Ret None,
       mounted {[ "role/bob" := proxmoxRoleEntry.toJSON
                                  (proxmoxRoleEntry.mk "bob" "" "" 60000000000 0) ]} 0).
Proof.
  intros w.
  assert (H1 : framework.Validate (role_request update_bob_raw) = true)
    by (vm_compute; reflexivity).
  assert (H2 : update_bob_raw !! "name" = Some (VString "bob"))
    by (vm_compute; reflexivity).
  assert (H3 : "bob" <> "") by discriminate.
  assert (H4 : update_bob_raw !! "user" = None) by (vm_compute; reflexivity).
  assert (H5 : update_bob_raw !! "realm" = None) by (vm_compute; reflexivity).
  assert (H6 : logical.fault (storage w) logical.OpGet "role/bob" = None)
    by reflexivity.
  assert (H7 : logical.fault (storage w) logical.OpPut "role/bob" = None)
    by reflexivity.
  assert (H8 : logical.entries (storage w) !! "role/bob" = None)
    by (vm_compute; reflexivity).
  assert (H9 : ~ (supplied_seconds update_bob_raw "max_ttl" <> 0 /\
                  supplied_seconds update_bob_raw "max_ttl"
                  < supplied_seconds update_bob_raw "ttl")).
  { intros [Hne _]. apply Hne. vm_compute. reflexivity. }
  repeat (split; [assumption|]).
  destruct (pathRolesWrite_update_creates_role update_bob_raw w "bob"
              H1 H2 H3 H4 H5 H6 H7 H8 H9) as [Hw _].
  rewrite Hw. vm_compute. reflexivity.
Defined.

(** The scenarios of the specification, run on the model. *)

Example Seconds_of_two_minutes : int_of_float64 (Seconds 120000000000) = 120.
Proof. vm_compute. reflexivity. Qed.

Example Seconds_rounds_up_near_a_second :
  int_of_float64 (Seconds 9000000000999999999) = 9000000001.
Proof. vm_compute. reflexivity. Qed.

Example tokenId_of_sample_uuid :
  uuid.String_ sample_uuid = "3f0a7712-9c4e-4108-b26d-005ed1234567" /\
  Replace digitsToLetters (uuid.String_ sample_uuid)
    = "jfgannhi-pcke-khgo-bimd-ggledhijklmn".
Proof. split; vm_compute; reflexivity. Qed.

Example config_create_then_read :
  ((do_ pathConfigWrite logical.CreateOperation (config_request create_config_raw);
    pathConfigRead) (mounted ∅ 0)).1
  = Ret (Some
      {| logical.Data :=
           <[ "user" := VString "root" ]>
           (<[ "realm" := VString "pam" ]>
           (<[ "token_id" := VString "tok1" ]>
           (<[ "proxmox_url" := VString "https://h:8006/api2/json" ]>
           (<[ "insecure_skip_tls_verify" := VBool false ]>
           (<[ "http_headers" := VString "" ]>
           (<[ "proxy_server" := VString "" ]>
           (<[ "timeout" := VInt 120 ]> ∅)))))));
         logical.Secret_ := None |}).
Proof. vm_compute. reflexivity. Qed.

Example config_update_user_only :
  ((do_ pathConfigWrite logical.UpdateOperation
          (config_request {[ "user" := VString "bob" ]});
    getConfig) configured).1
  = Ret (Some (proxmoxConfig.set_User "bob" sample_config)).
Proof. vm_compute. reflexivity. Qed.

Example config_create_without_url_fails :
  (pathConfigWrite logical.CreateOperation
     (config_request (delete "proxmox_url" create_config_raw)) (mounted ∅ 0)).1
  = Fail "missing proxmox_url in configuration".
Proof. vm_compute. reflexivity. Qed.

Example getClient_on_configured_mount :
  pxapi.APIToken <$> (match (getClient sample_env configured).1 with
                      | Ret c => Some c
                      | _ => None
                      end)
  = Some (Some ("root@pam!tok1", "s")).
Proof. vm_compute. reflexivity. Qed.

Example creds_for_alice :
  match (HandleRequest sample_env (OnCreds {[ "name" := VString "alice" ]})
           configured_with_role).1 with
  | Ret (Some resp) =>
      logical.Data resp !! "token_id_full"
        = Some (VString "alice@pve!jfgannhi-pcke-khgo-bimd-ggledhijklmn") /\
      logical.TTL <$> logical.Secret_ resp = Some 300000000000
  | _ => False
  end.
Proof. vm_compute. split; reflexivity. Qed.

Example revoke_with_role_deletes_token :
  let r := tokenRevoke sample_env sample_lease configured_with_role in
  r.1 = Ret None /\ pxapi.is_DeleteApiToken <$> calls r.2 = [false; true].
Proof. vm_compute. split; reflexivity. Qed.

Example revoke_without_role_sends_nothing :
  let r := tokenRevoke sample_env sample_lease configured in
  r.1 = Fail "error retrieving role: role is nil" /\ calls r.2 = [].
Proof. vm_compute. split; reflexivity. Qed.

Example role_create_without_user_fails :
  (pathRolesWrite logical.CreateOperation
     (role_request {[ "name" := VString "bob" ]}) (mounted ∅ 0)).1
  = Fail "missing user in role".
Proof. vm_compute. reflexivity. Qed.

End Examples.


(** * Further properties of the code *)

(** ** The identifier of an issued token *)

Section TokenIdMore.

Lemma Replace_app (oldnew : list (ascii * ascii)) (s t : string) :
  Replace oldnew (s +:+ t) = Replace oldnew s +:+ Replace oldnew t.
Proof. induction s as [|c s IH]; simpl; [reflexivity | by rewrite IH]. Qed.

Lemma all_chars_app (P : ascii -> bool) (s t : string) :
  all_chars P (s +:+ t) = all_chars P s && all_chars P t.
Proof.
  induction s as [|c s IH]; simpl; [reflexivity|].
  by rewrite IH, andb_assoc.
Qed.

Lemma length_app_string (s t : string) :
  String.length (s +:+ t) = (String.length s + String.length t)%nat.
Proof. induction s as [|c s IH]; simpl; [reflexivity | by rewrite IH]. Qed.

Lemma length_Replace (oldnew : list (ascii * ascii)) (s : string) :
  String.length (Replace oldnew s) = String.length s.
Proof. induction s as [|c s IH]; simpl; [reflexivity | by rewrite IH]. Qed.

Lemma length_hex_Encode (l : list Byte.byte) :
  String.length (uuid.hex_Encode l) = (2 * length l)%nat.
Proof. induction l as [|b l IH]; simpl; [reflexivity | rewrite IH; lia]. Qed.

Lemma nibbles_token_chars (b : Byte.byte) :
  is_token_char (replaceByte digitsToLetters
                   (uuid.hexdigit (N.shiftr (Byte.to_N b) 4))) = true /\
  is_token_char (replaceByte digitsToLetters
                   (uuid.hexdigit (N.land (Byte.to_N b) 15))) = true.
Proof. destruct b; split; reflexivity. Qed.

Lemma hex_Encode_token_chars (l : list Byte.byte) :
  all_chars is_token_char (Replace digitsToLetters (uuid.hex_Encode l)) = true.
Proof.
  induction l as [|b l IH]; [reflexivity|].
  cbn [uuid.hex_Encode Replace all_chars].
  destruct (nibbles_token_chars b) as [-> ->]. exact IH.
Qed.

Lemma String_token_chars (u : uuid.UUID) :
  all_chars is_token_char (Replace digitsToLetters (uuid.String_ u)) = true.
Proof.
  unfold uuid.String_.
  rewrite !Replace_app, !all_chars_app, !hex_Encode_token_chars. reflexivity.
Qed.

Lemma length_String (u : uuid.UUID) : String.length (uuid.String_ u) = 36%nat.
Proof.
  unfold uuid.String_.
  rewrite !length_app_string, !length_hex_Encode.
  rewrite !length_take, !length_drop, length_vec_to_list. reflexivity.
Qed.

(** X1: the identifier made from any UUID is 36 characters long and
    matches the naming rule quoted in [createToken], a letter followed by
    one or more letters, digits, dots, hyphens or underscores. *)
Theorem tokenId_matches_naming_rule (u : uuid.UUID) :
  let tokenId := Replace digitsToLetters (uuid.String_ u) in
  String.length tokenId = 36%nat /\ matches_token_rule tokenId = true.
Proof.
  intros tokenId. split.
  - unfold tokenId. rewrite length_Replace. apply length_String.
  - pose proof (tokenId_shape u) as [Ha _].
    pose proof (String_token_chars u) as Hc.
    assert (Hl : String.length tokenId = 36%nat)
      by (unfold tokenId; rewrite length_Replace; apply length_String).
    fold tokenId in Ha, Hc.
    destruct tokenId as [|c [|c' rest]]; try discriminate.
    unfold matches_token_rule. simpl in Ha, Hc. rewrite Ha. simpl.
    apply andb_true_iff in Hc as [_ Hc]. exact Hc.
Qed.

Lemma byte_of_letters_nibbles (b : Byte.byte) :
  byte_of_letters
    (replaceByte digitsToLetters (uuid.hexdigit (N.shiftr (Byte.to_N b) 4)))
    (replaceByte digitsToLetters (uuid.hexdigit (N.land (Byte.to_N b) 15))) = b.
Proof. destruct b; reflexivity. Qed.

Lemma nibbles_inj (a b : Byte.byte) :
  replaceByte digitsToLetters (uuid.hexdigit (N.shiftr (Byte.to_N a) 4))
  = replaceByte digitsToLetters (uuid.hexdigit (N.shiftr (Byte.to_N b) 4)) ->
  replaceByte digitsToLetters (uuid.hexdigit (N.land (Byte.to_N a) 15))
  = replaceByte digitsToLetters (uuid.hexdigit (N.land (Byte.to_N b) 15)) ->
  a = b.
Proof.
  intros Hhi Hlo.
  rewrite <- (byte_of_letters_nibbles a), <- (byte_of_letters_nibbles b).
  by rewrite Hhi, Hlo.
Qed.

(** X2: the remapping loses nothing: two UUIDs that give the same
    identifier are the same UUID. *)
Theorem tokenId_injective (u1 u2 : uuid.UUID) :
  Replace digitsToLetters (uuid.String_ u1)
  = Replace digitsToLetters (uuid.String_ u2) ->
  u1 = u2.
Proof.
  inv_vec u1; intros a0 a1 a2 a3 a4 a5 a6 a7 a8 a9 a10 a11 a12 a13 a14 a15.
  inv_vec u2; intros b0 b1 b2 b3 b4 b5 b6 b7 b8 b9 b10 b11 b12 b13 b14 b15.
  unfold uuid.String_. simpl. intros H.
  injection H as H0 H0' H1 H1' H2 H2' H3 H3' H4 H4' H5 H5' H6 H6' H7 H7'
                 H8 H8' H9 H9' H10 H10' H11 H11' H12 H12' H13 H13' H14 H14' H15 H15'.
  by rewrite (nibbles_inj a0 b0), (nibbles_inj a1 b1), (nibbles_inj a2 b2),
    (nibbles_inj a3 b3), (nibbles_inj a4 b4), (nibbles_inj a5 b5),
    (nibbles_inj a6 b6), (nibbles_inj a7 b7), (nibbles_inj a8 b8),
    (nibbles_inj a9 b9), (nibbles_inj a10 b10), (nibbles_inj a11 b11),
    (nibbles_inj a12 b12), (nibbles_inj a13 b13), (nibbles_inj a14 b14),
    (nibbles_inj a15 b15).
Qed.

End TokenIdMore.

(** ** The client cache, continued *)

#[local] Existing Instance differs_in_client_only_preorder.
#[local] Existing Instance same_client_and_config_preorder.
#[local] Existing Instance carries_coherence_preorder.

Section ClientCacheMore.

Variable env : Env.

Lemma getClient_build_Ret (w w' : State) (c : proxmoxClient) :
  getClient_build env w = (Ret c, w') ->
  w' = set_client (Some c) w /\
  exists cfg, getConfig w = (Ret (Some cfg), w) /\ newClient env (Some cfg) = Ret c.
Proof.
  unfold getClient_build. intros H. bind_ret_inv H.
  pose proof (getConfig_reads w) as Hw. rewrite Hstep in Hw. simpl in Hw. subst w0.
  unfold lift in Hstep0. injection Hstep0 as Hn <-.
  injection H as <- <-. split; [reflexivity|].
  destruct a as [cfg|].
  - exists cfg. split; assumption.
  - apply newClient_Ret_token_id in Hn as [Hne _]. by destruct Hne.
Qed.

Lemma getClient_build_not_Ret (w w' : State) (o : Outcome proxmoxClient) :
  getClient_build env w = (o, w') -> (forall c, o <> Ret c) -> w' = w.
Proof.
  unfold getClient_build, bind. rewrite (getConfig_state w).
  destruct (getConfig w).1 as [ocfg|e|p]; [|by intros [= _ <-]..].
  unfold lift.
  match goal with
  | |- context [newClient env ?x] => destruct (newClient env x) as [c|e|p]
  end; intros [= <- <-] Hn; [by destruct (Hn c) | reflexivity..].
Qed.

(** X3: once [getClient] has returned a client, calling it again returns
    the same client and changes nothing. *)
Theorem getClient_again_returns_cached (w w' : State) (c : proxmoxClient) :
  getClient env w = (Ret c, w') ->
  getClient env w' = (Ret c, w').
Proof.
  unfold getClient at 1. destruct (client w) as [c0|] eqn:Hc.
  - intros [= <- <-]. by apply getClient_cached.
  - intros H. apply getClient_build_Ret in H as [-> _].
    by apply getClient_cached.
Qed.

(** X4: a [getClient] that fails leaves the state as it was, with no
    client cached, so that the next call builds again. *)
Theorem getClient_failure_changes_nothing (w w' : State) (e : string) :
  getClient env w = (Fail e, w') ->
  w' = w /\ client w = None /\ getClient env w = getClient_build env w.
Proof.
  unfold getClient. destruct (client w) as [c0|] eqn:Hc; [discriminate|].
  intros H. split; [|split; reflexivity].
  apply (getClient_build_not_Ret w w' _ H). discriminate.
Qed.

(** X5: after a config delete that returned without error (whether or not
    a configuration was stored) no configuration is stored, every other
    key of the storage is as before, and [getClient] fails with "client
    api token was not defined" until a configuration is written. *)
Theorem pathConfigDelete_then_no_client
    (w w' : State) (r : option logical.Response) :
  pathConfigDelete w = (Ret r, w') ->
  logical.fault (storage w) logical.OpGet "config" = None ->
  r = None /\
  logical.entries (storage w') !! "config" = None /\
  (forall k, k <> "config" ->
     logical.entries (storage w') !! k = logical.entries (storage w) !! k) /\
  getConfig w' = (Ret None, w') /\
  getClient env w' = (Fail "client api token was not defined", w').
Proof.
  unfold pathConfigDelete. intros H Hf. bind_ret_inv H.
  unfold storage_Delete, logical.Delete, configStoragePath in Hstep.
  destruct (logical.fault (storage w) logical.OpDelete "config"); [discriminate|].
  injection Hstep as <- <-. unfold reset in Hstep0. injection Hstep0 as <- <-.
  injection H as <- <-.
  match goal with |- context [getConfig ?x] => set (w1 := x) end.
  assert (He : logical.entries (storage w1) !! "config" = None)
    by (simpl; apply lookup_delete_eq).
  split; [reflexivity|]. split; [exact He|]. split.
  { intros k Hk. simpl. by apply lookup_delete_ne. }
  assert (Hg := getConfig_absent w1 Hf He).
  split; [exact Hg|].
  rewrite getClient_miss by reflexivity.
  unfold getClient_build. rewrite (bind_Ret _ _ _ _ _ Hg). reflexivity.
Qed.

End ClientCacheMore.

(** ** The cache and the stored configuration *)

Section CacheInvariant.

Variable env : Env.


End CacheInvariant.

(** ** Storing and loading roles *)

Section RoleStore.

Lemma role_key_inj (a b : string) : "role/" +:+ a = "role/" +:+ b -> a = b.
Proof. intros [= H]. exact H. Qed.

(** X7: a role stored by [setRole] under a non-empty name is what
    [getRole] returns for that name afterwards; the roles under other
    names, the configuration and the cached client are as before. *)
Theorem setRole_then_getRole
    (name : string) (r : proxmoxRoleEntry.t) (w w' : State) :
  name <> "" ->
  logical.fault (storage w) logical.OpGet ("role/" +:+ name) = None ->
  setRole name r w = (Ret tt, w') ->
  getRole name w' = (Ret (Some r), w') /\
  (forall other, other <> name -> (getRole other w').1 = (getRole other w).1) /\
  (getConfig w').1 = (getConfig w).1 /\
  client w' = client w.
Proof.
  intros Hne Hf. unfold setRole, storage_Put, logical.Put.
  destruct (logical.fault (storage w) logical.OpPut _); [discriminate|].
  intros [= <-]. split; [|split; [|split]].
  - apply (getRole_present name _ (proxmoxRoleEntry.toJSON r) r Hne); simpl;
      [exact Hf | apply lookup_insert_eq | apply fromJSON_toJSON_role].
  - intros other Ho. unfold getRole.
    destruct (String.eqb other ""); [reflexivity|].
    unfold bind, storage_Get, logical.Get. simpl.
    rewrite lookup_insert_ne by (intros H; apply Ho; symmetry; by apply role_key_inj).
    destruct (logical.fault (storage w) logical.OpGet ("role/" +:+ other));
      [reflexivity|].
    destruct (logical.entries (storage w) !! ("role/" +:+ other)) as [doc|];
      [|reflexivity].
    unfold lift. destruct (proxmoxRoleEntry.fromJSON doc); reflexivity.
  - apply getConfig_by_view. unfold config_view. simpl.
    by rewrite (lookup_insert_ne _ _ _ _ (role_key_not_config name)).
  - reflexivity.
Qed.

End RoleStore.

(** ** Writes that do not go through *)

Section FailedWrites.

Lemma keeps_eq_changes_only_on_Ret {A} (m : M A) :
  keeps eq m -> changes_only_on_Ret m.
Proof.
  intros Hm w o w' H _. specialize (Hm w). rewrite H in Hm. by symmetry.
Qed.

Lemma changes_only_on_Ret_bind {A B} (m : M A) (k : A -> M B) :
  keeps eq m -> (forall a, changes_only_on_Ret (k a)) ->
  changes_only_on_Ret (bind m k).
Proof.
  intros Hm Hk w o w' H Ho. specialize (Hm w). unfold bind in H.
  destruct (m w) as [[a|e|p] w1]; simpl in Hm; subst w1.
  - by apply (Hk a w o w').
  - by injection H as _ <-.
  - by injection H as _ <-.
Qed.

Lemma put_reset_changes_only_on_Ret {A} (key : string) (doc : gmap string Value) (a : A) :
  changes_only_on_Ret (do_ storage_Put key doc; do_ reset; ret a).
Proof.
  intros w o w'. unfold bind, storage_Put, reset, ret.
  destruct (logical.Put (storage w) key doc); intros [= <- <-] Ho;
    [by destruct (Ho a) | reflexivity..].
Qed.

Lemma delete_reset_changes_only_on_Ret {A} (key : string) (a : A) :
  changes_only_on_Ret (do_ storage_Delete key; do_ reset; ret a).
Proof.
  intros w o w'. unfold bind, storage_Delete, reset, ret.
  destruct (logical.Delete (storage w) key); intros [= <- <-] Ho;
    [by destruct (Ho a) | reflexivity..].
Qed.

Lemma pathConfigWrite_changes_only_on_Ret
    (op : logical.Operation) (data : framework.FieldData) :
  changes_only_on_Ret (pathConfigWrite op data).
Proof.
  unfold pathConfigWrite.
  repeat first
    [ apply put_reset_changes_only_on_Ret
    | progress cbv zeta
    | apply changes_only_on_Ret_bind; [unfold getConfig; body_cases | intros ?] ].
Qed.

(** X8: a config write or a config delete that does not return (it fails
    on a missing field, on a missing configuration, on the storage, or
    panics on ill-typed field data) leaves the whole state as it was:
    nothing is stored and the cached client stays. *)
Theorem config_change_failure_changes_nothing
    (op : logical.Operation) (data : framework.FieldData)
    (w w' : State) (o : Outcome (option logical.Response)) :
  pathConfigWrite op data w = (o, w') \/ pathConfigDelete w = (o, w') ->
  (forall r, o <> Ret r) ->
  w' = w.
Proof.
  intros [H | H] Ho.
  - exact (pathConfigWrite_changes_only_on_Ret op data w o w' H Ho).
  - exact (delete_reset_changes_only_on_Ret configStoragePath None w o w' H Ho).
Qed.

(** X9: a role write changes the state only when it returns neither a
    response nor an error; an error response, an error or a panic leaves
    the whole state as it was.  The same holds of a role delete. *)
Theorem role_change_failure_changes_nothing
    (op : logical.Operation) (d : framework.FieldData)
    (w w' : State) (o : Outcome (option logical.Response)) :
  pathRolesWrite op d w = (o, w') \/ pathRolesDelete d w = (o, w') ->
  o <> Ret None ->
  w' = w.
Proof.
  intros [H | H] Ho.
  - unfold pathRolesWrite, bind in H.
    pose proof (pathRolesWrite_merge_reads op d w) as Hm.
    destruct (pathRolesWrite_merge op d w) as [[[resp | [name r]]|e|p] w1];
      simpl in Hm; subst w1; try (by injection H as _ <-).
    destruct (_ && _); [by injection H as _ <-|].
    unfold setRole, storage_Put in H.
    destruct (logical.Put (storage w) _ _); injection H as <- <-;
      [by destruct Ho | reflexivity..].
  - unfold pathRolesDelete, bind, lift in H.
    destruct (framework.Get d "name") as [v|e|p]; try (by injection H as _ <-).
    destruct (assert_string v) as [name|e|p]; try (by injection H as _ <-).
    unfold wrapErr, storage_Delete in H.
    destruct (logical.Delete (storage w) _); injection H as <- <-;
      [by destruct Ho | reflexivity..].
Qed.

End FailedWrites.

(** ** What a config write stores *)

Section ConfigWrite.

Lemma GetOk_config (raw : gmap string Value) (k : string) :
  is_Some (configFields !! k) ->
  framework.GetOk (config_request raw) k = raw !! k.
Proof. intros H. by apply (GetOk_in_schema (config_request raw) k). Qed.

Lemma config_typed (raw : gmap string Value) (k : string) (sch : framework.FieldSchema) :
  framework.Validate (config_request raw) = true ->
  configFields !! k = Some sch ->
  match raw !! k with
  | Some v => framework.has_type (framework.Type_ sch) v = true
  | None => True
  end.
Proof.
  intros Hv Hs. destruct (raw !! k) as [v|] eqn:Hr; [|exact I].
  exact (Validate_has_type (config_request raw) k sch v Hv Hs Hr).
Qed.

Lemma config_string_typed (raw : gmap string Value) (k : string) :
  framework.Validate (config_request raw) = true ->
  k ∈ ["user"; "realm"; "token_id"; "token_secret"; "proxmox_url";
       "http_headers"; "proxy_server"] ->
  raw !! k = None \/ exists s, raw !! k = Some (VString s).
Proof.
  intros Hv Hk.
  assert (exists sch, configFields !! k = Some sch /\
                      framework.Type_ sch = framework.TypeString) as (sch & Hs & Ht).
  { rewrite !elem_of_cons, elem_of_nil in Hk.
    destruct Hk as [->|[->|[->|[->|[->|[->|[->|[]]]]]]]]; eexists; split;
      vm_compute; reflexivity. }
  pose proof (config_typed raw k sch Hv Hs) as H. rewrite Ht in H.
  destruct (raw !! k) as [[s|b|z|f]|]; try discriminate; eauto.
Qed.

Lemma config_bool_typed (raw : gmap string Value) :
  framework.Validate (config_request raw) = true ->
  raw !! "insecure_skip_tls_verify" = None \/
  exists b, raw !! "insecure_skip_tls_verify" = Some (VBool b).
Proof.
  intros Hv.
  pose proof (config_typed raw "insecure_skip_tls_verify" _ Hv eq_refl) as H.
  destruct (raw !! "insecure_skip_tls_verify") as [[s|b|z|f]|];
    try discriminate; eauto.
Qed.

Lemma config_int_typed (raw : gmap string Value) :
  framework.Validate (config_request raw) = true ->
  raw !! "timeout" = None \/ exists n, raw !! "timeout" = Some (VInt n).
Proof.
  intros Hv.
  pose proof (config_typed raw "timeout" _ Hv eq_refl) as H.
  destruct (raw !! "timeout") as [[s|b|z|f]|]; try discriminate; eauto.
Qed.

Lemma getConfig_Ret_fault (w w' : State) (ocfg : option proxmoxConfig.t) :
  getConfig w = (Ret ocfg, w') ->
  logical.fault (storage w) logical.OpGet "config" = None.
Proof.
  unfold getConfig, bind, storage_Get, logical.Get, configStoragePath.
  destruct (logical.fault (storage w) logical.OpGet "config"); [discriminate|done].
Qed.

(** One field of [pathConfigWrite]: the step at the head of the body
    returns [X] and leaves the state alone, whatever the request supplies
    for the field ([Ht] says what it can supply). *)
Ltac config_field_step X Ht :=
  match goal with
  | |- bind ?m ?K ?w = _ =>
      let H := fresh "Hs" in
      assert (H : m w = (Ret X, w));
      [ rewrite GetOk_config by (vm_compute; eauto);
        repeat match goal with x := _ |- _ => unfold x; clear x end;
        unfold supplied_string, supplied_nonempty, supplied_bool, supplied_duration;
        let Hn := fresh "Hn" in
        let x := fresh "x" in
        destruct Ht as [Hn | [x Hn]]; rewrite Hn;
        cbv beta iota delta [bind lift ret assert_string assert_bool assert_int];
        repeat match goal with
               | |- context [(0 <? len ?s)%Z] => destruct (0 <? len s)%Z
               end;
        reflexivity
      | rewrite (bind_Ret _ _ _ _ _ H); clear H ]
  end.

Lemma stored_config_readable (w : State) (cfg : proxmoxConfig.t) :
  logical.fault (storage w) logical.OpGet "config" = None ->
  let w' := stored_and_reset "config" (proxmoxConfig.toJSON cfg) w in
  getConfig w' = (Ret (Some cfg), w').
Proof.
  intros Hf w'.
  apply (getConfig_present w' (proxmoxConfig.toJSON cfg) cfg);
    [exact Hf | apply lookup_insert_eq | apply fromJSON_toJSON_config].
Qed.

(** X10: an update of a stored configuration with well-typed field data
    (and a storage that takes the write) stores the old record with each
    supplied field replaced and every other field kept; an empty
    proxmox_url counts as not supplied.  The cache is emptied and the new
    record is what [getConfig] returns afterwards. *)
Theorem pathConfigWrite_update_merges
    (raw : gmap string Value) (cfg : proxmoxConfig.t) (w : State) :
  framework.Validate (config_request raw) = true ->
  getConfig w = (Ret (Some cfg), w) ->
  logical.fault (storage w) logical.OpPut "config" = None ->
  let w' := stored_and_reset "config"
              (proxmoxConfig.toJSON (config_updated raw cfg)) w in
  pathConfigWrite logical.UpdateOperation (config_request raw) w = (Ret None, w') /\
  getConfig w' = (Ret (Some (config_updated raw cfg)), w').
Proof.
  intros Hv Hg Hp w'.
  split; [|apply stored_config_readable, (getConfig_Ret_fault w w _ Hg)].
  unfold pathConfigWrite. rewrite (bind_Ret _ _ _ _ _ Hg).
  cbv zeta. cbn [logical.Operation_eqb negb].
  rewrite (bind_Ret _ _ w w cfg eq_refl).
  unfold w', config_updated. clear w' Hg.
  destruct cfg as [u r i s a k h p t]. cbn [proxmoxConfig.User proxmoxConfig.Realm
    proxmoxConfig.ApiTokenID proxmoxConfig.ApiTokenSecret proxmoxConfig.ApiURL
    proxmoxConfig.SkipCertValidation proxmoxConfig.HTTPHeaders
    proxmoxConfig.ProxyServer proxmoxConfig.TaskTimeout].
  pose proof (config_string_typed raw "user" Hv ltac:(repeat constructor)) as T1.
  pose proof (config_string_typed raw "realm" Hv ltac:(repeat constructor)) as T2.
  pose proof (config_string_typed raw "token_id" Hv ltac:(repeat constructor)) as T3.
  pose proof (config_string_typed raw "token_secret" Hv ltac:(repeat constructor)) as T4.
  pose proof (config_string_typed raw "proxmox_url" Hv ltac:(repeat constructor)) as T5.
  pose proof (config_bool_typed raw Hv) as T6.
  pose proof (config_string_typed raw "http_headers" Hv ltac:(repeat constructor)) as T7.
  pose proof (config_string_typed raw "proxy_server" Hv ltac:(repeat constructor)) as T8.
  pose proof (config_int_typed raw Hv) as T9.
  set (v1 := supplied_string raw "user" u).
  set (v2 := supplied_string raw "realm" r).
  set (v3 := supplied_string raw "token_id" i).
  set (v4 := supplied_string raw "token_secret" s).
  set (v5 := supplied_nonempty raw "proxmox_url" a).
  set (v6 := supplied_bool raw "insecure_skip_tls_verify" k).
  set (v7 := supplied_string raw "http_headers" h).
  set (v8 := supplied_string raw "proxy_server" p).
  set (v9 := supplied_duration raw "timeout" t).
  config_field_step (proxmoxConfig.mk v1 r i s a k h p t) T1.
  config_field_step (proxmoxConfig.mk v1 v2 i s a k h p t) T2.
  config_field_step (proxmoxConfig.mk v1 v2 v3 s a k h p t) T3.
  config_field_step (proxmoxConfig.mk v1 v2 v3 v4 a k h p t) T4.
  config_field_step (proxmoxConfig.mk v1 v2 v3 v4 v5 k h p t) T5.
  config_field_step (proxmoxConfig.mk v1 v2 v3 v4 v5 v6 h p t) T6.
  config_field_step (proxmoxConfig.mk v1 v2 v3 v4 v5 v6 v7 p t) T7.
  config_field_step (proxmoxConfig.mk v1 v2 v3 v4 v5 v6 v7 v8 t) T8.
  config_field_step (proxmoxConfig.mk v1 v2 v3 v4 v5 v6 v7 v8 v9) T9.
  unfold bind, storage_Put, logical.Put, configStoragePath. rewrite Hp.
  reflexivity.
Qed.

Lemma supplied_string_typed (raw : gmap string Value) (k : string) :
  supplied raw k = true ->
  (raw !! k = None \/ exists s, raw !! k = Some (VString s)) ->
  exists s, raw !! k = Some (VString s).
Proof.
  unfold supplied. intros Hs [Hn | H]; [by rewrite Hn in Hs | exact H].
Qed.

Lemma missing_in_config_create_None (raw : gmap string Value) :
  missing_in_config_create raw = None ->
  supplied raw "user" = true /\ supplied raw "realm" = true /\
  supplied raw "token_id" = true /\ supplied raw "token_secret" = true /\
  (0 <? len (supplied_nonempty raw "proxmox_url" ""))%Z = true.
Proof.
  unfold missing_in_config_create.
  destruct (supplied raw "user"); [|discriminate].
  destruct (supplied raw "realm"); [|discriminate].
  destruct (supplied raw "token_id"); [|discriminate].
  destruct (supplied raw "token_secret"); [|discriminate].
  simpl. destruct (0 <? len _)%Z; [done | discriminate].
Qed.

Lemma supplied_nonempty_inv (raw : gmap string Value) (k : string) :
  (0 <? len (supplied_nonempty raw k ""))%Z = true ->
  exists s, raw !! k = Some (VString s) /\ (0 <? len s)%Z = true.
Proof.
  unfold supplied_nonempty.
  destruct (raw !! k) as [[s|b|z|f]|]; try discriminate.
  destruct (0 <? len s)%Z eqn:Hl; [eauto | discriminate].
Qed.

(** The same step when the request is known to supply the field. *)
Ltac config_field_present X Hex :=
  match goal with
  | |- bind ?m ?K ?w = _ =>
      let H := fresh "Hs" in
      assert (H : m w = (Ret X, w));
      [ rewrite GetOk_config by (vm_compute; eauto);
        repeat match goal with x := _ |- _ => unfold x; clear x end;
        unfold supplied_string, supplied_nonempty;
        let Hn := fresh "Hn" in
        let Hl := fresh "Hl" in
        let x := fresh "x" in
        first [ destruct Hex as (x & Hn & Hl); rewrite Hn;
                cbv beta iota delta [bind lift ret assert_string]; rewrite Hl
              | destruct Hex as [x Hn]; rewrite Hn ];
        reflexivity
      | rewrite (bind_Ret _ _ _ _ _ H); clear H ]
  end.

(** X11: a create with well-typed field data that supplies user, realm,
    token_id, token_secret and a non-empty proxmox_url stores the record
    the request describes, whatever was stored before: the supplied
    values, and for what is not supplied no TLS skipping, no headers, no
    proxy and a timeout of 120 seconds.  The cache is emptied and the new
    record is what [getConfig] returns afterwards. *)
Theorem pathConfigWrite_create_stores_request
    (raw : gmap string Value) (ocfg : option proxmoxConfig.t) (w : State) :
  framework.Validate (config_request raw) = true ->
  missing_in_config_create raw = None ->
  getConfig w = (Ret ocfg, w) ->
  logical.fault (storage w) logical.OpPut "config" = None ->
  let w' := stored_and_reset "config"
              (proxmoxConfig.toJSON (config_created raw)) w in
  pathConfigWrite logical.CreateOperation (config_request raw) w = (Ret None, w') /\
  getConfig w' = (Ret (Some (config_created raw)), w').
Proof.
  intros Hv Hm Hg Hp w'.
  split; [|apply stored_config_readable, (getConfig_Ret_fault w w _ Hg)].
  unfold pathConfigWrite. rewrite (bind_Ret _ _ _ _ _ Hg).
  cbv zeta. cbn [logical.Operation_eqb negb].
  set (c0 := match ocfg with Some c => c | None => proxmoxConfig.zero end).
  rewrite (bind_Ret _ _ w w c0) by (destruct ocfg; reflexivity).
  unfold w', config_created. clear w' Hg.
  destruct c0 as [u r i s a k h p t].
  destruct (missing_in_config_create_None raw Hm) as (S1 & S2 & S3 & S4 & S5).
  pose proof (supplied_string_typed raw "user" S1
                (config_string_typed raw "user" Hv ltac:(repeat constructor))) as T1.
  pose proof (supplied_string_typed raw "realm" S2
                (config_string_typed raw "realm" Hv ltac:(repeat constructor))) as T2.
  pose proof (supplied_string_typed raw "token_id" S3
                (config_string_typed raw "token_id" Hv ltac:(repeat constructor))) as T3.
  pose proof (supplied_string_typed raw "token_secret" S4
                (config_string_typed raw "token_secret" Hv ltac:(repeat constructor))) as T4.
  pose proof (supplied_nonempty_inv raw "proxmox_url" S5) as T5.
  pose proof (config_bool_typed raw Hv) as T6.
  pose proof (config_string_typed raw "http_headers" Hv ltac:(repeat constructor)) as T7.
  pose proof (config_string_typed raw "proxy_server" Hv ltac:(repeat constructor)) as T8.
  pose proof (config_int_typed raw Hv) as T9.
  set (v1 := supplied_string raw "user" "").
  set (v2 := supplied_string raw "realm" "").
  set (v3 := supplied_string raw "token_id" "").
  set (v4 := supplied_string raw "token_secret" "").
  set (v5 := supplied_nonempty raw "proxmox_url" "").
  set (v6 := supplied_bool raw "insecure_skip_tls_verify" false).
  set (v7 := supplied_string raw "http_headers" "").
  set (v8 := supplied_string raw "proxy_server" "").
  set (v9 := supplied_duration raw "timeout" (seconds_to_Duration 120)).
  config_field_present (proxmoxConfig.mk v1 r i s a k h p t) T1.
  config_field_present (proxmoxConfig.mk v1 v2 i s a k h p t) T2.
  config_field_present (proxmoxConfig.mk v1 v2 v3 s a k h p t) T3.
  config_field_present (proxmoxConfig.mk v1 v2 v3 v4 a k h p t) T4.
  config_field_present (proxmoxConfig.mk v1 v2 v3 v4 v5 k h p t) T5.
  config_field_step (proxmoxConfig.mk v1 v2 v3 v4 v5 v6 h p t) T6.
  config_field_step (proxmoxConfig.mk v1 v2 v3 v4 v5 v6 v7 p t) T7.
  config_field_step (proxmoxConfig.mk v1 v2 v3 v4 v5 v6 v7 v8 t) T8.
  config_field_step (proxmoxConfig.mk v1 v2 v3 v4 v5 v6 v7 v8 v9) T9.
  unfold bind, storage_Put, logical.Put, configStoragePath. rewrite Hp.
  reflexivity.
Qed.

Lemma supplied_of_typed (raw : gmap string Value) (k : string) :
  (exists s, raw !! k = Some (VString s)) -> supplied raw k = true.
Proof. intros [s Hs]. unfold supplied. by rewrite Hs. Qed.

(** X12: a create with well-typed field data that lacks one of user,
    realm, token_id, token_secret or a non-empty proxmox_url fails with
    "missing ... in configuration", naming the first such field in that
    order, and changes nothing. *)
Theorem pathConfigWrite_create_missing_field
    (raw : gmap string Value) (ocfg : option proxmoxConfig.t) (w : State)
    (k : string) :
  framework.Validate (config_request raw) = true ->
  getConfig w = (Ret ocfg, w) ->
  missing_in_config_create raw = Some k ->
  pathConfigWrite logical.CreateOperation (config_request raw) w
    = (Fail ("missing " +:+ k +:+ " in configuration"), w).
Proof.
  intros Hv Hg Hm.
  unfold pathConfigWrite. rewrite (bind_Ret _ _ _ _ _ Hg).
  cbv zeta. cbn [logical.Operation_eqb negb].
  set (c0 := match ocfg with Some c => c | None => proxmoxConfig.zero end).
  rewrite (bind_Ret _ _ w w c0) by (destruct ocfg; reflexivity).
  clearbody c0. clear Hg.
  unfold missing_in_config_create in Hm.
  destruct (config_string_typed raw "user" Hv ltac:(repeat constructor)) as [N|T1].
  { unfold supplied in Hm. rewrite N in Hm. injection Hm as <-.
    unfold bind at 1. rewrite GetOk_config by (vm_compute; eauto). by rewrite N. }
  rewrite (supplied_of_typed raw "user" T1) in Hm.
  config_field_present (proxmoxConfig.set_User (supplied_string raw "user" "") c0) T1.
  destruct (config_string_typed raw "realm" Hv ltac:(repeat constructor)) as [N|T2].
  { unfold supplied in Hm. rewrite N in Hm. injection Hm as <-.
    unfold bind at 1. rewrite GetOk_config by (vm_compute; eauto). by rewrite N. }
  rewrite (supplied_of_typed raw "realm" T2) in Hm.
  match goal with
  | |- context [proxmoxConfig.set_Realm _ ?c] =>
      config_field_present (proxmoxConfig.set_Realm (supplied_string raw "realm" "") c) T2
  end.
  destruct (config_string_typed raw "token_id" Hv ltac:(repeat constructor)) as [N|T3].
  { unfold supplied in Hm. rewrite N in Hm. injection Hm as <-.
    unfold bind at 1. rewrite GetOk_config by (vm_compute; eauto). by rewrite N. }
  rewrite (supplied_of_typed raw "token_id" T3) in Hm.
  match goal with
  | |- context [proxmoxConfig.set_ApiTokenID _ ?c] =>
      config_field_present
        (proxmoxConfig.set_ApiTokenID (supplied_string raw "token_id" "") c) T3
  end.
  destruct (config_string_typed raw "token_secret" Hv ltac:(repeat constructor))
    as [N|T4].
  { unfold supplied in Hm. rewrite N in Hm. injection Hm as <-.
    unfold bind at 1. rewrite GetOk_config by (vm_compute; eauto). by rewrite N. }
  rewrite (supplied_of_typed raw "token_secret" T4) in Hm.
  match goal with
  | |- context [proxmoxConfig.set_ApiTokenSecret _ ?c] =>
      config_field_present
        (proxmoxConfig.set_ApiTokenSecret (supplied_string raw "token_secret" "") c) T4
  end.
  cbn [negb] in Hm. unfold supplied_nonempty in Hm.
  unfold bind at 1. rewrite GetOk_config by (vm_compute; eauto).
  destruct (config_string_typed raw "proxmox_url" Hv ltac:(repeat constructor))
    as [N|[x Hx]].
  - rewrite N in Hm |- *. injection Hm as <-. reflexivity.
  - rewrite Hx in Hm |- *. cbv beta iota delta [bind lift ret assert_string].
    destruct (0 <? len x)%Z eqn:Hl.
    + cbv iota in Hm. rewrite Hl in Hm. discriminate.
    + vm_compute in Hm. injection Hm as <-. reflexivity.
Qed.

End ConfigWrite.

(** ** What a role write stores *)

Section RoleWrite.

Lemma role_string_typed (raw : gmap string Value) (k : string) :
  framework.Validate (role_request raw) = true ->
  k = "user" \/ k = "realm" ->
  raw !! k = None \/ exists s, raw !! k = Some (VString s).
Proof.
  intros Hv Hk. destruct (raw !! k) as [v|] eqn:Hr; [right|by left].
  assert (Hs : roleFields !! k
               = Some (framework.mkFieldSchema framework.TypeString true None))
    by (destruct Hk as [-> | ->]; reflexivity).
  pose proof (Validate_has_type (role_request raw) k _ v Hv Hs Hr) as Ht.
  destruct v; try discriminate. eauto.
Qed.

(** One field of [pathRolesWrite]: the step at the head of the body
    returns [X] and leaves the state alone. *)
Ltac role_field_step X Ht :=
  match goal with
  | |- bind ?m ?K ?w = _ =>
      let H := fresh "Hs" in
      assert (H : m w = (Ret X, w));
      [ cbv zeta; rewrite GetOk_role by (repeat constructor);
        repeat match goal with x := _ |- _ => unfold x; clear x end;
        unfold supplied_nonempty, supplied_duration, framework.Get, role_request;
        cbn [framework.Raw framework.Schema];
        let Hn := fresh "Hn" in
        let x := fresh "x" in
        destruct Ht as [Hn | [x Hn]]; rewrite Hn;
        cbv beta iota delta [bind lift ret assert_string assert_int];
        repeat match goal with
               | |- context [(0 <? len ?s)%Z] => destruct (0 <? len s)%Z
               end;
        reflexivity
      | rewrite (bind_Ret _ _ _ _ _ H); clear H ]
  end.

Lemma getRole_Ret_inv (name : string) (w w' : State)
    (o : option proxmoxRoleEntry.t) :
  getRole name w = (Ret o, w') ->
  name <> "" /\
  logical.fault (storage w) logical.OpGet ("role/" +:+ name) = None.
Proof.
  unfold getRole. destruct (String.eqb_spec name "") as [|Hne]; [discriminate|].
  unfold bind, storage_Get, logical.Get.
  destruct (logical.fault (storage w) logical.OpGet _); [discriminate|done].
Qed.

Lemma stored_role_readable (name : string) (r : proxmoxRoleEntry.t) (w : State) :
  name <> "" ->
  logical.fault (storage w) logical.OpGet ("role/" +:+ name) = None ->
  let w' := stored ("role/" +:+ name) (proxmoxRoleEntry.toJSON r) w in
  getRole name w' = (Ret (Some r), w').
Proof.
  intros Hne Hf w'.
  apply (getRole_present name w' (proxmoxRoleEntry.toJSON r) r Hne);
    [exact Hf | apply lookup_insert_eq | apply fromJSON_toJSON_role].
Qed.

Lemma pathRolesWrite_stores (op : logical.Operation) (d : framework.FieldData)
    (name : string) (r : proxmoxRoleEntry.t) (w : State) :
  pathRolesWrite_merge op d w = (Ret (inr (name, r)), w) ->
  ttl_within_max r = true ->
  logical.fault (storage w) logical.OpPut ("role/" +:+ name) = None ->
  pathRolesWrite op d w
    = (Ret None, stored ("role/" +:+ name) (proxmoxRoleEntry.toJSON r) w).
Proof.
  intros Hm Ht Hp. unfold pathRolesWrite. rewrite (bind_Ret _ _ _ _ _ Hm).
  unfold ttl_within_max in Ht. apply negb_true_iff in Ht. rewrite Ht.
  unfold setRole, bind, storage_Put, logical.Put. rewrite Hp. reflexivity.
Qed.

(** X13: an update of a role with well-typed field data starts from the
    stored record (or, when none is stored, from a fresh one that has only
    the name) and replaces what the request supplies: user and realm when
    supplied and not empty, ttl and max_ttl when supplied.  When the
    result passes the ttl test and the storage takes the write, that
    record is stored and is what [getRole] returns afterwards. *)
Theorem pathRolesWrite_update_merges
    (raw : gmap string Value) (name : string)
    (orole : option proxmoxRoleEntry.t) (w : State) :
  framework.Validate (role_request raw) = true ->
  raw !! "name" = Some (VString name) ->
  getRole name w = (Ret orole, w) ->
  let r := role_updated raw (role_base name orole) in
  ttl_within_max r = true ->
  logical.fault (storage w) logical.OpPut ("role/" +:+ name) = None ->
  let w' := stored ("role/" +:+ name) (proxmoxRoleEntry.toJSON r) w in
  pathRolesWrite logical.UpdateOperation (role_request raw) w = (Ret None, w') /\
  getRole name w' = (Ret (Some r), w').
Proof.
  intros Hv Hname Hg r Ht Hp w'.
  destruct (getRole_Ret_inv name w w orole Hg) as [Hne Hf].
  split; [|by apply stored_role_readable].
  apply pathRolesWrite_stores; [|exact Ht|exact Hp].
  unfold pathRolesWrite_merge.
  rewrite GetOk_role by (repeat constructor). rewrite Hname.
  rewrite (bind_Ret _ _ w w name eq_refl).
  rewrite (bind_Ret _ _ _ _ _ Hg).
  cbv zeta. cbn [logical.Operation_eqb].
  fold (role_base name orole). unfold r, role_updated. clear r Ht Hp w' Hg.
  destruct (role_base name orole) as [n u rl t m].
  cbn [proxmoxRoleEntry.Name proxmoxRoleEntry.User proxmoxRoleEntry.Realm
       proxmoxRoleEntry.TTL proxmoxRoleEntry.MaxTTL].
  pose proof (role_string_typed raw "user" Hv (or_introl eq_refl)) as T1.
  pose proof (role_string_typed raw "realm" Hv (or_intror eq_refl)) as T2.
  pose proof (role_seconds_typed raw "ttl" Hv (or_introl eq_refl)) as T3.
  pose proof (role_seconds_typed raw "max_ttl" Hv (or_intror eq_refl)) as T4.
  set (v1 := supplied_nonempty raw "user" u).
  set (v2 := supplied_nonempty raw "realm" rl).
  set (v3 := supplied_duration raw "ttl" t).
  set (v4 := supplied_duration raw "max_ttl" m).
  role_field_step (proxmoxRoleEntry.mk n v1 rl t m) T1.
  role_field_step (proxmoxRoleEntry.mk n v1 v2 t m) T2.
  role_field_step (proxmoxRoleEntry.mk n v1 v2 v3 m) T3.
  role_field_step (proxmoxRoleEntry.mk n v1 v2 v3 v4) T4.
  reflexivity.
Qed.

(** The same step when the request supplies a non-empty string. *)
Ltac role_field_present X Hex :=
  match goal with
  | |- bind ?m ?K ?w = _ =>
      let H := fresh "Hs" in
      assert (H : m w = (Ret X, w));
      [ cbv zeta; rewrite GetOk_role by (repeat constructor);
        repeat match goal with x := _ |- _ => unfold x; clear x end;
        unfold supplied_nonempty;
        let Hn := fresh "Hn" in
        let Hl := fresh "Hl" in
        let x := fresh "x" in
        destruct Hex as (x & Hn & Hl); rewrite Hn;
        cbv beta iota delta [bind lift ret assert_string]; rewrite Hl;
        reflexivity
      | rewrite (bind_Ret _ _ _ _ _ H); clear H ]
  end.

(** X14: a create of a role with well-typed field data that supplies a
    non-empty user and a non-empty realm keeps only the name of what was
    stored before: user and realm are the supplied ones, ttl and max_ttl
    the supplied ones or zero.  When the result passes the ttl test and
    the storage takes the write, that record is stored and is what
    [getRole] returns afterwards. *)
Theorem pathRolesWrite_create_stores_request
    (raw : gmap string Value) (name : string)
    (orole : option proxmoxRoleEntry.t) (w : State) :
  framework.Validate (role_request raw) = true ->
  raw !! "name" = Some (VString name) ->
  getRole name w = (Ret orole, w) ->
  (0 <? len (supplied_nonempty raw "user" ""))%Z = true ->
  (0 <? len (supplied_nonempty raw "realm" ""))%Z = true ->
  let r := role_created raw (role_base name orole) in
  ttl_within_max r = true ->
  logical.fault (storage w) logical.OpPut ("role/" +:+ name) = None ->
  let w' := stored ("role/" +:+ name) (proxmoxRoleEntry.toJSON r) w in
  pathRolesWrite logical.CreateOperation (role_request raw) w = (Ret None, w') /\
  getRole name w' = (Ret (Some r), w').
Proof.
  intros Hv Hname Hg Hu Hr r Ht Hp w'.
  destruct (getRole_Ret_inv name w w orole Hg) as [Hne Hf].
  split; [|by apply stored_role_readable].
  apply pathRolesWrite_stores; [|exact Ht|exact Hp].
  unfold pathRolesWrite_merge.
  rewrite GetOk_role by (repeat constructor). rewrite Hname.
  rewrite (bind_Ret _ _ w w name eq_refl).
  rewrite (bind_Ret _ _ _ _ _ Hg).
  cbv zeta. cbn [logical.Operation_eqb].
  fold (role_base name orole). unfold r, role_created. clear r Ht Hp w' Hg.
  destruct (role_base name orole) as [n u rl t m].
  cbn [proxmoxRoleEntry.Name].
  pose proof (supplied_nonempty_inv raw "user" Hu) as T1.
  pose proof (supplied_nonempty_inv raw "realm" Hr) as T2.
  pose proof (role_seconds_typed raw "ttl" Hv (or_introl eq_refl)) as T3.
  pose proof (role_seconds_typed raw "max_ttl" Hv (or_intror eq_refl)) as T4.
  set (v1 := supplied_nonempty raw "user" "").
  set (v2 := supplied_nonempty raw "realm" "").
  set (v3 := supplied_duration raw "ttl" 0).
  set (v4 := supplied_duration raw "max_ttl" 0).
  role_field_present (proxmoxRoleEntry.mk n v1 rl t m) T1.
  role_field_present (proxmoxRoleEntry.mk n v1 v2 t m) T2.
  role_field_step (proxmoxRoleEntry.mk n v1 v2 v3 m) T3.
  role_field_step (proxmoxRoleEntry.mk n v1 v2 v3 v4) T4.
  reflexivity.
Qed.

(** X15: a create of a role with well-typed field data that supplies no
    user, or an empty one, fails with "missing user in role"; with a user
    but no realm, or an empty one, it fails with "missing realm in role".
    Nothing changes, also when a complete role is stored under the
    name. *)
Theorem pathRolesWrite_create_missing_field
    (raw : gmap string Value) (name : string)
    (orole : option proxmoxRoleEntry.t) (w : State) :
  framework.Validate (role_request raw) = true ->
  raw !! "name" = Some (VString name) ->
  getRole name w = (Ret orole, w) ->
  let has_user := (0 <? len (supplied_nonempty raw "user" ""))%Z in
  let has_realm := (0 <? len (supplied_nonempty raw "realm" ""))%Z in
  has_user && has_realm = false ->
  pathRolesWrite logical.CreateOperation (role_request raw) w
    = (Fail (if has_user then "missing realm in role" else "missing user in role"), w).
Proof.
  intros Hv Hname Hg has_user has_realm Hmiss.
  unfold pathRolesWrite, pathRolesWrite_merge.
  rewrite GetOk_role by (repeat constructor). rewrite Hname.
  unfold bind at 1.
  rewrite (bind_Ret _ _ w w name eq_refl).
  rewrite (bind_Ret _ _ _ _ _ Hg).
  cbv zeta. cbn [logical.Operation_eqb].
  fold (role_base name orole).
  generalize (role_base name orole) as base. intros base.
  assert (Hstep : forall k (set : string -> proxmoxRoleEntry.t -> proxmoxRoleEntry.t)
                         msg (c : proxmoxRoleEntry.t),
             k = "user" \/ k = "realm" ->
             (match framework.GetOk (role_request raw) k with
              | Some v =>
                  do s <- lift (assert_string v);
                  if (0 <? len s)%Z then ret (set s c) else fail msg
              | None => fail msg
              end) w
             = if (0 <? len (supplied_nonempty raw k ""))%Z
               then (Ret (set (supplied_nonempty raw k "") c), w)
               else (Fail msg, w)).
  { intros k set msg c Hk.
    rewrite GetOk_role by (destruct Hk as [-> | ->]; repeat constructor).
    unfold supplied_nonempty.
    destruct (role_string_typed raw k Hv Hk) as [-> | [x ->]]; [reflexivity|].
    cbv beta iota delta [bind lift ret assert_string].
    destruct (0 <? len x)%Z eqn:Hl; [by rewrite Hl | reflexivity]. }
  unfold bind at 1.
  rewrite (Hstep "user" proxmoxRoleEntry.set_User _ base (or_introl eq_refl)).
  fold has_user. destruct has_user; [|reflexivity].
  unfold bind at 1.
  rewrite (Hstep "realm" proxmoxRoleEntry.set_Realm _ _ (or_intror eq_refl)).
  fold has_realm. simpl in Hmiss. rewrite Hmiss. reflexivity.
Qed.

End RoleWrite.

(** ** Reading and deleting a role *)

Section RoleReadDelete.

Lemma Get_role_name (raw : gmap string Value) (name : string) :
  raw !! "name" = Some (VString name) ->
  framework.Get (role_request raw) "name" = Ret (VString name).
Proof.
  intros H. unfold framework.Get, role_request.
  cbn [framework.Raw framework.Schema]. rewrite H. reflexivity.
Qed.

Lemma getRole_by_key (name : string) (w w' : State) :
  logical.fault (storage w') logical.OpGet ("role/" +:+ name)
    = logical.fault (storage w) logical.OpGet ("role/" +:+ name) ->
  logical.entries (storage w') !! ("role/" +:+ name)
    = logical.entries (storage w) !! ("role/" +:+ name) ->
  (getRole name w').1 = (getRole name w).1.
Proof.
  intros Hf He. unfold getRole.
  destruct (String.eqb name ""); [reflexivity|].
  unfold bind, storage_Get, logical.Get. rewrite Hf, He.
  destruct (logical.fault (storage w) logical.OpGet ("role/" +:+ name));
    [reflexivity|].
  destruct (logical.entries (storage w) !! ("role/" +:+ name)) as [doc|];
    [|reflexivity].
  unfold lift. destruct (proxmoxRoleEntry.fromJSON doc); reflexivity.
Qed.

Lemma pathRolesDelete_run (raw : gmap string Value) (name : string) (w : State) :
  raw !! "name" = Some (VString name) ->
  logical.fault (storage w) logical.OpDelete ("role/" +:+ name) = None ->
  pathRolesDelete (role_request raw) w = (Ret None, removed ("role/" +:+ name) w).
Proof.
  intros Hn Hd. unfold pathRolesDelete.
  rewrite (Get_role_name raw name Hn).
  unfold bind, lift, assert_string, wrapErr, storage_Delete, logical.Delete.
  rewrite Hd. reflexivity.
Qed.

(** X16: a role delete for a named role succeeds when the storage takes
    the deletion, whether or not the role is stored.  Afterwards
    [getRole] finds no role under that name, a second delete changes
    nothing more, and the roles under other names, the configuration, the
    cached client and the requests sent to the cluster are as before. *)
Theorem pathRolesDelete_removes_role
    (raw : gmap string Value) (name : string) (w : State) :
  raw !! "name" = Some (VString name) ->
  name <> "" ->
  logical.fault (storage w) logical.OpDelete ("role/" +:+ name) = None ->
  logical.fault (storage w) logical.OpGet ("role/" +:+ name) = None ->
  let w' := removed ("role/" +:+ name) w in
  pathRolesDelete (role_request raw) w = (Ret None, w') /\
  getRole name w' = (Ret None, w') /\
  pathRolesDelete (role_request raw) w' = (Ret None, w') /\
  (forall other, other <> name -> (getRole other w').1 = (getRole other w).1) /\
  (getConfig w').1 = (getConfig w).1 /\
  client w' = client w /\
  calls w' = calls w.
Proof.
  intros Hn Hne Hd Hg w'.
  split; [by apply pathRolesDelete_run|].
  split; [apply getRole_absent; [exact Hne | exact Hg | apply lookup_delete_eq]|].
  split.
  { rewrite (pathRolesDelete_run raw name w' Hn Hd).
    unfold w', removed, set_storage. cbn [storage logical.entries logical.fault
      client calls drawn now]. by rewrite delete_delete_eq. }
  split.
  { intros other Ho. apply getRole_by_key; [reflexivity|].
    apply lookup_delete_ne. intros H. apply Ho. symmetry. by apply role_key_inj. }
  split; [|done].
  apply getConfig_by_view. unfold config_view. simpl.
  by rewrite (lookup_delete_ne _ _ _ (role_key_not_config name)).
Qed.

(** X17: a role read changes nothing.  For a name under which no role is
    stored it returns neither a response nor an error; for a stored role
    it returns the five members name, user, realm, ttl and max_ttl, the
    first three as stored and the durations as seconds. *)
Theorem pathRolesRead_shows_stored_role
    (raw : gmap string Value) (name : string)
    (orole : option proxmoxRoleEntry.t) (w : State) :
  raw !! "name" = Some (VString name) ->
  getRole name w = (Ret orole, w) ->
  exists r,
    pathRolesRead (role_request raw) w = (Ret r, w) /\
    match orole, r with
    | None, None => True
    | Some role, Some resp =>
        logical.Secret_ resp = None /\
        dom (logical.Data resp)
          = ({[ "name"; "user"; "realm"; "ttl"; "max_ttl" ]} : gset string) /\
        logical.Data resp !! "name" = Some (VString (proxmoxRoleEntry.Name role)) /\
        logical.Data resp !! "user" = Some (VString (proxmoxRoleEntry.User role)) /\
        logical.Data resp !! "realm" = Some (VString (proxmoxRoleEntry.Realm role)) /\
        logical.Data resp !! "ttl"
          = Some (VFloat (Seconds (proxmoxRoleEntry.TTL role))) /\
        logical.Data resp !! "max_ttl"
          = Some (VFloat (Seconds (proxmoxRoleEntry.MaxTTL role)))
    | _, _ => False
    end.
Proof.
  intros Hn Hg. unfold pathRolesRead.
  rewrite (Get_role_name raw name Hn).
  unfold bind at 1, lift at 1. unfold bind at 1, lift at 1, assert_string.
  rewrite (bind_Ret _ _ _ _ _ Hg).
  destruct orole as [role|]; eexists; (split; [reflexivity|]); [|exact I].
  cbn [logical.Secret_ logical.Data]. unfold proxmoxRoleEntry.toResponseData.
  split; [reflexivity|]. split.
  { rewrite !dom_insert_L, dom_empty_L. set_solver. }
  repeat split; by simplify_map_eq.
Qed.

End RoleReadDelete.

(** ** Issuing, revoking and renewing tokens *)

Section TokenLifecycle.

Variable env : Env.

Lemma getClient_Ret_state (w w' : State) (c : proxmoxClient) :
  getClient env w = (Ret c, w') -> w' = set_client (Some c) w.
Proof.
  unfold getClient. destruct (client w) as [c0|] eqn:Hc.
  - intros [= <- <-]. destruct w; simpl in *. by subst.
  - intros H. by apply getClient_build_Ret in H as [-> _].
Qed.

Lemma len_zero (s : string) : (len s =? 0)%Z = true <-> s = "".
Proof.
  unfold len. destruct s; [done|]. split; [|done].
  intros H. apply Z.eqb_eq in H. cbn [String.length] in H. lia.
Qed.

Lemma Get_creds_name (raw : gmap string Value) (name : string) :
  raw !! "name" = Some (VString name) ->
  framework.Get (creds_request raw) "name" = Ret (VString name).
Proof.
  intros H. unfold framework.Get, creds_request.
  cbn [framework.Raw framework.Schema]. rewrite H. reflexivity.
Qed.

Lemma expire_step (role : proxmoxRoleEntry.t) (w : State) :
  (if (0 <? proxmoxRoleEntry.TTL role)%Z
   then Unix_after (proxmoxRoleEntry.TTL role)
   else ret 0) w = (Ret (token_expiry role w), w).
Proof.
  unfold token_expiry. destruct (0 <? proxmoxRoleEntry.TTL role)%Z; reflexivity.
Qed.

(** X18: a credentials request for a name under which no role is stored
    fails with "error retrieving role: role is nil" and leaves the whole
    state as it was: no client is built, no UUID is drawn and nothing is
    sent to the cluster. *)
Theorem pathCredentialsRead_unknown_role
    (raw : gmap string Value) (name : string) (w : State) :
  raw !! "name" = Some (VString name) ->
  getRole name w = (Ret None, w) ->
  pathCredentialsRead env (creds_request raw) w
    = (Fail "error retrieving role: role is nil", w).
Proof.
  intros Hn Hg. unfold pathCredentialsRead.
  rewrite (Get_creds_name raw name Hn).
  unfold bind at 1, lift at 1. unfold bind at 1, lift at 1, assert_string.
  unfold bind, wrapErr. rewrite Hg. reflexivity.
Qed.

(** X19: a credentials request for a stored role that has no user or no
    realm (an update of an unknown role stores such a role) fails in
    [createToken] before anything is drawn or sent: the client may have
    been built and cached by then, and nothing else has changed. *)
Theorem pathCredentialsRead_role_without_user
    (raw : gmap string Value) (name : string) (role : proxmoxRoleEntry.t)
    (c : proxmoxClient) (w w1 : State) :
  raw !! "name" = Some (VString name) ->
  getRole name w = (Ret (Some role), w) ->
  proxmoxRoleEntry.User role = "" \/ proxmoxRoleEntry.Realm role = "" ->
  getClient env w = (Ret c, w1) ->
  pathCredentialsRead env (creds_request raw) w
    = (Fail (("error creating Proxmox API token for role '"
                +:+ proxmoxRoleEntry.Name role +:+ "': ")
               +:+ (if String.eqb (proxmoxRoleEntry.User role) ""
                    then "error creating token: no user provided"
                    else "error creating token: no realm provided")),
       w1) /\
  calls w1 = calls w /\ drawn w1 = drawn w /\ storage w1 = storage w.
Proof.
  intros Hn Hg Hu Hc. split.
  - unfold pathCredentialsRead.
    rewrite (Get_creds_name raw name Hn).
    unfold bind at 1, lift at 1. unfold bind at 1, lift at 1, assert_string.
    unfold bind at 1, wrapErr at 1. rewrite Hg.
    unfold createUserCreds, proxmoxBackend_createToken.
    unfold bind at 1. unfold bind at 1. rewrite Hc.
    unfold bind at 1. rewrite expire_step.
    unfold bind at 1, wrapErr, createToken.
    destruct (String.eqb_spec (proxmoxRoleEntry.User role) "") as [Heq|Hneq].
    + rewrite Heq. reflexivity.
    + destruct Hu as [Hu|Hu]; [done|].
      destruct (len (proxmoxRoleEntry.User role) =? 0)%Z eqn:Hl.
      { apply len_zero in Hl. done. }
      rewrite Hu. reflexivity.
  - pose proof (getClient_keeps env w) as (H1 & H2 & H3 & _).
    rewrite Hc in H1, H2, H3. done.
Qed.

Lemma createToken_run (c : proxmoxClient) (user realm : string)
    (expire : Z) (privsep : bool) (w w' : State) (o : option proxmoxToken) :
  createToken env c user realm expire privsep w = (Ret o, w') ->
  user <> "" /\ realm <> "" /\
  exists token,
    o = Some token /\
    let u := pxapi.mkUserID user realm in
    let t := pxapi.mkApiToken (TokenID token) "Managed by Vault" expire privsep in
    calls w' = (calls w ++ [pxapi.NewConfigUserFromApi c u;
                            pxapi.CreateApiToken c u t])%list /\
    answer env (calls w ++ [pxapi.NewConfigUserFromApi c u])%list
               (pxapi.CreateApiToken c u t) = pxapi.Ok (Secret token) /\
    drawn w' = S (drawn w) /\
    storage w' = storage w /\
    client w' = client w /\
    now w' = now w.
Proof.
  unfold createToken. intros Ht.
  destruct (len user =? 0)%Z eqn:Hu; [discriminate|].
  destruct (len realm =? 0)%Z eqn:Hr; [discriminate|].
  apply bind_Ret_inv in Ht as (u & w4 & Hn & Ht).
  unfold uuid_New in Hn. injection Hn as <- <-.
  cbv zeta in Ht. apply bind_Ret_inv in Ht as (b1 & w5 & H1 & Ht).
  apply wrapErr_Ret_inv in H1. unfold request in H1. cbv zeta in H1.
  destruct (answer env _ _) as [body1|e1] in H1; [|discriminate].
  injection H1 as _ <-.
  apply bind_Ret_inv in Ht as (sec & w6 & H2 & Ht).
  apply wrapErr_Ret_inv in H2. unfold request in H2. cbv zeta in H2.
  destruct (answer env _ _) as [body2|e2] eqn:Ha in H2; [|discriminate].
  injection H2 as <- <-. injection Ht as <- <-.
  split. { intros Hx. rewrite Hx in Hu. discriminate. }
  split. { intros Hx. rewrite Hx in Hr. discriminate. }
  eexists. split; [reflexivity|].
  cbn [TokenID Secret]. simpl.
  split; [by rewrite <- app_assoc|].
  split; [exact Ha|]. done.
Qed.

Lemma proxmoxBackend_createToken_inv
    (role : proxmoxRoleEntry.t) (w w' : State) (token : proxmoxToken) :
  proxmoxBackend_createToken env role w = (Ret token, w') ->
  exists c,
    getClient env w = (Ret c, set_client (Some c) w) /\
    createToken env c (proxmoxRoleEntry.User role) (proxmoxRoleEntry.Realm role)
      (token_expiry role w) false (set_client (Some c) w)
    = (Ret (Some token), w').
Proof.
  unfold proxmoxBackend_createToken. intros H.
  apply bind_Ret_inv in H as (c & w1 & Hc & H).
  pose proof (getClient_Ret_state w w1 c Hc) as ->.
  apply bind_Ret_inv in H as (expire & w2 & He & H).
  rewrite expire_step in He. injection He as <- <-.
  cbv zeta in H. apply bind_Ret_inv in H as (otok & w3 & Ht & H).
  apply wrapErr_Ret_inv in Ht.
  exists c. split; [exact Hc|].
  destruct otok as [tok|]; [|discriminate]. injection H as <- <-.
  exact Ht.
Qed.

(** X20: an issuance that returns a token has obtained the client, drawn
    exactly one UUID and sent exactly two requests with that client for
    the role's user and realm (both non-empty): the user lookup and then
    the creation of a token with the returned identifier, the comment
    "Managed by Vault", no privilege separation, and an expiry one [TTL]
    from now (none for a role whose [TTL] is not positive).  The returned
    secret is the cluster's answer to the second request.  The storage and
    the clock are untouched. *)
Theorem proxmoxBackend_createToken_requests
    (role : proxmoxRoleEntry.t) (w w' : State) (token : proxmoxToken) :
  proxmoxBackend_createToken env role w = (Ret token, w') ->
  exists c,
    getClient env w = (Ret c, set_client (Some c) w) /\
    proxmoxRoleEntry.User role <> "" /\
    proxmoxRoleEntry.Realm role <> "" /\
    let u := pxapi.mkUserID (proxmoxRoleEntry.User role)
                            (proxmoxRoleEntry.Realm role) in
    let t := pxapi.mkApiToken (TokenID token) "Managed by Vault"
                              (token_expiry role w) false in
    calls w' = (calls w ++ [pxapi.NewConfigUserFromApi c u;
                            pxapi.CreateApiToken c u t])%list /\
    answer env (calls w ++ [pxapi.NewConfigUserFromApi c u])%list
               (pxapi.CreateApiToken c u t) = pxapi.Ok (Secret token) /\
    drawn w' = S (drawn w) /\
    storage w' = storage w /\
    client w' = Some c /\
    now w' = now w.
Proof.
  intros H. apply proxmoxBackend_createToken_inv in H as (c & Hc & Ht).
  apply createToken_run in Ht
    as (Hu & Hr & tok & [= <-] & Hcalls & Ha & Hd & Hs & Hcl & Hn).
  exists c. split; [exact Hc|]. split; [exact Hu|]. split; [exact Hr|].
  cbv zeta in *. cbn [calls set_client] in Hcalls, Ha.
  split; [exact Hcalls|]. split; [exact Ha|]. done.
Qed.

(** X21: the lease of issued credentials and the token on the cluster
    agree on the lifetime.  For a role with a positive [TTL] the lease
    lasts that [TTL] and the token was created with an expiry one [TTL]
    from now; for a role whose [TTL] is not positive the lease carries no
    duration of its own (zero: the system default applies) and the token
    was created without expiry.  The lease's [MaxTTL] is the role's when
    that is positive and zero otherwise. *)
Theorem createUserCreds_lease_and_expiry
    (role : proxmoxRoleEntry.t) (w w' : State) (r : option logical.Response) :
  createUserCreds env role w = (Ret r, w') ->
  exists resp sec c u t,
    r = Some resp /\
    logical.Secret_ resp = Some sec /\
    last (calls w') = Some (pxapi.CreateApiToken c u t) /\
    logical.Data resp !! "token_id" = Some (VString (pxapi.TokenId t)) /\
    ((0 < proxmoxRoleEntry.TTL role)%Z ->
       logical.TTL sec = proxmoxRoleEntry.TTL role /\
       pxapi.Expire t = ((now w + proxmoxRoleEntry.TTL role) / Second)%Z) /\
    ((proxmoxRoleEntry.TTL role <= 0)%Z ->
       logical.TTL sec = 0 /\ pxapi.Expire t = 0) /\
    logical.MaxTTL sec = Z.max 0 (proxmoxRoleEntry.MaxTTL role).
Proof.
  unfold createUserCreds. intros H.
  apply bind_Ret_inv in H as (token & w1 & Ht & H).
  injection H as <- <-.
  apply proxmoxBackend_createToken_inv in Ht as (c & _ & Ht).
  apply createToken_run in Ht as (_ & _ & tok & [= <-] & Hcalls & _).
  cbv zeta in Hcalls.
  eexists _, _, c, _, _. split; [reflexivity|]. split; [reflexivity|].
  split. { rewrite Hcalls, last_app. reflexivity. }
  cbn [logical.Data logical.Secret_ Secret_Response set_lease logical.TTL
       logical.MaxTTL pxapi.TokenId pxapi.Expire].
  split; [by simplify_map_eq|].
  unfold token_expiry.
  split; [|split].
  - intros Hpos. apply Z.ltb_lt in Hpos. by rewrite Hpos.
  - intros Hle. apply Z.ltb_ge in Hle. by rewrite Hle.
  - destruct (0 <? proxmoxRoleEntry.MaxTTL role)%Z eqn:Hm.
    + apply Z.ltb_lt in Hm. lia.
    + apply Z.ltb_ge in Hm. lia.
Qed.

(** X22: a revoke that returns without error returns no response and has
    sent exactly two requests: the user lookup and the deletion of the
    token whose identifier the lease carries (the empty identifier when
    the lease carries none), both for the user and realm that the role
    named by the lease has in the storage now.  The storage is
    untouched and no UUID is drawn. *)
Theorem tokenRevoke_requests
    (secret : logical.Secret) (w w' : State) (r : option logical.Response) :
  tokenRevoke env secret w = (Ret r, w') ->
  r = None /\
  exists c role roleEntry,
    getClient env w = (Ret c, set_client (Some c) w) /\
    logical.InternalData secret !! "role" = Some (VString role) /\
    getRole role w = (Ret (Some roleEntry), w) /\
    let u := pxapi.mkUserID (proxmoxRoleEntry.User roleEntry)
                            (proxmoxRoleEntry.Realm roleEntry) in
    calls w' = (calls w ++ [pxapi.NewConfigUserFromApi c u;
                            pxapi.DeleteApiToken c u
                              (pxapi.mkApiToken (lease_token_id secret) "" 0 false)])%list /\
    storage w' = storage w /\
    drawn w' = drawn w /\
    client w' = Some c.
Proof.
  unfold tokenRevoke. intros H.
  apply bind_Ret_inv in H as (c & w1 & Hc & H).
  apply wrapErr_Ret_inv in Hc.
  pose proof (getClient_Ret_state w w1 c Hc) as ->.
  apply bind_Ret_inv in H as (tokenID & w2 & Hid & H).
  assert (tokenID = lease_token_id secret /\ w2 = set_client (Some c) w) as [-> ->].
  { unfold lease_token_id.
    destruct (logical.InternalData secret !! "token_id") as [[s|b|z|f]|];
      try discriminate; by injection Hid as <- <-. }
  clear Hid.
  apply bind_Ret_inv in H as (roleRaw & w3 & Hraw & H).
  destruct (logical.InternalData secret !! "role") as [v|] eqn:Hrole;
    [|discriminate].
  injection Hraw as <- <-.
  apply bind_Ret_inv in H as (role & w4 & Has & H).
  destruct v as [s|b|z|f]; try discriminate. injection Has as <- <-.
  apply bind_Ret_inv in H as (orole & w5 & Hg & H).
  apply wrapErr_Ret_inv in Hg.
  pose proof (getRole_reads s (set_client (Some c) w)) as Hw.
  rewrite Hg in Hw. simpl in Hw. subst w5.
  apply bind_Ret_inv in H as (roleEntry & w6 & Hsome & H).
  destruct orole as [re|]; [|discriminate]. injection Hsome as <- <-.
  apply bind_Ret_inv in H as ([] & w7 & Hdel & H).
  injection H as <- <-. split; [reflexivity|].
  apply wrapErr_Ret_inv in Hdel. unfold deleteToken in Hdel. cbv zeta in Hdel.
  apply bind_Ret_inv in Hdel as (b1 & w8 & H1 & Hdel).
  unfold request in H1. cbv zeta in H1.
  destruct (answer env _ _) as [body1|e1] in H1; [|discriminate].
  injection H1 as _ <-.
  apply bind_Ret_inv in Hdel as (b2 & w9 & H2 & Hdel).
  unfold request in H2. cbv zeta in H2.
  destruct (answer env _ _) as [body2|e2] in H2; [|discriminate].
  injection H2 as _ <-. injection Hdel as <-.
  exists c, s, re. split; [exact Hc|]. split; [reflexivity|].
  split.
  { pose proof (getRole_by_key s w (set_client (Some c) w) eq_refl eq_refl) as He.
    rewrite Hg in He. simpl in He.
    pose proof (getRole_reads s w) as Hw. 
    destruct (getRole s w) as [o w0]. simpl in *. by subst. }
  simpl. split; [by rewrite <- app_assoc|]. done.
Qed.

(** X23: a renew never touches the state: no client is built and nothing
    is sent to the cluster.  When it returns, the lease names a role that
    is stored, and the response carries the lease with its metadata
    unchanged and with the options taken from the role as it is stored
    now: [TTL] and [MaxTTL] are the role's when positive and the lease's
    own otherwise. *)
Theorem tokenRenew_applies_current_role
    (secret : logical.Secret) (w w' : State)
    (o : Outcome (option logical.Response)) :
  tokenRenew secret w = (o, w') ->
  w' = w /\
  forall r, o = Ret r ->
    exists role roleEntry,
      logical.InternalData secret !! "role" = Some (VString role) /\
      getRole role w = (Ret (Some roleEntry), w) /\
      r = Some
            {| logical.Data := ∅;
               logical.Secret_ :=
                 Some {| logical.InternalData := logical.InternalData secret;
                         logical.TTL :=
                           lease_option (proxmoxRoleEntry.TTL roleEntry)
                                        (logical.TTL secret);
                         logical.MaxTTL :=
                           lease_option (proxmoxRoleEntry.MaxTTL roleEntry)
                                        (logical.MaxTTL secret) |} |}.
Proof.
  intros H. split.
  - assert (Hk : keeps eq (tokenRenew secret)).
    { pose proof getRole_reads. unfold tokenRenew. body_cases; auto. }
    specialize (Hk w). rewrite H in Hk. by symmetry.
  - intros r ->. unfold tokenRenew in H.
    apply bind_Ret_inv in H as (roleRaw & w3 & Hraw & H).
    destruct (logical.InternalData secret !! "role") as [v|] eqn:Hrole;
      [|discriminate].
    injection Hraw as <- <-.
    apply bind_Ret_inv in H as (role & w4 & Has & H).
    destruct v as [s|b|z|f]; try discriminate. injection Has as <- <-.
    apply bind_Ret_inv in H as (orole & w5 & Hg & H).
    apply wrapErr_Ret_inv in Hg.
    pose proof (getRole_reads s w) as Hw.
    rewrite Hg in Hw. simpl in Hw. subst w5.
    apply bind_Ret_inv in H as (roleEntry & w6 & Hsome & H).
    destruct orole as [re|]; [|discriminate]. injection Hsome as <- <-.
    injection H as <- <-.
    exists s, re. done.
Qed.

End TokenLifecycle.

(** ** What a request can touch *)

#[local] Instance sends_only_preorder (P : pxapi.Call -> bool) :
  PreOrder (sends_only P).
Proof.
  split.
  - intros w. exists []. by rewrite app_nil_r.
  - intros w1 w2 w3 (l1 & H1 & P1) (l2 & H2 & P2). exists (l1 ++ l2)%list.
    split; [by rewrite H2, H1, app_assoc|].
    by rewrite forallb_app, P1, P2.
Qed.

#[local] Instance same_storage_except_preorder (key : option string) :
  PreOrder (same_storage_except key).
Proof.
  split.
  - intros w. by split.
  - intros w1 w2 w3 (F1 & E1) (F2 & E2). split; [congruence|].
    intros k Hk. by rewrite E2, E1.
Qed.

Section Frames.

Variable env : Env.

Lemma sends_nothing {A} (P : pxapi.Call -> bool) (m : M A) :
  keeps differs_in_client_only m -> keeps (sends_only P) m.
Proof.
  intros H w. destruct (H w) as (Hc & _). exists []. by rewrite app_nil_r.
Qed.

Lemma request_sends (P : pxapi.Call -> bool) (c : pxapi.Call) :
  P c = true -> keeps (sends_only P) (request env c).
Proof.
  intros HP w. exists [c]. unfold request.
  destruct (answer env (calls w) c); simpl; by rewrite HP.
Qed.

Lemma uuid_New_sends (P : pxapi.Call -> bool) : keeps (sends_only P) (uuid_New env).
Proof. intros w. exists []. by rewrite app_nil_r. Qed.

Lemma storage_Put_sends (P : pxapi.Call -> bool) (key : string)
    (doc : gmap string Value) :
  keeps (sends_only P) (storage_Put key doc).
Proof.
  intros w. exists []. rewrite app_nil_r. unfold storage_Put.
  by destruct (logical.Put (storage w) key doc).
Qed.

Lemma storage_Delete_sends (P : pxapi.Call -> bool) (key : string) :
  keeps (sends_only P) (storage_Delete key).
Proof.
  intros w. exists []. rewrite app_nil_r. unfold storage_Delete.
  by destruct (logical.Delete (storage w) key).
Qed.

Lemma reset_sends (P : pxapi.Call -> bool) : keeps (sends_only P) reset.
Proof. intros w. exists []. by rewrite app_nil_r. Qed.

Ltac sends_step :=
  first
    [ apply request_sends; reflexivity
    | apply uuid_New_sends
    | apply storage_Put_sends
    | apply storage_Delete_sends
    | apply reset_sends
    | apply sends_nothing, getClient_keeps
    | body_step ].

(** X24: handling a request sends the cluster nothing but what the kind
    of request allows, whatever the outcome: a credentials request sends
    only user lookups and token creations, a revoke only user lookups and
    token deletions, and a request on the configuration or on a role, a
    renew and an invalidation send nothing at all.  What was sent before
    stays in place. *)
Theorem HandleRequest_sends_only (req : Request) (w : State) :
  exists l,
    calls (HandleRequest env req w).2 = (calls w ++ l)%list /\
    forallb (may_send req) l = true.
Proof.
  revert w. change (keeps (sends_only (may_send req)) (HandleRequest env req)).
  destruct req as [op raw | op raw | raw | secret | secret | key];
    try destruct op; unfold HandleRequest.
  all: unfold pathConfigRead, pathConfigWrite, pathConfigDelete, pathRolesRead,
         pathRolesWrite, pathRolesWrite_merge, pathRolesDelete, pathCredentialsRead,
         createUserCreds, proxmoxBackend_createToken, createToken, deleteToken,
         tokenRevoke, tokenRenew, invalidate, getConfig, getRole, setRole,
         deref, Unix_after.
  all: repeat sends_step.
Qed.

Lemma unchanged_storage_touches {A} (key : option string) (m : M A) :
  (forall w, storage (m w).2 = storage w) ->
  keeps (same_storage_except key) m.
Proof. intros H w. unfold same_storage_except. by rewrite (H w). Qed.

Lemma request_touches (key : option string) (c : pxapi.Call) :
  keeps (same_storage_except key) (request env c).
Proof.
  apply unchanged_storage_touches. intros w. unfold request.
  by destruct (answer env (calls w) c).
Qed.

Lemma uuid_New_touches (key : option string) :
  keeps (same_storage_except key) (uuid_New env).
Proof. by apply unchanged_storage_touches. Qed.

Lemma reset_touches (key : option string) : keeps (same_storage_except key) reset.
Proof. by apply unchanged_storage_touches. Qed.

Lemma getClient_touches (key : option string) :
  keeps (same_storage_except key) (getClient env).
Proof.
  apply unchanged_storage_touches. intros w.
  by destruct (getClient_keeps env w) as (_ & H & _).
Qed.

Lemma storage_Put_touches (ok : option string) (key : string)
    (doc : gmap string Value) :
  ok = Some key -> keeps (same_storage_except ok) (storage_Put key doc).
Proof.
  intros -> w. unfold storage_Put, logical.Put.
  destruct (logical.fault (storage w) logical.OpPut key); [reflexivity|].
  split; [reflexivity|]. intros k Hk. simpl.
  apply lookup_insert_ne. congruence.
Qed.

Lemma storage_Delete_touches (ok : option string) (key : string) :
  ok = Some key -> keeps (same_storage_except ok) (storage_Delete key).
Proof.
  intros -> w. unfold storage_Delete, logical.Delete.
  destruct (logical.fault (storage w) logical.OpDelete key); [reflexivity|].
  split; [reflexivity|]. intros k Hk. simpl.
  apply lookup_delete_ne. congruence.
Qed.

Lemma pathRolesWrite_merge_name (op : logical.Operation) (raw : gmap string Value)
    (name : string) (r : proxmoxRoleEntry.t) (w w' : State) :
  pathRolesWrite_merge op (role_request raw) w = (Ret (inr (name, r)), w') ->
  raw !! "name" = Some (VString name).
Proof.
  unfold pathRolesWrite_merge. rewrite GetOk_role by (repeat constructor).
  destruct (raw !! "name") as [v|]; [|discriminate].
  intros H. bind_ret_inv H.
  destruct v as [s|b|z|f]; try discriminate.
  injection Hstep as <- _. by injection H as <- _ _.
Qed.

Lemma pathRolesWrite_touches (op : logical.Operation) (raw : gmap string Value) :
  keeps (same_storage_except (Some ("role/" +:+ supplied_string raw "name" "")))
        (pathRolesWrite op (role_request raw)).
Proof.
  intros w. unfold pathRolesWrite, bind.
  pose proof (pathRolesWrite_merge_reads op (role_request raw) w) as Hw.
  destruct (pathRolesWrite_merge op (role_request raw) w)
    as [[[resp | [name r]]|e|p] w1] eqn:Hm; simpl in Hw; subst w1;
    try reflexivity.
  destruct (_ && _); [reflexivity|].
  apply pathRolesWrite_merge_name in Hm.
  unfold setRole, supplied_string. rewrite Hm.
  pose proof (storage_Put_touches _ ("role/" +:+ name)
                (proxmoxRoleEntry.toJSON r) eq_refl w) as Hp.
  destruct (storage_Put ("role/" +:+ name) (proxmoxRoleEntry.toJSON r) w)
    as [[[]|e|p] w1]; exact Hp.
Qed.

Lemma pathRolesDelete_touches (raw : gmap string Value) :
  keeps (same_storage_except (Some ("role/" +:+ supplied_string raw "name" "")))
        (pathRolesDelete (role_request raw)).
Proof.
  intros w. unfold pathRolesDelete, framework.Get, role_request, supplied_string.
  cbn [framework.Raw framework.Schema].
  change (roleFields !! "name")
    with (Some (framework.mkFieldSchema framework.TypeLowerCaseString true None)).
  cbv iota.
  destruct (raw !! "name") as [[s|b|z|f]|]; try reflexivity.
  - unfold bind at 1, lift at 1. unfold bind at 1, lift at 1, assert_string.
    pose proof (storage_Delete_touches _ ("role/" +:+ s) eq_refl w) as Hd.
    unfold bind, wrapErr.
    destruct (storage_Delete ("role/" +:+ s) w) as [[[]|e|p] w1]; exact Hd.
  - unfold bind at 1, lift at 1. unfold bind at 1, lift at 1.
    cbn [framework.DefaultOrZero framework.Default framework.Type_
         framework.Zero assert_string].
    pose proof (storage_Delete_touches _ ("role/" +:+ "") eq_refl w) as Hd.
    unfold bind, wrapErr.
    destruct (storage_Delete ("role/" +:+ "") w) as [[[]|e|p] w1]; exact Hd.
Qed.

Ltac touches_step :=
  first
    [ apply request_touches
    | apply uuid_New_touches
    | apply reset_touches
    | apply getClient_touches
    | apply storage_Put_touches; reflexivity
    | apply storage_Delete_touches; reflexivity
    | body_step ].

(** X25: handling a request leaves the storage alone except for at most
    one key, whatever the outcome: a config write or delete can change
    only the entry "config", a role write or delete only the entry of
    the role it names, and a read, a credentials request, a revoke, a
    renew and an invalidation change no entry at all. *)
Theorem HandleRequest_touches_one_key (req : Request) (w : State) (k : string) :
  touched_key req <> Some k ->
  logical.entries (storage (HandleRequest env req w).2) !! k
    = logical.entries (storage w) !! k.
Proof.
  intros Hk.
  assert (H : keeps (same_storage_except (touched_key req)) (HandleRequest env req));
    [|by apply (H w)].
  clear Hk.
  destruct req as [op raw | op raw | raw | secret | secret | key];
    try destruct op; unfold HandleRequest, touched_key.
  all: try apply (pathRolesWrite_touches _ raw).
  all: try apply (pathRolesDelete_touches raw).
  all: unfold pathConfigRead, pathConfigWrite, pathConfigDelete, pathRolesRead,
         pathCredentialsRead,
         createUserCreds, proxmoxBackend_createToken, createToken, deleteToken,
         tokenRevoke, tokenRenew, invalidate, getConfig, getRole,
         deref, Unix_after.
  all: repeat touches_step.
Qed.

End Frames.

(** ** Durations in seconds *)

Section Durations.

Lemma wrap64_small (z : Z) :
  -9223372036854775808 <= z < 9223372036854775808 -> wrap64 z = z.
Proof.
  unfold wrap64. intros H.
  change (2 ^ 63) with 9223372036854775808.
  change (2 ^ 64) with 18446744073709551616.
  rewrite Z.mod_small; lia.
Qed.

Lemma seconds_to_Duration_in_range (n : Z) :
  whole_seconds_in_range n -> seconds_to_Duration n = n * Second.
Proof.
  unfold whole_seconds_in_range, seconds_to_Duration, Second. intros H.
  rewrite (wrap64_small n) by lia. apply wrap64_small. lia.
Qed.

Lemma digits2_pos_lower (p : positive) :
  2 ^ (Zpos (digits2_pos p) - 1) <= Zpos p.
Proof.
  induction p as [p IH | p IH |]; cbn [digits2_pos].
  - rewrite Pos2Z.inj_succ.
    replace (Z.succ (Zpos (digits2_pos p)) - 1)
      with (Z.succ (Zpos (digits2_pos p) - 1)) by lia.
    rewrite Z.pow_succ_r by lia. lia.
  - rewrite Pos2Z.inj_succ.
    replace (Z.succ (Zpos (digits2_pos p)) - 1)
      with (Z.succ (Zpos (digits2_pos p) - 1)) by lia.
    rewrite Z.pow_succ_r by lia. lia.
  - discriminate.
Qed.

Lemma iter_xO_digits (p d : positive) :
  digits2_pos (Pos.iter xO p d) = (digits2_pos p + d)%positive.
Proof.
  induction d as [|d IH] using Pos.peano_ind.
  - cbn [Pos.iter digits2_pos]. lia.
  - rewrite Pos.iter_succ. cbn [digits2_pos]. rewrite IH. lia.
Qed.

Lemma iter_xO_value (p d : positive) :
  Zpos (Pos.iter xO p d) = Zpos p * 2 ^ Zpos d.
Proof.
  induction d as [|d IH] using Pos.peano_ind.
  - cbn [Pos.iter]. lia.
  - rewrite Pos.iter_succ, Pos2Z.inj_xO, IH, Pos2Z.inj_succ, Z.pow_succ_r by lia.
    lia.
Qed.

(** An integer of fewer than 53 bits is a [float64]: the conversion
    shifts it up to 53 bits and rounds nothing away. *)
Lemma binary_round_exact (s : bool) (p d : positive) :
  Zpos (digits2_pos p) + Zpos d = 53 ->
  binary_round prec emax s p 0 = S754_finite s (Pos.iter xO p d) (Zneg d).
Proof.
  intros Hd. unfold binary_round.
  assert (H1 : fexp prec emax (Zpos (digits2_pos p) + 0) = Zneg d)
    by (unfold fexp, emin, prec, emax; lia).
  rewrite H1. unfold shl_align. rewrite Z.sub_0_r. cbv beta iota.
  assert (H2 : fexp prec emax (Zpos (digits2_pos p + d) + Zneg d) = Zneg d)
    by (unfold fexp, emin, prec, emax; lia).
  unfold binary_round_aux, shr_fexp.
  cbn [Zdigits2 shr_record_of_loc]. rewrite iter_xO_digits, H2, Z.sub_diag.
  cbn [shr shr_m loc_of_shr_record round_nearest_even Zdigits2 shr_record_of_loc].
  rewrite iter_xO_digits, H2, Z.sub_diag.
  cbn [shr shr_m]. reflexivity.
Qed.

Lemma int_of_float64_of_pos (s : bool) (p : positive) :
  Zpos p < 2 ^ 52 ->
  exists m e,
    binary_round prec emax s p 0 = S754_finite s m e /\
    int_of_float64 (S754_finite s m e) = if s then Zneg p else Zpos p.
Proof.
  intros Hp.
  assert (Hdg : Zpos (digits2_pos p) <= 52).
  { pose proof (digits2_pos_lower p) as Hl.
    destruct (Z.le_gt_cases (Zpos (digits2_pos p)) 52) as [|Hgt]; [done|].
    assert (2 ^ 52 <= 2 ^ (Zpos (digits2_pos p) - 1))
      by (apply Z.pow_le_mono_r; lia).
    lia. }
  set (d := Z.to_pos (53 - Zpos (digits2_pos p))).
  assert (Hd : Zpos (digits2_pos p) + Zpos d = 53)
    by (unfold d; rewrite Z2Pos.id; lia).
  exists (Pos.iter xO p d), (Zneg d).
  split; [by apply binary_round_exact|].
  unfold int_of_float64.
  rewrite Z.shiftr_div_pow2, iter_xO_value, Z.div_mul by lia.
  by destruct s.
Qed.

Lemma float64_of_int_exact (n : Z) :
  - 2 ^ 52 < n < 2 ^ 52 ->
  int_of_float64 (float64_of_int n) = n /\
  SFadd prec emax (float64_of_int n) (S754_zero false) = float64_of_int n.
Proof.
  intros Hn. unfold float64_of_int, binary_normalize.
  destruct n as [|p|p].
  - split; reflexivity.
  - destruct (int_of_float64_of_pos false p) as (m & e & -> & Hi); [lia|].
    split; [exact Hi | reflexivity].
  - destruct (int_of_float64_of_pos true p) as (m & e & -> & Hi); [lia|].
    split; [exact Hi | reflexivity].
Qed.

Lemma Seconds_of_whole_seconds (n : Z) :
  - 2 ^ 52 < n < 2 ^ 52 ->
  Seconds (n * Second) = float64_of_int n.
Proof.
  intros Hn. unfold Seconds.
  rewrite Z.quot_mul, Z.rem_mul by discriminate.
  assert (Hz : SFdiv prec emax (float64_of_int 0) (float64_of_int 1000000000)
               = S754_zero false) by (vm_compute; reflexivity).
  cbv zeta. rewrite Hz. by apply float64_of_int_exact.
Qed.

Lemma timeout_in_seconds (n : Z) :
  whole_seconds_in_range n ->
  int_of_float64 (Seconds (seconds_to_Duration n)) = n.
Proof.
  intros Hn.
  assert (Hr : - 2 ^ 52 < n < 2 ^ 52)
    by (unfold whole_seconds_in_range in Hn;
        change (2 ^ 52) with 4503599627370496; lia).
  rewrite (seconds_to_Duration_in_range n Hn), (Seconds_of_whole_seconds n Hr).
  by apply float64_of_int_exact.
Qed.

(** X26: a number of seconds between -9223372036 and 9223372036 goes
    through the conversions unchanged: written as a duration
    ([time.Duration(n) * time.Second]) it is [n] times a second without
    wrapping around, and read back ([Seconds()], then [int]) it is [n]
    again, the [float64] in between being exactly [n]. *)
Theorem seconds_round_trip (n : Z) :
  whole_seconds_in_range n ->
  seconds_to_Duration n = n * Second /\
  Seconds (seconds_to_Duration n) = float64_of_int n /\
  int_of_float64 (Seconds (seconds_to_Duration n)) = n.
Proof.
  intros Hn. pose proof (seconds_to_Duration_in_range n Hn) as Hd.
  assert (Hr : - 2 ^ 52 < n < 2 ^ 52)
    by (unfold whole_seconds_in_range in Hn;
        change (2 ^ 52) with 4503599627370496; lia).
  split; [exact Hd|]. rewrite Hd, (Seconds_of_whole_seconds n Hr).
  split; [reflexivity|]. by apply float64_of_int_exact.
Qed.


End Durations.

(** ** The client and the stored settings *)

Section ClientSettings.

Variable env : Env.

(** X28: a client that [newClient] returns was accepted by the client
    library and carries the configuration's settings: the URL, the
    headers and the proxy as stored, certificate validation skipped
    exactly when the configuration says so, the API token
    user@realm!token_id with the stored secret, and, for a timeout that
    was written as [n] seconds within range, the task timeout [n]. *)
Theorem newClient_uses_stored_settings
    (cfg : proxmoxConfig.t) (c : proxmoxClient) (n : Z) :
  newClient env (Some cfg) = Ret c ->
  proxmoxConfig.TaskTimeout cfg = seconds_to_Duration n ->
  whole_seconds_in_range n ->
  proxmoxConfig.ApiTokenID cfg <> "" /\
  NewClient_err env (proxmoxConfig.ApiURL cfg) (proxmoxConfig.HTTPHeaders cfg)
    (if proxmoxConfig.SkipCertValidation cfg then Some true else None)
    (proxmoxConfig.ProxyServer cfg) n = None /\
  c = {| pxapi.ApiUrl := proxmoxConfig.ApiURL cfg;
         pxapi.HTTPHeaders := proxmoxConfig.HTTPHeaders cfg;
         pxapi.InsecureSkipVerify := proxmoxConfig.SkipCertValidation cfg;
         pxapi.ProxyServer := proxmoxConfig.ProxyServer cfg;
         pxapi.TaskTimeout := n;
         pxapi.APIToken :=
           Some (proxmoxConfig.User cfg +:+ "@" +:+ proxmoxConfig.Realm cfg
                   +:+ "!" +:+ proxmoxConfig.ApiTokenID cfg,
                 proxmoxConfig.ApiTokenSecret cfg) |}.
Proof.
  intros H Ht Hn. unfold newClient, pxapi_NewClient in H.
  destruct (String.eqb_spec (proxmoxConfig.ApiTokenID cfg) "") as [|Hne];
    [discriminate|].
  pose proof (timeout_in_seconds n Hn) as Hi.
  rewrite Ht, Hi in H. cbv zeta in H.
  destruct (proxmoxConfig.SkipCertValidation cfg); cbn [negb] in H;
    destruct (NewClient_err _ _ _ _ _ _) eqn:He; try discriminate;
    injection H as <-; done.
Qed.

(** X29: a config read shows the timeout in the seconds in which it was
    written: for a stored configuration whose timeout was written as [n]
    seconds within range, the response has the member timeout with the
    integer [n]. *)
Theorem pathConfigRead_timeout_in_seconds
    (cfg : proxmoxConfig.t) (n : Z) (w : State) :
  getConfig w = (Ret (Some cfg), w) ->
  proxmoxConfig.TaskTimeout cfg = seconds_to_Duration n ->
  whole_seconds_in_range n ->
  exists resp,
    pathConfigRead w = (Ret (Some resp), w) /\
    logical.Data resp !! "timeout" = Some (VInt n).
Proof.
  intros Hg Ht Hn. unfold pathConfigRead.
  rewrite (bind_Ret _ _ _ _ _ Hg). unfold deref, bind, ret.
  eexists. split; [reflexivity|].
  pose proof (timeout_in_seconds n Hn) as Hi.
  cbn [logical.Data]. rewrite Ht, Hi. by simplify_map_eq.
Qed.

End ClientSettings.

(** ** The existence check of the configuration *)

Section Existence.

Lemma stores_config_on_Ret_bind {A B} (m : M A) (k : A -> M B) :
  keeps eq m -> (forall a, stores_config_on_Ret (k a)) ->
  stores_config_on_Ret (bind m k).
Proof.
  intros Hm Hk w b w' H. apply bind_Ret_inv in H as (a & w1 & Ha & H).
  specialize (Hm w). rewrite Ha in Hm. simpl in Hm. subst w1.
  by apply (Hk a w b w').
Qed.

Lemma put_reset_stores_config {A} (doc : gmap string Value) (a : A) :
  stores_config_on_Ret (do_ storage_Put configStoragePath doc; do_ reset; ret a).
Proof.
  intros w a' w'. unfold bind, storage_Put, reset, ret, logical.Put.
  destruct (logical.fault (storage w) logical.OpPut configStoragePath);
    [discriminate|].
  intros [= _ <-]. by exists doc.
Qed.

Lemma pathConfigWrite_stores_config
    (op : logical.Operation) (data : framework.FieldData) :
  stores_config_on_Ret (pathConfigWrite op data).
Proof.
  unfold pathConfigWrite.
  repeat first
    [ apply put_reset_stores_config
    | progress cbv zeta
    | apply stores_config_on_Ret_bind; [unfold getConfig; body_cases | intros ?] ].
Qed.

Lemma pathConfigExistenceCheck_run (path : string) (w : State) :
  logical.fault (storage w) logical.OpGet path = None ->
  pathConfigExistenceCheck path w
    = (Ret (bool_decide (is_Some (logical.entries (storage w) !! path))), w).
Proof.
  intros Hf. unfold pathConfigExistenceCheck, bind, wrapErr, storage_Get, logical.Get.
  rewrite Hf. by destruct (logical.entries (storage w) !! path).
Qed.

(** X30: the existence check of the configuration path reads the storage
    only, and when the storage answers it says whether a configuration is
    stored: it says no exactly when [getConfig] finds none, in which case
    an update fails with "config not found during update operation"; it
    says yes after every config write that returned, and no after every
    config delete that returned. *)
Theorem pathConfigExistenceCheck_tracks_config (w : State) :
  logical.fault (storage w) logical.OpGet "config" = None ->
  exists b,
    pathConfigExistenceCheck "config" w = (Ret b, w) /\
    (b = false <-> getConfig w = (Ret None, w)) /\
    (b = false -> forall data,
       pathConfigWrite logical.UpdateOperation data w
         = (Fail "config not found during update operation", w)) /\
    (forall op data r w1,
       pathConfigWrite op data w = (Ret r, w1) ->
       pathConfigExistenceCheck "config" w1 = (Ret true, w1)) /\
    (forall r w1,
       pathConfigDelete w = (Ret r, w1) ->
       pathConfigExistenceCheck "config" w1 = (Ret false, w1)).
Proof.
  intros Hf. eexists. split; [by apply pathConfigExistenceCheck_run|].
  assert (Hb : bool_decide (is_Some (logical.entries (storage w) !! "config")) = false
               <-> getConfig w = (Ret None, w)).
  { destruct (logical.entries (storage w) !! "config") as [doc|] eqn:He.
    - split; [by rewrite bool_decide_true by eauto|].
      unfold getConfig, bind, storage_Get, logical.Get, configStoragePath.
      rewrite Hf, He. unfold wrapErr, lift.
      by destruct (proxmoxConfig.fromJSON doc).
    - split; [intros _; by apply getConfig_absent|].
      intros _. apply bool_decide_false. by intros [? ?]. }
  split; [exact Hb|]. split; [|split].
  - intros H data. apply pathConfigWrite_update_absent; [exact Hf|].
    apply bool_decide_eq_false in H.
    destruct (logical.entries (storage w) !! "config"); [|reflexivity].
    destruct H. eauto.
  - intros op data r w1 H.
    apply pathConfigWrite_stores_config in H as [doc ->].
    rewrite pathConfigExistenceCheck_run by exact Hf.
    simpl. rewrite lookup_insert_eq. by rewrite bool_decide_true by eauto.
  - intros r w1 H. unfold pathConfigDelete in H. bind_ret_inv H.
    unfold storage_Delete, logical.Delete, configStoragePath in Hstep.
    destruct (logical.fault (storage w) logical.OpDelete "config"); [discriminate|].
    injection Hstep as <- <-. unfold reset in Hstep0. injection Hstep0 as <- <-.
    injection H as <- <-.
    rewrite pathConfigExistenceCheck_run by exact Hf.
    simpl. rewrite lookup_delete_eq. reflexivity.
Qed.

End Existence.

(** ** The further properties at concrete inputs *)

Section MoreExamples.

Lemma tokenId_injective_example :
  Replace digitsToLetters (uuid.String_ sample_uuid)
  = Replace digitsToLetters (uuid.String_ sample_uuid) /\
  sample_uuid = sample_uuid.
Proof.
  refine ((fun H => conj H (tokenId_injective sample_uuid sample_uuid H)) _).
  reflexivity.
Defined.

Lemma getClient_again_example :
  exists c w',
    getClient sample_env configured = (Ret c, w') /\
    getClient sample_env w' = (Ret c, w').
Proof.
  eexists _, (getClient sample_env configured).2.
  refine ((fun H => conj H
             (getClient_again_returns_cached sample_env configured _ _ H)) _).
  vm_compute; reflexivity.
Defined.

Lemma getClient_failure_example :
  exists e w',
    getClient sample_env (mounted ∅ 0) = (Fail e, w') /\
    w' = mounted ∅ 0 /\
    client (mounted ∅ 0) = None /\
    getClient sample_env (mounted ∅ 0) = getClient_build sample_env (mounted ∅ 0).
Proof.
  eexists _, (getClient sample_env (mounted ∅ 0)).2.
  refine ((fun H => conj H
             (getClient_failure_changes_nothing sample_env (mounted ∅ 0) _ _ H)) _).
  vm_compute; reflexivity.
Defined.

Lemma config_delete_example :
  exists r w',
    pathConfigDelete configured = (Ret r, w') /\
    logical.fault (storage configured) logical.OpGet "config" = None /\
    r = None /\
    logical.entries (storage w') !! "config" = None /\
    getConfig w' = (Ret None, w') /\
    getClient sample_env w' = (Fail "client api token was not defined", w').
Proof.
  eexists _, (pathConfigDelete configured).2.
  assert (H1 : pathConfigDelete configured
               = (Ret None, (pathConfigDelete configured).2))
    by (vm_compute; reflexivity).
  assert (H2 : logical.fault (storage configured) logical.OpGet "config" = None)
    by reflexivity.
  split; [exact H1|]. split; [exact H2|].
  destruct (pathConfigDelete_then_no_client sample_env configured _ None H1 H2)
    as (Hr & He & _ & Hg & Hc).
  split; [exact Hr|]. split; [exact He|]. split; [exact Hg | exact Hc].
Defined.


Lemma setRole_example :
  exists w',
    "alice" <> "" /\
    logical.fault (storage configured) logical.OpGet "role/alice" = None /\
    setRole "alice" sample_role configured = (Ret tt, w') /\
    getRole "alice" w' = (Ret (Some sample_role), w') /\
    (getConfig w').1 = (getConfig configured).1 /\
    client w' = client configured.
Proof.
  exists (setRole "alice" sample_role configured).2.
  assert (H1 : "alice" <> "") by discriminate.
  assert (H2 : logical.fault (storage configured) logical.OpGet "role/alice" = None)
    by reflexivity.
  assert (H3 : setRole "alice" sample_role configured
               = (Ret tt, (setRole "alice" sample_role configured).2))
    by (vm_compute; reflexivity).
  split; [exact H1|]. split; [exact H2|]. split; [exact H3|].
  destruct (setRole_then_getRole "alice" sample_role configured _ H1 H2 H3)
    as (Hg & _ & Hc & Hcl).
  split; [exact Hg|]. split; [exact Hc | exact Hcl].
Defined.

Lemma config_change_failure_example :
  exists o w',
    (pathConfigWrite logical.UpdateOperation (config_request ∅) (mounted ∅ 0)
       = (o, w')
     \/ pathConfigDelete (mounted ∅ 0) = (o, w')) /\
    (forall r, o <> Ret r) /\
    w' = mounted ∅ 0.
Proof.
  exists (Fail "config not found during update operation"), (mounted ∅ 0).
  assert (H1 : pathConfigWrite logical.UpdateOperation (config_request ∅)
                 (mounted ∅ 0)
               = (Fail "config not found during update operation", mounted ∅ 0))
    by (vm_compute; reflexivity).
  assert (H2 : forall r : option logical.Response,
             Fail "config not found during update operation" <> Ret r)
    by discriminate.
  split; [left; exact H1|]. split; [exact H2|].
  exact (config_change_failure_changes_nothing logical.UpdateOperation
           (config_request ∅) (mounted ∅ 0) _ _ (or_introl H1) H2).
Defined.

Lemma role_change_failure_example :
  let o := Ret (Some (logical.ErrorResponse "ttl cannot be greater than max_ttl")) in
  exists w',
    (pathRolesWrite logical.CreateOperation (role_request role_ttl_above_max_raw)
       (mounted ∅ 0) = (o, w')
     \/ pathRolesDelete (role_request role_ttl_above_max_raw) (mounted ∅ 0)
        = (o, w')) /\
    o <> Ret None /\
    w' = mounted ∅ 0.
Proof.
  intros o. exists (mounted ∅ 0).
  assert (H1 : pathRolesWrite logical.CreateOperation
                 (role_request role_ttl_above_max_raw) (mounted ∅ 0)
               = (o, mounted ∅ 0)) by (vm_compute; reflexivity).
  assert (H2 : o <> Ret None) by discriminate.
  split; [left; exact H1|]. split; [exact H2|].
  exact (role_change_failure_changes_nothing logical.CreateOperation
           (role_request role_ttl_above_max_raw) (mounted ∅ 0) _ o
           (or_introl H1) H2).
Defined.

Lemma config_update_example :
  let raw : gmap string Value := <[ "user" := VString "admin" ]> ∅ in
  let w' := stored_and_reset "config"
              (proxmoxConfig.toJSON (config_updated raw sample_config))
              configured in
  framework.Validate (config_request raw) = true /\
  getConfig configured = (Ret (Some sample_config), configured) /\
  logical.fault (storage configured) logical.OpPut "config" = None /\
  pathConfigWrite logical.UpdateOperation (config_request raw) configured
    = (Ret None, w') /\
  getConfig w' = (Ret (Some (config_updated raw sample_config)), w') /\
  proxmoxConfig.User (config_updated raw sample_config) = "admin" /\
  proxmoxConfig.Realm (config_updated raw sample_config) = "pam".
Proof.
  intros raw w'.
  assert (H1 : framework.Validate (config_request raw) = true)
    by (vm_compute; reflexivity).
  assert (H2 : getConfig configured = (Ret (Some sample_config), configured))
    by (vm_compute; reflexivity).
  assert (H3 : logical.fault (storage configured) logical.OpPut "config" = None)
    by reflexivity.
  split; [exact H1|]. split; [exact H2|]. split; [exact H3|].
  destruct (pathConfigWrite_update_merges raw sample_config configured H1 H2 H3)
    as [Hw Hg].
  split; [exact Hw|]. split; [exact Hg|].
  split; vm_compute; reflexivity.
Defined.

Lemma config_create_example :
  let w' := stored_and_reset "config"
              (proxmoxConfig.toJSON (config_created create_config_raw))
              (mounted ∅ 0) in
  framework.Validate (config_request create_config_raw) = true /\
  missing_in_config_create create_config_raw = None /\
  getConfig (mounted ∅ 0) = (Ret None, mounted ∅ 0) /\
  logical.fault (storage (mounted ∅ 0)) logical.OpPut "config" = None /\
  pathConfigWrite logical.CreateOperation (config_request create_config_raw)
    (mounted ∅ 0) = (Ret None, w') /\
  getConfig w' = (Ret (Some (config_created create_config_raw)), w').
Proof.
  intros w'.
  refine ((fun H1 H2 H3 H4 =>
             conj H1 (conj H2 (conj H3 (conj H4
               (pathConfigWrite_create_stores_request create_config_raw None
                  (mounted ∅ 0) H1 H2 H3 H4))))) _ _ _ _);
    vm_compute; reflexivity.
Defined.

Lemma config_create_missing_example :
  let raw : gmap string Value := <[ "user" := VString "root" ]> ∅ in
  framework.Validate (config_request raw) = true /\
  getConfig (mounted ∅ 0) = (Ret None, mounted ∅ 0) /\
  missing_in_config_create raw = Some "realm" /\
  pathConfigWrite logical.CreateOperation (config_request raw) (mounted ∅ 0)
    = (Fail ("missing " +:+ "realm" +:+ " in configuration"), mounted ∅ 0).
Proof.
  intros raw.
  refine ((fun H1 H2 H3 =>
             conj H1 (conj H2 (conj H3
               (pathConfigWrite_create_missing_field raw None (mounted ∅ 0)
                  "realm" H1 H2 H3)))) _ _ _);
    vm_compute; reflexivity.
Defined.

Lemma role_update_example :
  let r := role_updated update_bob_raw (role_base "bob" None) in
  let w' := stored "role/bob" (proxmoxRoleEntry.toJSON r) (mounted ∅ 0) in
  framework.Validate (role_request update_bob_raw) = true /\
  update_bob_raw !! "name" = Some (VString "bob") /\
  getRole "bob" (mounted ∅ 0) = (Ret None, mounted ∅ 0) /\
  ttl_within_max r = true /\
  logical.fault (storage (mounted ∅ 0)) logical.OpPut "role/bob" = None /\
  pathRolesWrite logical.UpdateOperation (role_request update_bob_raw)
    (mounted ∅ 0) = (Ret None, w') /\
  getRole "bob" w' = (Ret (Some r), w').
Proof.
  intros r w'.
  refine ((fun H1 H2 H3 H4 H5 =>
             conj H1 (conj H2 (conj H3 (conj H4 (conj H5
               (pathRolesWrite_update_merges update_bob_raw "bob" None
                  (mounted ∅ 0) H1 H2 H3 H4 H5)))))) _ _ _ _ _);
    vm_compute; reflexivity.
Defined.

Lemma role_create_example :
  let r := role_created create_alice_raw (role_base "alice" None) in
  let w' := stored "role/alice" (proxmoxRoleEntry.toJSON r) configured in
  framework.Validate (role_request create_alice_raw) = true /\
  create_alice_raw !! "name" = Some (VString "alice") /\
  getRole "alice" configured = (Ret None, configured) /\
  (0 <? len (supplied_nonempty create_alice_raw "user" ""))%Z = true /\
  (0 <? len (supplied_nonempty create_alice_raw "realm" ""))%Z = true /\
  ttl_within_max r = true /\
  logical.fault (storage configured) logical.OpPut "role/alice" = None /\
  pathRolesWrite logical.CreateOperation (role_request create_alice_raw)
    configured = (Ret None, w') /\
  getRole "alice" w' = (Ret (Some r), w').
Proof.
  intros r w'.
  refine ((fun H1 H2 H3 H4 H5 H6 H7 =>
             conj H1 (conj H2 (conj H3 (conj H4 (conj H5 (conj H6 (conj H7
               (pathRolesWrite_create_stores_request create_alice_raw "alice"
                  None configured H1 H2 H3 H4 H5 H6 H7)))))))) _ _ _ _ _ _ _);
    vm_compute; reflexivity.
Defined.

Lemma role_create_missing_example :
  framework.Validate (role_request update_bob_raw) = true /\
  update_bob_raw !! "name" = Some (VString "bob") /\
  getRole "bob" (mounted ∅ 0) = (Ret None, mounted ∅ 0) /\
  (0 <? len (supplied_nonempty update_bob_raw "user" ""))%Z
    && (0 <? len (supplied_nonempty update_bob_raw "realm" ""))%Z = false /\
  pathRolesWrite logical.CreateOperation (role_request update_bob_raw)
    (mounted ∅ 0)
    = (Fail (if (0 <? len (supplied_nonempty update_bob_raw "user" ""))%Z
             then "missing realm in role" else "missing user in role"),
       mounted ∅ 0).
Proof.
  refine ((fun H1 H2 H3 H4 =>
             conj H1 (conj H2 (conj H3 (conj H4
               (pathRolesWrite_create_missing_field update_bob_raw "bob" None
                  (mounted ∅ 0) H1 H2 H3 H4))))) _ _ _ _);
    vm_compute; reflexivity.
Defined.

Lemma role_delete_example :
  let w' := removed "role/alice" configured_with_role in
  name_raw "alice" !! "name" = Some (VString "alice") /\
  "alice" <> "" /\
  logical.fault (storage configured_with_role) logical.OpDelete "role/alice" = None /\
  logical.fault (storage configured_with_role) logical.OpGet "role/alice" = None /\
  pathRolesDelete (role_request (name_raw "alice")) configured_with_role
    = (Ret None, w') /\
  getRole "alice" w' = (Ret None, w') /\
  pathRolesDelete (role_request (name_raw "alice")) w' = (Ret None, w') /\
  (getConfig w').1 = (getConfig configured_with_role).1.
Proof.
  intros w'.
  assert (H1 : name_raw "alice" !! "name" = Some (VString "alice"))
    by (vm_compute; reflexivity).
  assert (H2 : "alice" <> "") by discriminate.
  assert (H3 : logical.fault (storage configured_with_role) logical.OpDelete
                 "role/alice" = None) by reflexivity.
  assert (H4 : logical.fault (storage configured_with_role) logical.OpGet
                 "role/alice" = None) by reflexivity.
  repeat (split; [assumption|]).
  destruct (pathRolesDelete_removes_role (name_raw "alice") "alice"
              configured_with_role H1 H2 H3 H4)
    as (Hd & Hg & Hi & _ & Hc & _).
  split; [exact Hd|]. split; [exact Hg|]. split; [exact Hi | exact Hc].
Defined.

Lemma role_read_example :
  name_raw "alice" !! "name" = Some (VString "alice") /\
  getRole "alice" configured_with_role
    = (Ret (Some sample_role), configured_with_role) /\
  exists resp,
    pathRolesRead (role_request (name_raw "alice")) configured_with_role
      = (Ret (Some resp), configured_with_role) /\
    logical.Data resp !! "user" = Some (VString "alice") /\
    logical.Data resp !! "ttl" = Some (VFloat (Seconds 300000000000)).
Proof.
  assert (H1 : name_raw "alice" !! "name" = Some (VString "alice"))
    by (vm_compute; reflexivity).
  assert (H2 : getRole "alice" configured_with_role
               = (Ret (Some sample_role), configured_with_role))
    by (vm_compute; reflexivity).
  split; [exact H1|]. split; [exact H2|].
  destruct (pathRolesRead_shows_stored_role (name_raw "alice") "alice"
              (Some sample_role) configured_with_role H1 H2)
    as ([resp|] & Hr & Hm); [|destruct Hm].
  destruct Hm as (_ & _ & _ & Hu & _ & Ht & _).
  exists resp. split; [exact Hr|]. split; [exact Hu | exact Ht].
Defined.

Lemma creds_unknown_role_example :
  name_raw "bob" !! "name" = Some (VString "bob") /\
  getRole "bob" configured = (Ret None, configured) /\
  pathCredentialsRead sample_env (creds_request (name_raw "bob")) configured
    = (Fail "error retrieving role: role is nil", configured).
Proof.
  refine ((fun H1 H2 =>
             conj H1 (conj H2
               (pathCredentialsRead_unknown_role sample_env (name_raw "bob")
                  "bob" configured H1 H2))) _ _);
    vm_compute; reflexivity.
Defined.

Lemma creds_role_without_user_example :
  exists c w1,
    name_raw "bob" !! "name" = Some (VString "bob") /\
    getRole "bob" configured_with_bob
      = (Ret (Some bob_without_user), configured_with_bob) /\
    (proxmoxRoleEntry.User bob_without_user = ""
     \/ proxmoxRoleEntry.Realm bob_without_user = "") /\
    getClient sample_env configured_with_bob = (Ret c, w1) /\
    pathCredentialsRead sample_env (creds_request (name_raw "bob"))
      configured_with_bob
      = (Fail "error creating Proxmox API token for role 'bob': error creating token: no user provided",
         w1) /\
    calls w1 = calls configured_with_bob.
Proof.
  eexists _, (getClient sample_env configured_with_bob).2.
  assert (H1 : name_raw "bob" !! "name" = Some (VString "bob"))
    by (vm_compute; reflexivity).
  assert (H2 : getRole "bob" configured_with_bob
               = (Ret (Some bob_without_user), configured_with_bob))
    by (vm_compute; reflexivity).
  assert (H3 : proxmoxRoleEntry.User bob_without_user = ""
               \/ proxmoxRoleEntry.Realm bob_without_user = "")
    by (left; reflexivity).
  split; [exact H1|]. split; [exact H2|]. split; [exact H3|].
  refine ((fun H4 =>
             conj H4
               (let H := pathCredentialsRead_role_without_user sample_env
                           (name_raw "bob") "bob" bob_without_user _ _ _
                           H1 H2 H3 H4 in
                conj (proj1 H) (proj1 (proj2 H)))) _).
  vm_compute; reflexivity.
Defined.

Lemma issue_requests_example :
  exists token w' c,
    proxmoxBackend_createToken sample_env sample_role configured
      = (Ret token, w') /\
    getClient sample_env configured = (Ret c, set_client (Some c) configured) /\
    calls w'
      = [ pxapi.NewConfigUserFromApi c (pxapi.mkUserID "alice" "pve");
          pxapi.CreateApiToken c (pxapi.mkUserID "alice" "pve")
            (pxapi.mkApiToken (TokenID token) "Managed by Vault"
               (token_expiry sample_role configured) false) ] /\
    token_expiry sample_role configured = 1700000300 /\
    drawn w' = 1%nat /\
    storage w' = storage configured.
Proof.
  assert (H : proxmoxBackend_createToken sample_env sample_role configured
              = ((proxmoxBackend_createToken sample_env sample_role configured).1,
                 (proxmoxBackend_createToken sample_env sample_role configured).2))
    by (vm_compute; reflexivity).
  set (o := (proxmoxBackend_createToken sample_env sample_role configured).1) in H.
  assert (Ho : o = Ret {| TokenID := "jfgannhi-pcke-khgo-bimd-ggledhijklmn";
                          Secret := "5a1f-secret" |})
    by (vm_compute; reflexivity).
  rewrite Ho in H. clear Ho o.
  destruct (proxmoxBackend_createToken_requests sample_env sample_role configured
              _ _ H) as (c & Hc & _ & _ & Hcalls & _ & Hd & Hs & _).
  eexists _, _, c. split; [exact H|]. split; [exact Hc|].
  split; [exact Hcalls|]. split; [vm_compute; reflexivity|].
  split; [exact Hd | exact Hs].
Defined.

Lemma lease_and_expiry_example :
  exists r w',
    createUserCreds sample_env sample_role configured = (Ret r, w') /\
    exists resp sec c u t,
      r = Some resp /\
      logical.Secret_ resp = Some sec /\
      last (calls w') = Some (pxapi.CreateApiToken c u t) /\
      logical.TTL sec = 300000000000 /\
      pxapi.Expire t = 1700000300 /\
      logical.MaxTTL sec = 0.
Proof.
  set (run := createUserCreds sample_env sample_role configured).
  exists (match run.1 with Ret r => r | _ => None end), run.2.
  assert (H : run = (Ret (match run.1 with Ret r => r | _ => None end), run.2))
    by (vm_compute; reflexivity).
  split; [exact H|].
  destruct (createUserCreds_lease_and_expiry sample_env sample_role configured
              _ _ H) as (resp & sec & c & u & t & Hr & Hs & Hl & _ & Hpos & _ & Hm).
  exists resp, sec, c, u, t.
  split; [exact Hr|]. split; [exact Hs|]. split; [exact Hl|].
  destruct (Hpos eq_refl) as [Ht He].
  split; [exact Ht|]. split; [exact He | exact Hm].
Defined.

Lemma revoke_requests_example :
  exists r w',
    tokenRevoke sample_env sample_lease configured_with_role = (Ret r, w') /\
    r = None /\
    exists c,
      calls w'
        = [ pxapi.NewConfigUserFromApi c (pxapi.mkUserID "alice" "pve");
            pxapi.DeleteApiToken c (pxapi.mkUserID "alice" "pve")
              (pxapi.mkApiToken "jfgannhi-pcke-khgo-bimd-ggledhijklmn" "" 0 false) ] /\
      storage w' = storage configured_with_role.
Proof.
  set (run := tokenRevoke sample_env sample_lease configured_with_role).
  exists (match run.1 with Ret r => r | _ => None end), run.2.
  assert (H : run = (Ret (match run.1 with Ret r => r | _ => None end), run.2))
    by (vm_compute; reflexivity).
  split; [exact H|].
  destruct (tokenRevoke_requests sample_env sample_lease configured_with_role
              _ _ H) as (Hr & c & role & roleEntry & _ & Hrole & Hg & Hcalls & Hs & _).
  split; [exact Hr|]. exists c.
  vm_compute in Hrole. injection Hrole as <-.
  vm_compute in Hg. injection Hg as <-.
  split; [exact Hcalls | exact Hs].
Defined.

Lemma renew_example :
  exists o w',
    tokenRenew sample_lease configured_with_role = (o, w') /\
    w' = configured_with_role /\
    o = Ret (Some
          {| logical.Data := ∅;
             logical.Secret_ :=
               Some {| logical.InternalData := logical.InternalData sample_lease;
                       logical.TTL := 300000000000;
                       logical.MaxTTL := 0 |} |}).
Proof.
  set (run := tokenRenew sample_lease configured_with_role).
  exists run.1, run.2.
  assert (H : run = (run.1, run.2)) by (vm_compute; reflexivity).
  split; [exact H|].
  split; [exact (proj1 (tokenRenew_applies_current_role sample_lease
                          configured_with_role _ _ H))|].
  vm_compute; reflexivity.
Defined.

Lemma touches_one_key_example :
  let req := OnRole logical.DeleteOperation (name_raw "alice") in
  touched_key req <> Some "config" /\
  logical.entries (storage (HandleRequest sample_env req configured_with_role).2)
    !! "config"
  = logical.entries (storage configured_with_role) !! "config".
Proof.
  intros req.
  assert (H : touched_key req <> Some "config").
  { intros E. vm_compute in E. discriminate E. }
  split; [exact H|].
  exact (HandleRequest_touches_one_key sample_env req configured_with_role
           "config" H).
Defined.

Lemma seconds_round_trip_example :
  whole_seconds_in_range 300 /\
  seconds_to_Duration 300 = 300 * Second /\
  Seconds (seconds_to_Duration 300) = float64_of_int 300 /\
  int_of_float64 (Seconds (seconds_to_Duration 300)) = 300.
Proof.
  assert (H : whole_seconds_in_range 300) by (split; discriminate).
  split; [exact H|]. exact (seconds_round_trip 300 H).
Defined.


Lemma newClient_settings_example :
  exists c,
    newClient sample_env (Some sample_config) = Ret c /\
    proxmoxConfig.TaskTimeout sample_config = seconds_to_Duration 120 /\
    whole_seconds_in_range 120 /\
    pxapi.TaskTimeout c = 120 /\
    pxapi.InsecureSkipVerify c = false /\
    pxapi.APIToken c = Some ("root@pam!tok1", "s").
Proof.
  eexists.
  assert (H2 : proxmoxConfig.TaskTimeout sample_config = seconds_to_Duration 120)
    by (vm_compute; reflexivity).
  assert (H3 : whole_seconds_in_range 120) by (split; discriminate).
  refine ((fun H1 =>
             conj H1 (conj H2 (conj H3
               (let H := proj2 (proj2 (newClient_uses_stored_settings sample_env
                                         sample_config _ 120 H1 H2 H3)) in
                _)))) _); [|vm_compute; reflexivity].
  rewrite H. repeat split.
Defined.

Lemma config_read_timeout_example :
  getConfig configured = (Ret (Some sample_config), configured) /\
  proxmoxConfig.TaskTimeout sample_config = seconds_to_Duration 120 /\
  whole_seconds_in_range 120 /\
  exists resp,
    pathConfigRead configured = (Ret (Some resp), configured) /\
    logical.Data resp !! "timeout" = Some (VInt 120).
Proof.
  assert (H1 : getConfig configured = (Ret (Some sample_config), configured))
    by (vm_compute; reflexivity).
  assert (H2 : proxmoxConfig.TaskTimeout sample_config = seconds_to_Duration 120)
    by (vm_compute; reflexivity).
  assert (H3 : whole_seconds_in_range 120) by (split; discriminate).
  repeat (split; [assumption|]).
  exact (pathConfigRead_timeout_in_seconds sample_config 120 configured H1 H2 H3).
Defined.

Lemma existence_check_example :
  logical.fault (storage (mounted ∅ 0)) logical.OpGet "config" = None /\
  pathConfigExistenceCheck "config" (mounted ∅ 0) = (Ret false, mounted ∅ 0) /\
  (forall data,
     pathConfigWrite logical.UpdateOperation data (mounted ∅ 0)
       = (Fail "config not found during update operation", mounted ∅ 0)) /\
  (forall op data r w1,
     pathConfigWrite op data (mounted ∅ 0) = (Ret r, w1) ->
     pathConfigExistenceCheck "config" w1 = (Ret true, w1)).
Proof.
  assert (H : logical.fault (storage (mounted ∅ 0)) logical.OpGet "config" = None)
    by reflexivity.
  split; [exact H|].
  destruct (pathConfigExistenceCheck_tracks_config (mounted ∅ 0) H)
    as (b & Hb & _ & Hu & Hw & _).
  assert (Hf : b = false) by (vm_compute in Hb; congruence).
  subst b. split; [exact Hb|]. split; [exact (Hu eq_refl) | exact Hw].
Defined.

End MoreExamples.
